(** * esp_dmx: the RDM wire codec, the UART interrupt handler and two
    responder handlers, embedded from the C sources.

    Integers are [Z] with the wrap-around of their C type written out,
    buffers are lists of bytes, and an object that the code addresses
    through a [uint8_t *] cast is the list of its bytes in memory order
    (the targets are little-endian). *)

From Stdlib Require Import ZArith List Bool Lia.
Import ListNotations.
Local Open Scope Z_scope.

(** ** Machine integers and byte buffers *)

Definition u8 (x : Z) : Z := x mod 2 ^ 8.
Definition u16 (x : Z) : Z := x mod 2 ^ 16.
Definition size_t (x : Z) : Z := x mod 2 ^ 32.

(** [buf[i]]: bytes past the end of the list read as 0. *)
Definition byte_at (buf : list Z) (i : Z) : Z := nth (Z.to_nat i) buf 0.

(** [buf[i] = b] for an index inside the object. *)
Fixpoint store (buf : list Z) (i : nat) (b : Z) : list Z :=
  match buf, i with
  | [], _ => []
  | _ :: t, O => b :: t
  | h :: t, S i' => h :: store t i' b
  end.

(** The [n] bytes of an integer object, lowest address first. *)
Fixpoint le_bytes (n : nat) (v : Z) : list Z :=
  match n with
  | O => []
  | S n' => v mod 256 :: le_bytes n' (v / 256)
  end.

(** The integer held by an object whose bytes are [bs]. *)
Fixpoint le_word (bs : list Z) : Z :=
  match bs with
  | [] => 0
  | b :: t => b + 256 * le_word t
  end.

(** [&buf[off]]: the memory from offset [off] on. *)
Definition offset (buf : list Z) (off : Z) : list Z := skipn (Z.to_nat off) buf.

(** [bswap16], [bswap64] of endian.h: the bytes of the object reversed. *)
Definition bswap16 (x : Z) : Z := le_word (rev (le_bytes 2 x)).
Definition bswap64 (x : Z) : Z := le_word (rev (le_bytes 8 x)).

(** ** dmx_caps.h *)

Definition RDM_MAX_UID : Z := 0xfffffffffffe.
Definition RDM_DISCOVERY_RESP_LEN : Z := 17.
Definition RDM_PREAMBLE_MAX_LEN : Z := 7.
Definition RDM_DELIMITER : Z := 0xaa.
Definition RDM_PREAMBLE : Z := 0xfe.
Definition DMX_MAX_PACKET_SIZE : Z := 513.
Definition DMX_SC : Z := 0x00.
Definition RDM_SC : Z := 0xcc.

Definition DMX_START_CODE_IS_VALID (sc : Z) : bool :=
  negb ((sc >=? 0x92) && (sc <=? 0xa9)) && negb ((sc >=? 0xab) && (sc <=? 0xcd))
  && negb ((sc >=? 0xf0) && (sc <=? 0xf7)).

(** ** rdm_tools.c *)

(** Modelled from the spec: rdm_constants.h is not among the sources; the
    sub-start code of a standard packet is [0x01] (dmx_caps.h has the same
    value under the name [RDM_SC_SUB]). *)
Definition RDM_SUB_SC : Z := 0x01.

(** The remaining constants of rdm_constants.h that [rdm_parse] names.
    Their values are not given by the sources, so the codec is
    parameterised by them. *)
Class RdmConstants : Set := {
  RDM_DISCOVERY_COMMAND_RESPONSE : Z;
  RDM_PID_DISC_UNIQUE_BRANCH : Z
}.

(** The values of ANSI E1.20, used to run the codec on concrete packets. *)
Definition e120_constants : RdmConstants := {|
  RDM_DISCOVERY_COMMAND_RESPONSE := 0x11;
  RDM_PID_DISC_UNIQUE_BRANCH := 0x0001
|}.

(** [buf_to_uid] declares [uint64_t val;] without an initialiser and
    assigns bytes 0 to 5 only. [stale] is what the eight bytes of [val]
    hold when the function is entered. *)
Definition buf_to_uid (stale : Z) (buf : list Z) : Z :=
  let val := le_bytes 8 stale in
  let val := store val 5 (byte_at buf 0) in
  let val := store val 4 (byte_at buf 1) in
  let val := store val 3 (byte_at buf 2) in
  let val := store val 2 (byte_at buf 3) in
  let val := store val 1 (byte_at buf 4) in
  let val := store val 0 (byte_at buf 5) in
  le_word val.

(** [uid_to_buf]: the six bytes that [memcpy] writes to [buf]. *)
Definition uid_to_buf (uid : Z) : list Z :=
  let uid := Z.shiftr (bswap64 uid) 16 in
  firstn 6 (le_bytes 8 uid).

(** [rdm_get_uid]: the static [rdm_uid] is replaced on first use, when it is
    0, by a UID derived from the MAC address. [efuse_uid] is that derived
    value ([rdm_uid_t] and [esp_efuse_mac_get_default] are not among the
    sources). Returns the UID and the new content of [rdm_uid]. *)
Definition rdm_get_uid (rdm_uid efuse_uid : Z) : Z * Z :=
  if rdm_uid =? 0 then (efuse_uid, efuse_uid) else (rdm_uid, rdm_uid).

Record rdm_event_t : Set := {
  destination_uid : Z;
  source_uid : Z;
  tn : Z;
  port_id : Z;
  message_count : Z;
  sub_device : Z;
  cc : Z;
  pid : Z;
  pdl : Z;
  checksum_is_valid : bool
}.

(** Modelled from the spec: [rdm_data_t] is declared in a header that is not
    among the sources; the fields of the 24-byte RDM header are laid out in
    the order the spec lists them. *)
Module rdm_data_t.
Definition sc (data : list Z) : Z := byte_at data 0.
Definition sub_sc (data : list Z) : Z := byte_at data 1.
Definition message_len (data : list Z) : Z := byte_at data 2.
Definition destination_uid (data : list Z) : list Z := offset data 3.
Definition source_uid (data : list Z) : list Z := offset data 9.
Definition tn (data : list Z) : Z := byte_at data 15.
Definition port_id (data : list Z) : Z := byte_at data 16.
Definition message_count (data : list Z) : Z := byte_at data 17.
Definition sub_device (data : list Z) : Z :=
  le_word [byte_at data 18; byte_at data 19].
Definition cc (data : list Z) : Z := byte_at data 20.
Definition pid (data : list Z) : Z :=
  le_word [byte_at data 21; byte_at data 22].
Definition pdl (data : list Z) : Z := byte_at data 23.
End rdm_data_t.

(** [for (; preamble_len < 7; ++preamble_len)
      if (response[preamble_len] == RDM_DELIMITER) break;] *)
Fixpoint find_delimiter (fuel : nat) (response : list Z) (preamble_len : Z) : Z :=
  match fuel with
  | O => preamble_len
  | S fuel' =>
      if preamble_len <? 7 then
        if byte_at response preamble_len =? RDM_DELIMITER then preamble_len
        else find_delimiter fuel' response (preamble_len + 1)
      else preamble_len
  end.

(** [for (int i = 5, j = 0; i >= 0; --i, j += 2)]: decodes the UID into the
    bytes of [uid] and accumulates the 16-bit [sum]. *)
Fixpoint decode_uid_loop (fuel : nat) (response : list Z) (i j : Z)
    (uid : list Z) (sum : Z) : list Z * Z :=
  match fuel with
  | O => (uid, sum)
  | S fuel' =>
      if i >=? 0 then
        let uid := store uid (Z.to_nat i) (Z.land (byte_at response j) 0x55) in
        let uid := store uid (Z.to_nat i)
                     (Z.lor (byte_at uid i) (Z.land (byte_at response (j + 1)) 0xaa)) in
        let sum := u16 (sum + (byte_at uid i + 0xff)) in
        decode_uid_loop fuel' response (i - 1) (j + 2) uid sum
      else (uid, sum)
  end.

(** [for (int i = 1, j = 12; i >= 0; --i, j += 2)]: decodes the checksum. *)
Fixpoint decode_checksum_loop (fuel : nat) (response : list Z) (i j : Z)
    (checksum : list Z) : list Z :=
  match fuel with
  | O => checksum
  | S fuel' =>
      if i >=? 0 then
        let checksum :=
          store checksum (Z.to_nat i) (Z.land (byte_at response j) 0x55) in
        let checksum :=
          store checksum (Z.to_nat i)
            (Z.lor (byte_at checksum i) (Z.land (byte_at response (j + 1)) 0xaa)) in
        decode_checksum_loop fuel' response (i - 1) (j + 2) checksum
      else checksum
  end.

(** [for (int i = 0; i < message_len; ++i) sum += data[i];] with a
    [uint16_t] accumulator. *)
Fixpoint sum_loop (fuel : nat) (data : list Z) (len i sum : Z) : Z :=
  match fuel with
  | O => sum
  | S fuel' =>
      if i <? len then sum_loop fuel' data len (i + 1) (u16 (sum + byte_at data i))
      else sum
  end.

Section RdmTools.
Context {K : RdmConstants}.

(** [rdm_parse(data, size, event)]: the result and the event left behind.
    [stale_d] and [stale_s] are the stale contents of [val] in the two
    inlined calls of [buf_to_uid]. *)
Definition rdm_parse (stale_d stale_s : Z) (data : list Z) (size : Z)
    (event : rdm_event_t) : bool * rdm_event_t :=
  if ((rdm_data_t.sc data =? RDM_PREAMBLE) || (rdm_data_t.sc data =? RDM_DELIMITER))
     && (size >? 17) then
    let preamble_len := find_delimiter 7 data 0 in
    if negb (byte_at data preamble_len =? RDM_DELIMITER)
       || (size <? preamble_len + 17) then
      (false, event)
    else
      let response := offset data (preamble_len + 1) in
      let '(uid, sum) := decode_uid_loop 6 response 5 0 (le_bytes 8 0) 0 in
      (* both bytes of the uninitialised [checksum] are assigned *)
      let checksum := decode_checksum_loop 2 response 1 12 [0; 0] in
      (true,
       {| destination_uid := destination_uid event;
          source_uid := le_word uid;
          tn := tn event;
          port_id := port_id event;
          message_count := message_count event;
          sub_device := sub_device event;
          cc := RDM_DISCOVERY_COMMAND_RESPONSE;
          pid := RDM_PID_DISC_UNIQUE_BRANCH;
          pdl := pdl event;
          checksum_is_valid := sum =? le_word checksum |})
  else if (rdm_data_t.sc data =? RDM_SC) && (rdm_data_t.sub_sc data =? RDM_SUB_SC)
          && (rdm_data_t.message_len data >=? size) then
    let message_len := rdm_data_t.message_len data in
    let sum := sum_loop (Z.to_nat message_len) data message_len 0 0 in
    let checksum :=
      bswap16 (le_word [byte_at data message_len; byte_at data (message_len + 1)]) in
    (false,
     {| destination_uid := buf_to_uid stale_d (rdm_data_t.destination_uid data);
        source_uid := buf_to_uid stale_s (rdm_data_t.source_uid data);
        tn := rdm_data_t.tn data;
        port_id := rdm_data_t.port_id data;
        message_count := rdm_data_t.message_count data;
        sub_device := bswap16 (rdm_data_t.sub_device data);
        cc := rdm_data_t.cc data;
        pid := bswap16 (rdm_data_t.pid data);
        pdl := rdm_data_t.pdl data;
        checksum_is_valid := sum =? checksum |})
  else (false, event).
End RdmTools.

(** [for (int i = 8, j = 5; i < 20; i += 2, --j)]: interleaves the UID bytes
    into [response] and accumulates the 16-bit [checksum]. *)
Fixpoint encode_uid_loop (fuel : nat) (uid : list Z) (i j : Z)
    (response : list Z) (checksum : Z) : list Z * Z :=
  match fuel with
  | O => (response, checksum)
  | S fuel' =>
      if i <? 20 then
        let response := store response (Z.to_nat i) (u8 (Z.lor (byte_at uid j) 0xaa)) in
        let response :=
          store response (Z.to_nat (i + 1)) (u8 (Z.lor (byte_at uid j) 0x55)) in
        let checksum := u16 (checksum + (byte_at uid j + (0xaa + 0x55))) in
        encode_uid_loop fuel' uid (i + 2) (j - 1) response checksum
      else (response, checksum)
  end.

(** The body of [rdm_write_discovery_response] once [uid] is known: the
    [response] array and the accumulated [checksum]. *)
Definition discovery_response (uid : Z) : list Z * Z :=
  let response :=
    [RDM_PREAMBLE; RDM_PREAMBLE; RDM_PREAMBLE; RDM_PREAMBLE; RDM_PREAMBLE;
     RDM_PREAMBLE; RDM_PREAMBLE; RDM_DELIMITER] ++ repeat 0 16 in
  let '(response, checksum) := encode_uid_loop 6 (le_bytes 8 uid) 8 5 response 0 in
  let response := store response 20 (u8 (Z.lor (Z.shiftr checksum 8) 0xaa)) in
  let response := store response 21 (u8 (Z.lor (Z.shiftr checksum 8) 0x55)) in
  let response := store response 22 (u8 (Z.lor checksum 0xaa)) in
  let response := store response 23 (u8 (Z.lor checksum 0x55)) in
  (response, checksum).

(** [rdm_write_discovery_response]: the buffer and the size handed to
    [dmx_write] (which is not among the sources), and the new [rdm_uid]. *)
Definition rdm_write_discovery_response (rdm_uid efuse_uid : Z)
    : list Z * Z * Z :=
  let '(uid, rdm_uid) := rdm_get_uid rdm_uid efuse_uid in
  let response := fst (discovery_response uid) in
  (response, 24, rdm_uid).

(** ** impl/dmx_hal.h and impl/intr_handlers.h *)

(** [uidcpy] is the same code as [buf_to_uid]. *)
Definition uidcpy (stale : Z) (buf : list Z) : Z :=
  let val := le_bytes 8 stale in
  let val := store val 5 (byte_at buf 0) in
  let val := store val 4 (byte_at buf 1) in
  let val := store val 3 (byte_at buf 2) in
  let val := store val 2 (byte_at buf 3) in
  let val := store val 1 (byte_at buf 4) in
  let val := store val 0 (byte_at buf 5) in
  le_word val.

(** The interrupt bits of the UART peripheral (hal/uart_types.h of the SDK,
    not part of this repository). *)
Class UartIntr : Set := {
  UART_INTR_RXFIFO_FULL : Z;
  UART_INTR_TXFIFO_EMPTY : Z;
  UART_INTR_PARITY_ERR : Z;
  UART_INTR_FRAM_ERR : Z;
  UART_INTR_RXFIFO_OVF : Z;
  UART_INTR_BRK_DET : Z;
  UART_INTR_RXFIFO_TOUT : Z;
  UART_INTR_TX_DONE : Z;
  UART_INTR_RS485_PARITY_ERR : Z;
  UART_INTR_RS485_FRM_ERR : Z;
  UART_INTR_RS485_CLASH : Z
}.

(** The bit positions of the ESP32 UART. *)
Definition esp32_uart_intr : UartIntr := {|
  UART_INTR_RXFIFO_FULL := Z.shiftl 1 0;
  UART_INTR_TXFIFO_EMPTY := Z.shiftl 1 1;
  UART_INTR_PARITY_ERR := Z.shiftl 1 2;
  UART_INTR_FRAM_ERR := Z.shiftl 1 3;
  UART_INTR_RXFIFO_OVF := Z.shiftl 1 4;
  UART_INTR_BRK_DET := Z.shiftl 1 7;
  UART_INTR_RXFIFO_TOUT := Z.shiftl 1 8;
  UART_INTR_TX_DONE := Z.shiftl 1 14;
  UART_INTR_RS485_PARITY_ERR := Z.shiftl 1 15;
  UART_INTR_RS485_FRM_ERR := Z.shiftl 1 16;
  UART_INTR_RS485_CLASH := Z.shiftl 1 17
|}.

(** The values posted with [xTaskNotifyFromISR]; [NOTIFY_ZERO] is the
    literal 0 of the data branch. *)
Inductive dmx_notification : Set :=
  | DMX_OK
  | DMX_ERR_DATA_OVERFLOW
  | DMX_ERR_IMPROPER_SLOT
  | NOTIFY_ZERO.

(** The fields of [dmx_driver_t] that the UART handler touches. The
    declaration (impl/driver.h) is not among the sources: [head] and
    [size] are kept as unbounded integers, [waiting_task] as whether the
    handle is non-null, and the notification value and the [data_written]
    semaphore as what the handler last posted to them. *)
Record dmx_driver_t : Set := {
  is_busy : bool;
  is_in_break : bool;
  waiting_task : bool;
  head : Z;
  size : Z;
  data : list Z;
  last_received_ts : Z;
  last_sent_ts : Z;
  notification : option dmx_notification;
  data_written : bool
}.

(** What the peripheral shows during one pass of the handler's loop. *)
Record uart_hal_t : Set := {
  interrupt_status : Z;
  rxfifo : list Z;
  txfifo_len : Z;
  rx_timeout_threshold : Z
}.

(** [dmx_hal_read_rxfifo(hal, buf, &size)]: the clamped size and the bytes
    copied. *)
Definition dmx_hal_read_rxfifo (hal : uart_hal_t) (size : Z) : Z * list Z :=
  let rxfifo_len := Z.of_nat (length (rxfifo hal)) in
  let size := if size >? rxfifo_len then rxfifo_len else size in
  (size, firstn (Z.to_nat size) (rxfifo hal)).

(** [dmx_hal_write_txfifo(hal, buf, &size)]: the clamped size and the bytes
    of [buf] that are pushed to the transmit FIFO. *)
Definition dmx_hal_write_txfifo (hal : uart_hal_t) (buf : list Z) (size : Z)
    : Z * list Z :=
  let size := if size >? txfifo_len hal then txfifo_len hal else size in
  (size, firstn (Z.to_nat size) buf).

(** [memcpy(&buf[off], src, length src)] inside [buf]. *)
Fixpoint blit (buf : list Z) (off : nat) (src : list Z) : list Z :=
  match src with
  | [] => buf
  | b :: src' => blit (store buf off b) (S off) src'
  end.

(** [intr_flags & mask] as a condition. *)
Definition intr_set (intr_flags mask : Z) : bool :=
  negb (Z.land intr_flags mask =? 0).

Section IntrHandlers.
Context {U : UartIntr}.

Definition DMX_INTR_RX_FIFO_OVERFLOW : Z := UART_INTR_RXFIFO_OVF.
Definition DMX_INTR_RX_DATA : Z :=
  Z.lor UART_INTR_RXFIFO_FULL UART_INTR_RXFIFO_TOUT.
Definition DMX_INTR_RX_BREAK : Z := UART_INTR_BRK_DET.
Definition DMX_INTR_RX_FRAMING_ERR : Z :=
  Z.lor (Z.lor (Z.lor UART_INTR_PARITY_ERR UART_INTR_RS485_PARITY_ERR)
           UART_INTR_FRAM_ERR) UART_INTR_RS485_FRM_ERR.
Definition DMX_INTR_RX_CLASH : Z := UART_INTR_RS485_CLASH.
Definition DMX_INTR_TX_DATA : Z := UART_INTR_TXFIFO_EMPTY.
Definition DMX_INTR_TX_DONE : Z := UART_INTR_TX_DONE.

(** The branch of the handler's [if]/[else if] chain that a status word
    selects. *)
Inductive intr_branch : Set :=
  | RxFifoOverflow | RxFramingErr | RxBreak | RxData | RxClash
  | TxData | TxDone | Unhandled.

Definition dmx_intr_branch (intr_flags : Z) : intr_branch :=
  if intr_set intr_flags DMX_INTR_RX_FIFO_OVERFLOW then RxFifoOverflow
  else if intr_set intr_flags DMX_INTR_RX_FRAMING_ERR then RxFramingErr
  else if intr_set intr_flags DMX_INTR_RX_BREAK then RxBreak
  else if intr_set intr_flags DMX_INTR_RX_DATA then RxData
  else if intr_set intr_flags DMX_INTR_RX_CLASH then RxClash
  else if intr_set intr_flags DMX_INTR_TX_DATA then TxData
  else if intr_set intr_flags DMX_INTR_TX_DONE then TxDone
  else Unhandled.

(** One pass of the [while (true)] loop of [dmx_intr_handler] for a
    non-zero status word. *)
Definition dmx_intr_pass (now : Z) (hal : uart_hal_t) (driver : dmx_driver_t)
    : dmx_driver_t :=
  let intr_flags := interrupt_status hal in
  match dmx_intr_branch intr_flags with
  | RxFifoOverflow =>
      {| is_busy := false;
         is_in_break := is_in_break driver;
         waiting_task := waiting_task driver;
         head := head driver;
         size := size driver;
         data := data driver;
         last_received_ts := last_received_ts driver;
         last_sent_ts := last_sent_ts driver;
         notification :=
           if is_busy driver && waiting_task driver
           then Some DMX_ERR_DATA_OVERFLOW else notification driver;
         data_written := data_written driver |}
  | RxFramingErr =>
      {| is_busy := false;
         is_in_break := is_in_break driver;
         waiting_task := waiting_task driver;
         head := head driver;
         size := size driver;
         data := data driver;
         last_received_ts := last_received_ts driver;
         last_sent_ts := last_sent_ts driver;
         notification :=
           if is_busy driver && waiting_task driver
           then Some DMX_ERR_IMPROPER_SLOT else notification driver;
         data_written := data_written driver |}
  | RxBreak =>
      {| is_busy := true;
         is_in_break := true;
         waiting_task := waiting_task driver;
         head := 0;
         size := if is_busy driver then head driver else size driver;
         data := data driver;
         last_received_ts := last_received_ts driver;
         last_sent_ts := last_sent_ts driver;
         notification :=
           if is_busy driver then Some DMX_OK else notification driver;
         data_written := data_written driver |}
  | RxData =>
      let ts :=
        if intr_set intr_flags UART_INTR_RXFIFO_TOUT
        then now - u8 (rx_timeout_threshold hal) * 44 else now in
      let read_len := size_t (DMX_MAX_PACKET_SIZE - head driver) in
      let '(head', data') :=
        if is_busy driver && (read_len >? 0) then
          let '(read_len, bytes) := dmx_hal_read_rxfifo hal read_len in
          (head driver + read_len,
           blit (data driver) (Z.to_nat (head driver)) bytes)
        else (head driver, data driver) in
      let full_packet :=
        negb (negb (is_busy driver) || negb (waiting_task driver))
        && (byte_at data' 0 =? DMX_SC) && (head' >? size driver) in
      {| is_busy := if full_packet then false else is_busy driver;
         is_in_break := false;
         waiting_task := waiting_task driver;
         head := head';
         size := size driver;
         data := data';
         last_received_ts := ts;
         last_sent_ts := last_sent_ts driver;
         notification :=
           if full_packet then Some NOTIFY_ZERO else notification driver;
         data_written := data_written driver |}
  | RxClash => driver
  | TxData =>
      let write_size :=
        fst (dmx_hal_write_txfifo hal (data driver)
               (size_t (size driver - head driver))) in
      {| is_busy := is_busy driver;
         is_in_break := is_in_break driver;
         waiting_task := waiting_task driver;
         head := head driver + write_size;
         size := size driver;
         data := data driver;
         last_received_ts := last_received_ts driver;
         last_sent_ts := last_sent_ts driver;
         notification := notification driver;
         data_written := data_written driver |}
  | TxDone =>
      {| is_busy := false;
         is_in_break := is_in_break driver;
         waiting_task := waiting_task driver;
         head := head driver;
         size := size driver;
         data := data driver;
         last_received_ts := last_received_ts driver;
         last_sent_ts := now;
         notification := notification driver;
         data_written := true |}
  | Unhandled => driver
  end.

(** [dmx_intr_handler]: one entry of the interrupt service routine. The
    loop reads the status word at every pass and leaves when it is 0;
    [hal] lists what the peripheral shows at the successive passes and
    reads as status 0 once exhausted. *)
Fixpoint dmx_intr_handler (now : Z) (hal : list uart_hal_t)
    (driver : dmx_driver_t) : dmx_driver_t :=
  match hal with
  | [] => driver
  | h :: hal' =>
      if interrupt_status h =? 0 then driver
      else dmx_intr_handler now hal' (dmx_intr_pass now h driver)
  end.

(** The bytes that one pass, and one entry, of [dmx_intr_handler] push to
    the transmit FIFO. Only the TX_DATA branch writes, and the buffer it
    hands to [dmx_hal_write_txfifo] is [driver->buffer.data], the start of
    the buffer, whatever [head] is. *)
Definition dmx_intr_pass_written (hal : uart_hal_t) (driver : dmx_driver_t)
    : list Z :=
  match dmx_intr_branch (interrupt_status hal) with
  | TxData =>
      snd (dmx_hal_write_txfifo hal (data driver)
             (size_t (size driver - head driver)))
  | _ => []
  end.

Fixpoint dmx_intr_handler_written (now : Z) (hal : list uart_hal_t)
    (driver : dmx_driver_t) : list Z :=
  match hal with
  | [] => []
  | h :: hal' =>
      if interrupt_status h =? 0 then []
      else dmx_intr_pass_written h driver
           ++ dmx_intr_handler_written now hal' (dmx_intr_pass now h driver)
  end.

(** The driver after each of a sequence of interrupts, an interrupt being
    the time of entry and the peripheral's behaviour during the entry. *)
Fixpoint dmx_intr_trace (intrs : list (Z * list uart_hal_t))
    (driver : dmx_driver_t) : list dmx_driver_t :=
  match intrs with
  | [] => []
  | (now, hal) :: intrs' =>
      let driver' := dmx_intr_handler now hal driver in
      driver' :: dmx_intr_trace intrs' driver'
  end.

(** An interrupt of the receive side: no pass of the handler takes one of
    the two transmit branches. *)
Definition receive_pass (h : uart_hal_t) : bool :=
  match dmx_intr_branch (interrupt_status h) with
  | TxData | TxDone => false
  | _ => true
  end.

Definition receive_interrupt (intr : Z * list uart_hal_t) : bool :=
  forallb receive_pass (snd intr).
End IntrHandlers.

(** ** The RDM responder: queued messages (queue_status) *)

(** The response types that the handlers return. *)
Inductive rdm_response_type_t : Set :=
  | RDM_RESPONSE_TYPE_ACK
  | RDM_RESPONSE_TYPE_NACK_REASON.

(** Modelled from the spec: the notification queue is a FIFO of the PIDs
    with pending change notifications, and [queue_pop() -> pid | 0] takes
    its oldest entry, or yields 0 when the queue is empty. *)
Definition fifo_queue_pop (queue : list Z) : Z * list Z :=
  match queue with
  | [] => (0, [])
  | pid :: queue' => (pid, queue')
  end.

(** Constants and helpers of the responder headers that the queued-message
    handler names; none is defined in the sources. [queue_t] is the
    notification queue of a port and [rdm_queue_pop] returns the popped PID
    and the queue it leaves; [rdm_emplace_word pd w] is the parameter data
    after the word is written and the number of bytes written. *)
Class QueueStatusEnv : Type := {
  RDM_STATUS_GET_LAST_MESSAGE : Z;
  RDM_STATUS_ADVISORY : Z;
  RDM_STATUS_WARNING : Z;
  RDM_STATUS_ERROR : Z;
  RDM_NR_DATA_OUT_OF_RANGE : Z;
  RDM_PID_STATUS_MESSAGE : Z;
  rdm_emplace_word : list Z -> Z -> list Z * Z;
  queue_t : Type;
  rdm_queue_pop : queue_t -> Z * queue_t
}.

(** The values of ANSI E1.20, with a big-endian [rdm_emplace_word] and the
    FIFO queue. *)
Definition e120_queue_status : QueueStatusEnv := {|
  RDM_STATUS_GET_LAST_MESSAGE := 0x01;
  RDM_STATUS_ADVISORY := 0x02;
  RDM_STATUS_WARNING := 0x03;
  RDM_STATUS_ERROR := 0x04;
  RDM_NR_DATA_OUT_OF_RANGE := 0x0006;
  RDM_PID_STATUS_MESSAGE := 0x0030;
  rdm_emplace_word := fun pd w => (blit pd 0 (rev (le_bytes 2 w)), 2);
  queue_t := list Z;
  rdm_queue_pop := fifo_queue_pop
|}.

Section QueueStatus.
Context {Q : QueueStatusEnv}.

(** What a handler leaves behind: its return value, the notification queue
    of the port, the PID of [*header] (the one field of the header that is
    assigned), the parameter data and [*pdl_out]. *)
Record rhd_result : Type := {
  rhd_ack : rdm_response_type_t;
  rhd_queue : queue_t;
  rhd_header_pid : Z;
  rhd_pd : list Z;
  rhd_pdl_out : Z
}.

(** [rdm_rhd_status_messages]: sets [*pdl_out] to 0 and acknowledges. *)
Definition rdm_rhd_status_messages (queue : queue_t) (header_pid : Z)
    (pd : list Z) (pdl_out : Z) : rhd_result :=
  {| rhd_ack := RDM_RESPONSE_TYPE_ACK;
     rhd_queue := queue;
     rhd_header_pid := header_pid;
     rhd_pd := pd;
     rhd_pdl_out := 0 |}.

Definition rdm_rhd_queued_message (queue : queue_t) (header_pid : Z)
    (pd : list Z) (pdl_out : Z) : rhd_result :=
  let status_type_requested := byte_at pd 0 in
  if negb (status_type_requested =? RDM_STATUS_GET_LAST_MESSAGE)
     && negb (status_type_requested =? RDM_STATUS_ADVISORY)
     && negb (status_type_requested =? RDM_STATUS_WARNING)
     && negb (status_type_requested =? RDM_STATUS_ERROR) then
    let '(pd, n) := rdm_emplace_word pd RDM_NR_DATA_OUT_OF_RANGE in
    {| rhd_ack := RDM_RESPONSE_TYPE_NACK_REASON;
       rhd_queue := queue;
       rhd_header_pid := header_pid;
       rhd_pd := pd;
       rhd_pdl_out := u8 n |}
  else
    let '(queue_pid, queue) := rdm_queue_pop queue in
    if negb (queue_pid =? 0) then
      {| rhd_ack := RDM_RESPONSE_TYPE_ACK;
         rhd_queue := queue;
         rhd_header_pid := header_pid;
         rhd_pd := pd;
         rhd_pdl_out := pdl_out |}
    else
      rdm_rhd_status_messages queue RDM_PID_STATUS_MESSAGE pd pdl_out.

(** The requested status type passes the handler's first check. *)
Definition status_type_is_valid (status_type_requested : Z) : bool :=
  (status_type_requested =? RDM_STATUS_GET_LAST_MESSAGE)
  || (status_type_requested =? RDM_STATUS_ADVISORY)
  || (status_type_requested =? RDM_STATUS_WARNING)
  || (status_type_requested =? RDM_STATUS_ERROR).
End QueueStatus.

(** ** The RDM responder: product information (product_info) *)

(** Modelled from the spec: the maximum length of an ASCII parameter is 32
    (the handler's buffer [init_value] and its [strncpy] use that size). *)
Definition RDM_ASCII_SIZE_MAX : Z := 32.

(** [strnlen(s, maxlen)]; the end of the list reads as a terminator. *)
Fixpoint strnlen (s : list Z) (maxlen : nat) : Z :=
  match maxlen, s with
  | O, _ => 0
  | S _, [] => 0
  | S maxlen', c :: s' => if c =? 0 then 0 else 1 + strnlen s' maxlen'
  end.

(** [strncpy(dst, src, n)]: the [n] bytes written to [dst]. *)
Fixpoint strncpy (src : list Z) (n : nat) : list Z :=
  match n with
  | O => []
  | S n' =>
      match src with
      | [] => repeat 0 n
      | c :: src' => if c =? 0 then repeat 0 n else c :: strncpy src' n'
      end
  end.

Inductive dmx_parameter_type_t : Set :=
  | DMX_PARAMETER_TYPE_STATIC
  | DMX_PARAMETER_TYPE_DYNAMIC
  | DMX_PARAMETER_TYPE_NON_VOLATILE.

Inductive rdm_pid_cc_t : Set := RDM_CC_DISC | RDM_CC_GET | RDM_CC_SET | RDM_CC_GET_SET.
Inductive rdm_ds_t : Set := RDM_DS_NOT_DEFINED | RDM_DS_ASCII.
Inductive rdm_units_t : Set := RDM_UNITS_NONE.
Inductive rdm_prefix_t : Set := RDM_PREFIX_NONE.
Inductive rdm_handler : Set := rdm_simple_response_handler.

(** [rdm_parameter_definition_t], with the formats as lists of characters. *)
Record rdm_parameter_definition_t : Set := {
  pid_cc : rdm_pid_cc_t;
  ds : rdm_ds_t;
  get_handler : option rdm_handler;
  get_request_format : option (list Z);
  get_response_format : option (list Z);
  set_handler : option rdm_handler;
  set_request_format : option (list Z);
  set_response_format : option (list Z);
  pdl_size : Z;
  max_value : Z;
  min_value : Z;
  units : rdm_units_t;
  prefix : rdm_prefix_t;
  description : option (list Z)
}.

(** The static [definition] of [rdm_register_device_label]; 97 is ['a']. *)
Definition device_label_definition : rdm_parameter_definition_t := {|
  pid_cc := RDM_CC_GET_SET;
  ds := RDM_DS_ASCII;
  get_handler := Some rdm_simple_response_handler;
  get_request_format := None;
  get_response_format := Some [97];
  set_handler := Some rdm_simple_response_handler;
  set_request_format := Some [97];
  set_response_format := None;
  pdl_size := 32;
  max_value := 0;
  min_value := 0;
  units := RDM_UNITS_NONE;
  prefix := RDM_PREFIX_NONE;
  description := None
|}.

(** The driver services that the registration functions call; none of them
    is among the sources. [driver_t] is the state of all drivers, a callback
    and its context are kept as one value of [callback_t], and every
    service that can change the state returns the new one. *)
Class DmxDriver : Type := {
  driver_t : Type;
  callback_t : Type;
  DMX_NUM_MAX : Z;
  RDM_SUB_DEVICE_ROOT : Z;
  RDM_PID_DEVICE_LABEL : Z;
  dmx_driver_is_installed : driver_t -> Z -> bool;
  dmx_parameter_exists : driver_t -> Z -> Z -> Z -> bool;
  dmx_driver_add_parameter :
    driver_t -> Z -> Z -> Z -> dmx_parameter_type_t -> list Z -> Z ->
    bool * driver_t;
  rdm_definition_set :
    driver_t -> Z -> Z -> Z -> rdm_parameter_definition_t -> driver_t;
  rdm_callback_set : driver_t -> Z -> Z -> Z -> callback_t -> bool * driver_t
}.

(** How a call ends: it returns a value and leaves a driver state, or its
    behaviour is undefined ([strncpy] from a null pointer). *)
Inductive outcome (S : Type) : Type :=
  | Returns (result : bool) (st : S)
  | Undefined.
Arguments Returns {S} result st.
Arguments Undefined {S}.

Section ProductInfo.
Context {D : DmxDriver}.

(** The part of [rdm_register_device_label] after the argument checks:
    the parameter is added with [init_value], then defined, then given
    its callback. *)
Definition register_device_label_parameter (st : driver_t) (dmx_num : Z)
    (init_value : list Z) (cb : callback_t) : outcome driver_t :=
  let pid := RDM_PID_DEVICE_LABEL in
  let '(added, st) :=
    dmx_driver_add_parameter st dmx_num RDM_SUB_DEVICE_ROOT pid
      DMX_PARAMETER_TYPE_NON_VOLATILE init_value RDM_ASCII_SIZE_MAX in
  if negb added then Returns false st
  else
    let st :=
      rdm_definition_set st dmx_num RDM_SUB_DEVICE_ROOT pid
        device_label_definition in
    let '(result, st) := rdm_callback_set st dmx_num RDM_SUB_DEVICE_ROOT pid cb in
    Returns result st.

(** [rdm_register_device_label]; [device_label] is [None] for a null
    pointer and otherwise the bytes at the pointer. *)
Definition rdm_register_device_label (st : driver_t) (dmx_num : Z)
    (device_label : option (list Z)) (cb : callback_t) : outcome driver_t :=
  if negb (dmx_num <? DMX_NUM_MAX) then Returns false st
  else if negb (dmx_driver_is_installed st dmx_num) then Returns false st
  else
    let pid := RDM_PID_DEVICE_LABEL in
    let checked :=
      if negb (dmx_parameter_exists st dmx_num RDM_SUB_DEVICE_ROOT pid) then
        match device_label with
        | None => false
        | Some s =>
            strnlen s (Z.to_nat RDM_ASCII_SIZE_MAX) <? RDM_ASCII_SIZE_MAX
        end
      else true in
    if negb checked then Returns false st
    else
      match device_label with
      | None => Undefined
      | Some s => register_device_label_parameter st dmx_num (strncpy s 32) cb
      end.
End ProductInfo.

(** ** Concrete inputs *)

(** An event with every field cleared. *)
Definition event0 : rdm_event_t := {|
  destination_uid := 0; source_uid := 0; tn := 0; port_id := 0;
  message_count := 0; sub_device := 0; cc := 0; pid := 0; pdl := 0;
  checksum_is_valid := false
|}.

(** A GET DEVICE_INFO request from 7a70:00000002 to 7a70:00000001: 24 bytes
    of header ([message_len] = 24, [pdl] = 0) and the checksum 0x033d. *)
Definition get_device_info_packet : list Z :=
  [0xcc; 0x01; 0x18;
   0x7a; 0x70; 0x00; 0x00; 0x00; 0x01;
   0x7a; 0x70; 0x00; 0x00; 0x00; 0x02;
   0x00; 0x01; 0x00; 0x00; 0x00; 0x20; 0x00; 0x60; 0x00;
   0x03; 0x3d].

(** The DISC_UNIQUE_BRANCH response of the device 1234:56789abc without
    preamble: the delimiter and the sixteen interleaved bytes. *)
Definition disc_response_no_preamble : list Z :=
  [0xaa; 0xba; 0x57; 0xbe; 0x75; 0xfe; 0x57; 0xfa; 0x7d; 0xba; 0xdf; 0xbe; 0xfd;
   0xaa; 0x5d; 0xee; 0x75].

(** A driver in receive mode that waits for its first break, with an empty
    buffer of 513 slots. *)
Definition idle_driver : dmx_driver_t := {|
  is_busy := false;
  is_in_break := false;
  waiting_task := false;
  head := 0;
  size := 513;
  data := repeat 0 513;
  last_received_ts := 0;
  last_sent_ts := 0;
  notification := None;
  data_written := false
|}.

(** A break, or [bytes] waiting in the receive FIFO, on the ESP32 UART. *)
Definition break_detected : uart_hal_t := {|
  interrupt_status := UART_INTR_BRK_DET (UartIntr := esp32_uart_intr);
  rxfifo := [];
  txfifo_len := 128;
  rx_timeout_threshold := 45
|}.

Definition data_ready (bytes : list Z) : uart_hal_t := {|
  interrupt_status := UART_INTR_RXFIFO_TOUT (UartIntr := esp32_uart_intr);
  rxfifo := bytes;
  txfifo_len := 128;
  rx_timeout_threshold := 45
|}.

(** Four interrupts: a frame of three slots, then a frame of five slots. *)
Definition two_short_frames : list (Z * list uart_hal_t) :=
  [(1000, [break_detected]); (1200, [data_ready [0; 1; 2]]);
   (2000, [break_detected]); (2300, [data_ready [0; 1; 2; 3; 4]])].

(** A parameter store: the registered (sub-device, PID, value) entries. *)
Definition simple_store : Set := list (Z * Z * list Z).

Definition simple_store_exists (st : simple_store) (sub_device pid : Z) : bool :=
  existsb (fun e => (fst (fst e) =? sub_device) && (snd (fst e) =? pid)) st.

(** Modelled from the spec: the driver services are not among the sources.
    One installed port (port 0) with a store of at most 16 entries;
    [add_parameter] refuses on duplicate or if capacity is exhausted,
    [parameter_exists] looks the entry up, [definition_set] keeps no data
    of its own here, and [callback_set] succeeds for a registered
    parameter. *)
Definition simple_driver : DmxDriver := {|
  driver_t := simple_store;
  callback_t := unit;
  DMX_NUM_MAX := 3;
  RDM_SUB_DEVICE_ROOT := 0;
  RDM_PID_DEVICE_LABEL := 0x0082;
  dmx_driver_is_installed := fun _ dmx_num => dmx_num =? 0;
  dmx_parameter_exists := fun st _ sub_device pid =>
    simple_store_exists st sub_device pid;
  dmx_driver_add_parameter := fun st _ sub_device pid _ value _ =>
    if simple_store_exists st sub_device pid || (16 <=? Z.of_nat (length st))
    then (false, st)
    else (true, st ++ [(sub_device, pid, value)]);
  rdm_definition_set := fun st _ _ _ _ => st;
  rdm_callback_set := fun st _ sub_device pid _ =>
    (simple_store_exists st sub_device pid, st)
|}.

(** ** Terms used to state the properties *)

(** The big-endian reading of the first six bytes of a buffer. *)
Definition be48 (buf : list Z) : Z :=
  le_word [byte_at buf 5; byte_at buf 4; byte_at buf 3; byte_at buf 2;
           byte_at buf 1; byte_at buf 0].

(** The 16-bit sum that both loops of the DISC codec accumulate over six
    bytes, most significant byte of the UID first. *)
Definition sum6 (b0 b1 b2 b3 b4 b5 : Z) : Z :=
  u16 (u16 (u16 (u16 (u16 (u16 (b5 + 0xff) + (b4 + 0xff)) + (b3 + 0xff))
                 + (b2 + 0xff)) + (b1 + 0xff)) + (b0 + 0xff)).

(** ** rdm_tools.c: the remaining functions *)

(** The constants of rdm_constants.h that [rdm_write_discovery_mute]
    names; their values are not given by the sources. *)
Class RdmMuteConstants : Set := {
  RDM_BASE_PACKET_SIZE : Z;
  RDM_DISCOVERY_COMMAND : Z;
  RDM_PID_DISC_MUTE : Z;
  RDM_PID_DISC_UN_MUTE : Z
}.

(** The values of ANSI E1.20: a packet without parameter data has 24 bytes
    of header and 2 bytes of checksum. *)
Definition e120_mute_constants : RdmMuteConstants := {|
  RDM_BASE_PACKET_SIZE := 26;
  RDM_DISCOVERY_COMMAND := 0x10;
  RDM_PID_DISC_MUTE := 0x0002;
  RDM_PID_DISC_UN_MUTE := 0x0003
|}.

Section DiscoveryMute.
Context {M : RdmMuteConstants}.

(** [rdm_write_discovery_mute]: the buffer and the size handed to
    [dmx_write], and the new [rdm_uid]. [stale] is the content of the
    uninitialised array [command] (of [RDM_BASE_PACKET_SIZE] bytes) on
    entry; the fields of [rdm_data_t] are stored at their offsets. *)
Definition rdm_write_discovery_mute (rdm_uid efuse_uid : Z) (stale : list Z)
    (dmx_num uid : Z) (mute : bool) : list Z * Z * Z :=
  let command := stale in
  let command := store command 0 RDM_SC in
  let command := store command 1 RDM_SUB_SC in
  let command := store command 2 (u8 (RDM_BASE_PACKET_SIZE - 2)) in
  let command := blit command 3 (uid_to_buf uid) in
  let '(own_uid, rdm_uid) := rdm_get_uid rdm_uid efuse_uid in
  let command := blit command 9 (uid_to_buf own_uid) in
  let command := store command 15 0 in
  let command := store command 16 (u8 (dmx_num + 1)) in
  let command := store command 17 0 in
  let command := blit command 18 (le_bytes 2 (bswap16 0)) in
  let command := store command 20 (u8 RDM_DISCOVERY_COMMAND) in
  let command :=
    blit command 21
      (le_bytes 2 (bswap16 (if mute then RDM_PID_DISC_MUTE
                            else RDM_PID_DISC_UN_MUTE))) in
  let command := store command 23 0 in
  let message_len := rdm_data_t.message_len command in
  let checksum :=
    sum_loop (Z.to_nat message_len) command message_len 0 0 in
  let checksum := bswap16 checksum in
  let command := blit command (Z.to_nat message_len) (le_bytes 2 checksum) in
  (command, RDM_BASE_PACKET_SIZE, rdm_uid).
End DiscoveryMute.

(** The sum of the first [n] bytes of a buffer. *)
Definition byte_sum (data : list Z) (n : nat) : Z :=
  fold_right Z.add 0 (firstn n data).

(** ** impl/intr_handlers.h: the timer handler *)

(** What [dmx_timer_intr_handler] does besides updating the driver: it ends
    the break (the line is un-inverted and the alarm is set to the length of
    the mark after break), or it starts the data ([written] is pushed to
    the transmit FIFO, the transmit interrupts are enabled and the timer is
    paused). *)
Inductive timer_action : Set :=
  | EndBreak (alarm_value : Z)
  | StartData (written : list Z).

(** [dmx_timer_intr_handler]: its result (always [false]), the driver and
    the action taken. [tx_mab_len] is the field [tx.mab_len] of the driver,
    read into a [uint32_t]; the buffer handed to [dmx_hal_write_txfifo] is
    [driver->buffer.data]. *)
Definition dmx_timer_intr_handler (tx_mab_len : Z) (hal : uart_hal_t)
    (driver : dmx_driver_t) : bool * dmx_driver_t * timer_action :=
  if is_in_break driver then
    (false,
     {| is_busy := is_busy driver;
        is_in_break := false;
        waiting_task := waiting_task driver;
        head := head driver;
        size := size driver;
        data := data driver;
        last_received_ts := last_received_ts driver;
        last_sent_ts := last_sent_ts driver;
        notification := notification driver;
        data_written := data_written driver |},
     EndBreak (tx_mab_len mod 2 ^ 32))
  else
    let write :=
      dmx_hal_write_txfifo hal (data driver)
        (size_t (size driver - head driver)) in
    (false,
     {| is_busy := is_busy driver;
        is_in_break := is_in_break driver;
        waiting_task := waiting_task driver;
        head := head driver + fst write;
        size := size driver;
        data := data driver;
        last_received_ts := last_received_ts driver;
        last_sent_ts := last_sent_ts driver;
        notification := notification driver;
        data_written := data_written driver |},
     StartData (snd write)).

(** ** Terms used to state the properties of the interrupt handlers *)

Section IntrTerms.
Context {U : UartIntr}.

(** The driver after a sequence of interrupts. *)
Definition dmx_intr_run (intrs : list (Z * list uart_hal_t))
    (driver : dmx_driver_t) : dmx_driver_t :=
  fold_left (fun d intr => dmx_intr_handler (fst intr) (snd intr) d) intrs driver.

(** The passes of a sequence of interrupts, and the bytes that the receive
    FIFO holds during them, in order. *)
Definition intr_passes (intrs : list (Z * list uart_hal_t)) : list uart_hal_t :=
  concat (map snd intrs).

Definition rxfifo_bytes (passes : list uart_hal_t) : list Z :=
  concat (map rxfifo passes).

(** The branch that a pass of the handler takes. *)
Definition pass_branch (h : uart_hal_t) : intr_branch :=
  dmx_intr_branch (interrupt_status h).

(** A pass of the receive side that is not a break. *)
Definition receive_pass_without_break (h : uart_hal_t) : bool :=
  match pass_branch h with
  | RxFifoOverflow | RxFramingErr | RxData | RxClash => true
  | _ => false
  end.

(** A pass that writes to the transmit FIFO. *)
Definition tx_data_pass (h : uart_hal_t) : bool :=
  match pass_branch h with
  | TxData => true
  | _ => false
  end.

(** A pass of the transmit side. *)
Definition transmit_pass (h : uart_hal_t) : bool :=
  match pass_branch h with
  | TxData | TxDone => true
  | _ => false
  end.

(** A pass that reads the receive FIFO. *)
Definition rx_data_pass (h : uart_hal_t) : bool :=
  match pass_branch h with
  | RxData => true
  | _ => false
  end.

(** A driver that reads a frame for no waiting task. *)
Definition receiving (driver : dmx_driver_t) : Prop :=
  is_busy driver = true /\ waiting_task driver = false
  /\ 0 <= head driver <= 513 /\ length (data driver) = 513%nat.

(** [driver'] is [driver] after it has received [bytes]: those that fit
    into the buffer are appended at [head], and nothing else has changed
    but the time stamp and the break flag. *)
Definition received (driver : dmx_driver_t) (bytes : list Z)
    (driver' : dmx_driver_t) : Prop :=
  let taken := firstn (Z.to_nat (513 - head driver)) bytes in
  receiving driver'
  /\ size driver' = size driver
  /\ notification driver' = notification driver
  /\ head driver' = head driver + Z.of_nat (length taken)
  /\ firstn (Z.to_nat (head driver')) (data driver')
     = firstn (Z.to_nat (head driver)) (data driver) ++ taken.
End IntrTerms.

(** The free space that the transmit FIFO offers over a list of passes. *)
Definition txfifo_space (passes : list uart_hal_t) : Z :=
  fold_right (fun h acc => txfifo_len h + acc) 0 passes.


(** Inputs on the ESP32 UART: an overflow of the receive FIFO, and room
    for [room] bytes in the transmit FIFO. *)
Definition fifo_overflow : uart_hal_t := {|
  interrupt_status := UART_INTR_RXFIFO_OVF (UartIntr := esp32_uart_intr);
  rxfifo := [];
  txfifo_len := 128;
  rx_timeout_threshold := 45
|}.

Definition txfifo_ready (room : Z) : uart_hal_t := {|
  interrupt_status := UART_INTR_TXFIFO_EMPTY (UartIntr := esp32_uart_intr);
  rxfifo := [];
  txfifo_len := room;
  rx_timeout_threshold := 45
|}.

(** A driver that reads a frame of 3 slots for a waiting task, two slots
    in; and a driver that sends the break of a frame of 200 slots, in a
    buffer whose slots hold 0, 1, 2, ... modulo 256. *)
Definition reading_driver : dmx_driver_t := {|
  is_busy := true;
  is_in_break := false;
  waiting_task := true;
  head := 2;
  size := 3;
  data := 0 :: 7 :: repeat 0 511;
  last_received_ts := 0;
  last_sent_ts := 0;
  notification := None;
  data_written := false
|}.

Definition sending_driver : dmx_driver_t := {|
  is_busy := true;
  is_in_break := true;
  waiting_task := false;
  head := 0;
  size := 200;
  data := map (fun i => Z.of_nat i mod 256) (seq 0 513);
  last_received_ts := 0;
  last_sent_ts := 0;
  notification := None;
  data_written := false
|}.

(** ** dmx_caps.h: the remaining macros *)

(** [x << n] on an [int] (32 bits on the ESP32) that is not negative: the
    result is [x * 2 ^ n] if an [int] can hold it, and the behaviour is
    undefined ([None]) otherwise. *)
Definition int_shl (x n : Z) : option Z :=
  if x * 2 ^ n <? 2 ^ 31 then Some (x * 2 ^ n) else None.

(** [RDM_UID_BUFFER_TO_UINT64(buf)] for a buffer of [uint8_t]: the three
    low shifts are done on the bytes promoted to [int], the two high ones
    on [uint64_t]; the operands of [|] are joined from the left. *)
Definition RDM_UID_BUFFER_TO_UINT64 (buf : list Z) : option Z :=
  match int_shl (byte_at buf 4) 8, int_shl (byte_at buf 3) 16,
        int_shl (byte_at buf 2) 24 with
  | Some s4, Some s3, Some s2 =>
      let low := Z.lor (Z.lor (Z.lor (byte_at buf 5) s4) s3) s2 in
      let s1 := Z.shiftl (byte_at buf 1) 32 mod 2 ^ 64 in
      let s0 := Z.shiftl (byte_at buf 0) 40 mod 2 ^ 64 in
      Some (Z.lor (Z.lor (low mod 2 ^ 64) s1) s0 mod 2 ^ 64)
  | _, _, _ => None
  end.

(** [DMX_BAUD_RATE_IS_VALID(baud)]. *)
Definition DMX_BAUD_RATE : Z := 250000.
Definition DMX_MIN_BAUD_RATE : Z := 245000.
Definition DMX_MAX_BAUD_RATE : Z := 255000.

Definition DMX_BAUD_RATE_IS_VALID (baud : Z) : bool :=
  (baud >=? DMX_MIN_BAUD_RATE) && (baud <=? DMX_MAX_BAUD_RATE).

(** ** The RDM responder: the other parameters of product_info *)

(** [rdm_device_info_t]. Its declaration is not among the sources: the
    fields are those that [rdm_get_device_info] assigns, with the widths
    that the response format "x01x00wwdwbbwwb$" of the parameter gives
    them (w: 16 bits, d: 32 bits, b: 8 bits). *)
Record rdm_device_info_t : Set := {
  model_id : Z;
  product_category : Z;
  software_version_id : Z;
  footprint : Z;
  personality_current : Z;
  personality_count : Z;
  dmx_start_address : Z;
  sub_device_count : Z;
  sensor_count : Z
}.

Definition set_model_id (v : Z) (i : rdm_device_info_t) : rdm_device_info_t :=
  {| model_id := v; product_category := product_category i;
     software_version_id := software_version_id i; footprint := footprint i;
     personality_current := personality_current i;
     personality_count := personality_count i;
     dmx_start_address := dmx_start_address i;
     sub_device_count := sub_device_count i; sensor_count := sensor_count i |}.

Definition set_product_category (v : Z) (i : rdm_device_info_t)
    : rdm_device_info_t :=
  {| model_id := model_id i; product_category := v;
     software_version_id := software_version_id i; footprint := footprint i;
     personality_current := personality_current i;
     personality_count := personality_count i;
     dmx_start_address := dmx_start_address i;
     sub_device_count := sub_device_count i; sensor_count := sensor_count i |}.

Definition set_software_version_id (v : Z) (i : rdm_device_info_t)
    : rdm_device_info_t :=
  {| model_id := model_id i; product_category := product_category i;
     software_version_id := v; footprint := footprint i;
     personality_current := personality_current i;
     personality_count := personality_count i;
     dmx_start_address := dmx_start_address i;
     sub_device_count := sub_device_count i; sensor_count := sensor_count i |}.

Definition set_footprint (v : Z) (i : rdm_device_info_t) : rdm_device_info_t :=
  {| model_id := model_id i; product_category := product_category i;
     software_version_id := software_version_id i; footprint := v;
     personality_current := personality_current i;
     personality_count := personality_count i;
     dmx_start_address := dmx_start_address i;
     sub_device_count := sub_device_count i; sensor_count := sensor_count i |}.

Definition set_personality_current (v : Z) (i : rdm_device_info_t)
    : rdm_device_info_t :=
  {| model_id := model_id i; product_category := product_category i;
     software_version_id := software_version_id i; footprint := footprint i;
     personality_current := v;
     personality_count := personality_count i;
     dmx_start_address := dmx_start_address i;
     sub_device_count := sub_device_count i; sensor_count := sensor_count i |}.

Definition set_personality_count (v : Z) (i : rdm_device_info_t)
    : rdm_device_info_t :=
  {| model_id := model_id i; product_category := product_category i;
     software_version_id := software_version_id i; footprint := footprint i;
     personality_current := personality_current i;
     personality_count := v;
     dmx_start_address := dmx_start_address i;
     sub_device_count := sub_device_count i; sensor_count := sensor_count i |}.

Definition set_dmx_start_address (v : Z) (i : rdm_device_info_t)
    : rdm_device_info_t :=
  {| model_id := model_id i; product_category := product_category i;
     software_version_id := software_version_id i; footprint := footprint i;
     personality_current := personality_current i;
     personality_count := personality_count i;
     dmx_start_address := v;
     sub_device_count := sub_device_count i; sensor_count := sensor_count i |}.

Definition set_sub_device_count (v : Z) (i : rdm_device_info_t)
    : rdm_device_info_t :=
  {| model_id := model_id i; product_category := product_category i;
     software_version_id := software_version_id i; footprint := footprint i;
     personality_current := personality_current i;
     personality_count := personality_count i;
     dmx_start_address := dmx_start_address i;
     sub_device_count := v; sensor_count := sensor_count i |}.

Definition set_sensor_count (v : Z) (i : rdm_device_info_t) : rdm_device_info_t :=
  {| model_id := model_id i; product_category := product_category i;
     software_version_id := software_version_id i; footprint := footprint i;
     personality_current := personality_current i;
     personality_count := personality_count i;
     dmx_start_address := dmx_start_address i;
     sub_device_count := sub_device_count i; sensor_count := v |}.

(** The fields of [struct rdm_product_info_t] read through a pointer to the
    stored bytes: two [uint16_t] and one [uint32_t], at the offsets 0, 2
    and 4. *)
Module rdm_product_info_t.
Definition model_id (p : list Z) : Z := le_word [byte_at p 0; byte_at p 1].
Definition product_category (p : list Z) : Z :=
  le_word [byte_at p 2; byte_at p 3].
Definition software_version_id (p : list Z) : Z :=
  le_word [byte_at p 4; byte_at p 5; byte_at p 6; byte_at p 7].
End rdm_product_info_t.

(** The further driver services that product_info calls, none of them
    among the sources. [dmx_parameter_get] gives the stored bytes of a
    parameter ([None] for a null pointer), [rdm_get_dmx_personality] the
    current personality and the count when it succeeds;
    [sizeof_rdm_device_info_t] is [sizeof(rdm_device_info_t)]. *)
Class ProductInfoDriver {D : DmxDriver} : Type := {
  RDM_PID_DEVICE_INFO : Z;
  RDM_PID_SOFTWARE_VERSION_LABEL : Z;
  RDM_NR_HARDWARE_FAULT : Z;
  sizeof_rdm_device_info_t : Z;
  dmx_parameter_get : driver_t -> Z -> Z -> Z -> option (list Z);
  rdm_get_dmx_personality : driver_t -> Z -> option (Z * Z);
  dmx_get_footprint : driver_t -> Z -> Z -> Z;
  dmx_get_start_address : driver_t -> Z -> Z;
  dmx_get_sub_device_count : driver_t -> Z -> Z;
  rdm_sensor_get_count : driver_t -> Z -> Z -> Z
}.

(** What a response handler asks the driver to write:
    [rdm_write_nack_reason] or [rdm_write_ack]. *)
Inductive rdm_response : Set :=
  | NackReason (reason : Z)
  | Ack (format : option (list Z)) (pd : rdm_device_info_t) (pdl_written : Z).

(** The static [definition] of [rdm_register_software_version_label]; the
    format is "a$". *)
Definition software_version_label_definition : rdm_parameter_definition_t := {|
  pid_cc := RDM_CC_GET;
  ds := RDM_DS_ASCII;
  get_handler := Some rdm_simple_response_handler;
  get_request_format := None;
  get_response_format := Some [97; 36];
  set_handler := None;
  set_request_format := None;
  set_response_format := None;
  pdl_size := RDM_ASCII_SIZE_MAX;
  max_value := 0;
  min_value := 0;
  units := RDM_UNITS_NONE;
  prefix := RDM_PREFIX_NONE;
  description := None
|}.

Section ProductInfoParameters.
Context {D : DmxDriver} {P : ProductInfoDriver}.

(** [rdm_get_device_info]: the size returned and the object at
    [device_info] ([None] for a null pointer) after the call. *)
Definition rdm_get_device_info (st : driver_t) (dmx_num : Z)
    (device_info : option rdm_device_info_t) : Z * option rdm_device_info_t :=
  if negb (dmx_num <? DMX_NUM_MAX) then (0, device_info)
  else
    match device_info with
    | None => (0, device_info)
    | Some info =>
        if negb (dmx_driver_is_installed st dmx_num) then (0, device_info)
        else
          let product_info :=
            dmx_parameter_get st dmx_num RDM_SUB_DEVICE_ROOT RDM_PID_DEVICE_INFO in
          let info :=
            match product_info with
            | Some p =>
                let info := set_model_id (rdm_product_info_t.model_id p) info in
                let info :=
                  set_product_category (rdm_product_info_t.product_category p)
                    info in
                set_software_version_id
                  (rdm_product_info_t.software_version_id p) info
            | None =>
                let info := set_model_id (u16 (-1)) info in
                let info := set_product_category (u16 (-1)) info in
                set_software_version_id (size_t (-1)) info
            end in
          let info :=
            match rdm_get_dmx_personality st dmx_num with
            | Some (current, count) =>
                set_personality_count count (set_personality_current current info)
            | None =>
                let info := set_personality_count 0 info in
                set_personality_current 0 info
            end in
          let info :=
            if personality_current info >? 0 then
              set_footprint
                (u16 (dmx_get_footprint st dmx_num (personality_current info)))
                info
            else set_footprint 0 info in
          let info :=
            set_dmx_start_address (u16 (dmx_get_start_address st dmx_num)) info in
          let info :=
            set_sub_device_count (u16 (dmx_get_sub_device_count st dmx_num))
              info in
          let info :=
            set_sensor_count
              (u8 (rdm_sensor_get_count st dmx_num RDM_SUB_DEVICE_ROOT)) info in
          (sizeof_rdm_device_info_t, Some info)
    end.

(** [rdm_rhd_get_device_info]; [stale] is the content of the uninitialised
    local [device_info] on entry. *)
Definition rdm_rhd_get_device_info (st : driver_t) (dmx_num : Z)
    (def : rdm_parameter_definition_t) (stale : rdm_device_info_t)
    : rdm_response :=
  let '(pdl, device_info) := rdm_get_device_info st dmx_num (Some stale) in
  let device_info :=
    match device_info with
    | Some info => info
    | None => stale
    end in
  if negb (pdl =? sizeof_rdm_device_info_t) then
    NackReason RDM_NR_HARDWARE_FAULT
  else Ack (get_response_format def) device_info pdl.

(** The part of [rdm_register_software_version_label] after the argument
    checks, from [strnlen] on. *)
Definition register_software_version_label_parameter (st : driver_t)
    (dmx_num : Z) (software_version_label : list Z) (cb : callback_t)
    : outcome driver_t :=
  let pid := RDM_PID_SOFTWARE_VERSION_LABEL in
  let size :=
    strnlen software_version_label (Z.to_nat RDM_ASCII_SIZE_MAX) in
  let '(added, st) :=
    dmx_driver_add_parameter st dmx_num RDM_SUB_DEVICE_ROOT pid
      DMX_PARAMETER_TYPE_STATIC software_version_label size in
  if negb added then Returns false st
  else
    let st :=
      rdm_definition_set st dmx_num RDM_SUB_DEVICE_ROOT pid
        software_version_label_definition in
    let '(result, st) := rdm_callback_set st dmx_num RDM_SUB_DEVICE_ROOT pid cb in
    Returns result st.

(** [rdm_register_software_version_label]; the label is [None] for a null
    pointer, on which [strnlen] has no defined behaviour. *)
Definition rdm_register_software_version_label (st : driver_t) (dmx_num : Z)
    (software_version_label : option (list Z)) (cb : callback_t)
    : outcome driver_t :=
  if negb (dmx_num <? DMX_NUM_MAX) then Returns false st
  else if negb (dmx_driver_is_installed st dmx_num) then Returns false st
  else
    let checked :=
      match dmx_parameter_get st dmx_num RDM_SUB_DEVICE_ROOT
              RDM_PID_SOFTWARE_VERSION_LABEL with
      | None =>
          match software_version_label with
          | None => false
          | Some s =>
              strnlen s (Z.to_nat RDM_ASCII_SIZE_MAX) <? RDM_ASCII_SIZE_MAX
          end
      | Some _ => true
      end in
    if negb checked then Returns false st
    else
      match software_version_label with
      | None => Undefined
      | Some s => register_software_version_label_parameter st dmx_num s cb
      end.
End ProductInfoParameters.

(** The services of the one-port driver, with the values of ANSI E1.20 for
    DEVICE_INFO (0x0060), SOFTWARE_VERSION_LABEL (0x00c0) and
    NR_HARDWARE_FAULT (0x0002) and 20 bytes for [rdm_device_info_t]: the
    parameters are looked up in its store, the personality is the first of
    three, of 4 slots, the start address is 1, and there are no sub-devices
    and no sensors. *)
Definition simple_store_get (st : simple_store) (sub_device pid : Z)
    : option (list Z) :=
  match
    find (fun e => (fst (fst e) =? sub_device) && (snd (fst e) =? pid)) st
  with
  | Some e => Some (snd e)
  | None => None
  end.

Definition simple_product_info : @ProductInfoDriver simple_driver :=
  @Build_ProductInfoDriver simple_driver
    0x0060 0x00c0 0x0002 20
    (fun (st : simple_store) _ sub_device pid => simple_store_get st sub_device pid)
    (fun _ dmx_num => if dmx_num =? 0 then Some (1, 3) else None)
    (fun _ _ _ => 4)
    (fun _ _ => 1)
    (fun _ _ => 0)
    (fun _ _ _ => 0).

(** * Properties *)

Local Arguments Pos.to_nat !x /.
Local Arguments Pos.iter_op {A} op !p a /.

(** ** Bytes and integer objects *)

Lemma byte_forall (P : Z -> bool) :
  forallb P (map Z.of_nat (seq 0 256)) = true ->
  forall b, 0 <= b < 256 -> P b = true.
Proof.
  intros HP b Hb. rewrite forallb_forall in HP. apply HP.
  rewrite <- (Z2Nat.id b) by lia. apply in_map, in_seq. lia.
Qed.

Lemma u8_range x : 0 <= u8 x < 256.
Proof. unfold u8. apply Z.mod_pos_bound. reflexivity. Qed.

Lemma u16_range x : 0 <= u16 x < 65536.
Proof. unfold u16. apply Z.mod_pos_bound. reflexivity. Qed.

Lemma u8_small x : 0 <= x < 256 -> u8 x = x.
Proof. intros H. unfold u8. apply Z.mod_small. exact H. Qed.

Lemma u16_small x : 0 <= x < 65536 -> u16 x = x.
Proof. intros H. unfold u16. apply Z.mod_small. exact H. Qed.

Lemma u8_lor x k : 0 <= k < 256 -> u8 (Z.lor x k) = Z.lor (u8 x) k.
Proof.
  intros Hk. unfold u8. rewrite <- !Z.land_ones by lia.
  rewrite Z.land_lor_distr_l. f_equal.
  rewrite Z.land_ones by lia. apply Z.mod_small. exact Hk.
Qed.

Lemma land_u8 x k : 0 <= k < 256 -> Z.land x k = Z.land (u8 x) k.
Proof.
  intros Hk. unfold u8. rewrite <- Z.land_ones, <- Z.land_assoc by lia.
  f_equal. rewrite Z.land_comm, Z.land_ones by lia.
  symmetry. apply Z.mod_small. exact Hk.
Qed.

Lemma le_bytes_length n v : length (le_bytes n v) = n.
Proof. revert v; induction n as [|n IH]; intros v; simpl; [|rewrite IH]; reflexivity. Qed.

Lemma le_bytes_range n v : Forall (fun b => 0 <= b < 256) (le_bytes n v).
Proof.
  revert v; induction n as [|n IH]; intros v; simpl; constructor; [|apply IH].
  apply Z.mod_pos_bound. reflexivity.
Qed.

Lemma le_word_le_bytes n v : le_word (le_bytes n v) = v mod 256 ^ Z.of_nat n.
Proof.
  revert v; induction n as [|n IH]; intros v.
  - simpl. now rewrite Z.mod_1_r.
  - cbn [le_bytes le_word]. rewrite IH, Nat2Z.inj_succ, Z.pow_succ_r by lia.
    rewrite Z.rem_mul_r by lia. reflexivity.
Qed.

(** The eight bytes of a 64-bit object, named. *)
Lemma le_bytes_8 v :
  exists b0 b1 b2 b3 b4 b5 b6 b7,
    le_bytes 8 v = [b0; b1; b2; b3; b4; b5; b6; b7] /\
    Forall (fun b => 0 <= b < 256) [b0; b1; b2; b3; b4; b5; b6; b7] /\
    le_word [b0; b1; b2; b3; b4; b5; b6; b7] = v mod 2 ^ 64.
Proof.
  pose proof (le_bytes_range 8 v) as Hr.
  pose proof (le_word_le_bytes 8 v) as Hw.
  cbn [le_bytes] in *. repeat eexists; [exact Hr | exact Hw].
Qed.

Ltac byte_bounds :=
  repeat match goal with
  | H : Forall _ (_ :: _) |- _ =>
      apply Forall_cons_iff in H; destruct H as [? H]
  | H : Forall _ [] |- _ => clear H
  end.

(** The interleaving of one byte is undone by the two masks. *)
Lemma dub_decode_encode b :
  0 <= b < 256 ->
  Z.lor (Z.land (u8 (Z.lor b 0xaa)) 0x55) (Z.land (u8 (Z.lor b 0x55)) 0xaa) = b.
Proof.
  intros Hb. apply Z.eqb_eq.
  apply (byte_forall (fun b =>
    Z.lor (Z.land (u8 (Z.lor b 0xaa)) 0x55) (Z.land (u8 (Z.lor b 0x55)) 0xaa) =? b));
    [vm_compute; reflexivity | exact Hb].
Qed.

Lemma byte_lor_small b k : 0 <= b < 256 -> 0 <= k < 256 -> u8 (Z.lor b k) = Z.lor b k.
Proof. intros Hb Hk. rewrite u8_lor by exact Hk. now rewrite (u8_small b). Qed.

(** The same for the low byte of a wider value, which the store truncates. *)
Lemma dub_decode_encode_low c :
  Z.lor (Z.land (u8 (Z.lor c 0xaa)) 0x55) (Z.land (u8 (Z.lor c 0x55)) 0xaa) = u8 c.
Proof.
  rewrite !(u8_lor c) by lia.
  pose proof (dub_decode_encode (u8 c) (u8_range c)) as H.
  rewrite !byte_lor_small in H by (try apply u8_range; lia). exact H.
Qed.

Lemma byte_at_offset buf off k :
  0 <= off -> 0 <= k -> byte_at (offset buf off) k = byte_at buf (off + k).
Proof.
  intros Hoff Hk. unfold byte_at, offset.
  rewrite nth_skipn, Z2Nat.inj_add by lia. reflexivity.
Qed.

(** ** C8: [buf_to_uid] and [uidcpy] *)

(** What the code computes: the low 48 bits are the big-endian reading of
    the buffer, the top 16 bits are those of the stale content of [val]. *)
Lemma buf_to_uid_value stale buf :
  Forall (fun b => 0 <= b < 256) (firstn 6 buf) -> (6 <= length buf)%nat ->
  buf_to_uid stale buf = be48 buf + 2 ^ 48 * ((stale mod 2 ^ 64) / 2 ^ 48).
Proof.
  intros Hbuf Hlen. unfold buf_to_uid, be48.
  destruct (le_bytes_8 stale) as (s0 & s1 & s2 & s3 & s4 & s5 & s6 & s7 & Hs & Hr & Hw).
  rewrite Hs, <- Hw.
  do 6 (destruct buf as [|? buf]; [simpl in Hlen; lia|]).
  cbn -[Z.mul Z.add Z.pow Z.div] in *. byte_bounds.
  Z.div_mod_to_equations. lia.
Qed.

Lemma uidcpy_buf_to_uid stale buf : uidcpy stale buf = buf_to_uid stale buf.
Proof. reflexivity. Qed.

Lemma uid_to_buf_bytes uid :
  0 <= uid < 2 ^ 48 ->
  exists b0 b1 b2 b3 b4 b5,
    uid_to_buf uid = [b5; b4; b3; b2; b1; b0] /\
    Forall (fun b => 0 <= b < 256) [b0; b1; b2; b3; b4; b5] /\
    le_word [b0; b1; b2; b3; b4; b5] = uid.
Proof.
  intros Huid. unfold uid_to_buf, bswap64.
  destruct (le_bytes_8 uid) as (b0 & b1 & b2 & b3 & b4 & b5 & b6 & b7 & Hs & Hr & Hw).
  rewrite Hs. exists b0, b1, b2, b3, b4, b5.
  rewrite Z.mod_small in Hw by lia.
  byte_bounds.
  assert (b6 = 0 /\ b7 = 0) as [-> ->] by (cbn -[Z.mul Z.add] in Hw; lia).
  rewrite Z.shiftr_div_pow2 by lia.
  replace (le_word (rev [b0; b1; b2; b3; b4; b5; 0; 0]) / 2 ^ 16)
    with (le_word [b5; b4; b3; b2; b1; b0])
    by (cbn -[Z.mul Z.add Z.pow Z.div]; Z.div_mod_to_equations; lia).
  split; [|split].
  - cbn -[Z.mul Z.add Z.pow Z.div Z.modulo].
    repeat f_equal; Z.div_mod_to_equations; lia.
  - repeat constructor; lia.
  - cbn -[Z.mul Z.add] in *. lia.
Qed.

(** On the low 48 bits, [uid_to_buf] followed by [buf_to_uid] is the
    identity; the top 16 bits are again those of the stale [val]. *)
Lemma buf_to_uid_uid_to_buf stale uid :
  0 <= uid < 2 ^ 48 ->
  buf_to_uid stale (uid_to_buf uid) = uid + 2 ^ 48 * ((stale mod 2 ^ 64) / 2 ^ 48).
Proof.
  intros Huid.
  destruct (uid_to_buf_bytes uid Huid) as (b0 & b1 & b2 & b3 & b4 & b5 & Hb & Hr & Hw).
  rewrite buf_to_uid_value; rewrite Hb.
  - f_equal. exact Hw.
  - byte_bounds. repeat constructor; lia.
  - simpl. lia.
Qed.

(** C8 (the code departs from the claim): with stale bytes in the two top
    positions of the uninitialised [val], [buf_to_uid] and [uidcpy] return a
    value whose top 16 bits are not zero, and the round trip through
    [uid_to_buf] does not give the UID back. *)
Theorem buf_to_uid_top_bits_stale :
  buf_to_uid 0xffff000000000000 [1; 2; 3; 4; 5; 6] = 0xffff010203040506
  /\ uidcpy 0xffff000000000000 [1; 2; 3; 4; 5; 6] = 0xffff010203040506
  /\ Z.shiftr (buf_to_uid 0xffff000000000000 [1; 2; 3; 4; 5; 6]) 48 = 0xffff
  /\ uid_to_buf 0x010203040506 = [1; 2; 3; 4; 5; 6]
  /\ buf_to_uid 0xffff000000000000 (uid_to_buf 0x010203040506) <> 0x010203040506.
Proof. repeat split; vm_compute; congruence. Qed.

(** ** The DISC_UNIQUE_BRANCH codec *)

(** The response that the encoder builds, byte by byte. *)
Lemma discovery_response_bytes uid b0 b1 b2 b3 b4 b5 b6 b7 :
  le_bytes 8 uid = [b0; b1; b2; b3; b4; b5; b6; b7] ->
  let ck := sum6 b0 b1 b2 b3 b4 b5 in
  discovery_response uid =
  ([0xfe; 0xfe; 0xfe; 0xfe; 0xfe; 0xfe; 0xfe; 0xaa;
    u8 (Z.lor b5 0xaa); u8 (Z.lor b5 0x55); u8 (Z.lor b4 0xaa); u8 (Z.lor b4 0x55);
    u8 (Z.lor b3 0xaa); u8 (Z.lor b3 0x55); u8 (Z.lor b2 0xaa); u8 (Z.lor b2 0x55);
    u8 (Z.lor b1 0xaa); u8 (Z.lor b1 0x55); u8 (Z.lor b0 0xaa); u8 (Z.lor b0 0x55);
    u8 (Z.lor (Z.shiftr ck 8) 0xaa); u8 (Z.lor (Z.shiftr ck 8) 0x55);
    u8 (Z.lor ck 0xaa); u8 (Z.lor ck 0x55)], ck).
Proof.
  intros Hb ck. subst ck. unfold discovery_response, sum6. rewrite Hb.
  cbn -[u8 u16 Z.lor Z.land Z.shiftr]. reflexivity.
Qed.

(** The accumulated checksum never wraps. *)
Lemma sum6_no_wrap b0 b1 b2 b3 b4 b5 :
  Forall (fun b => 0 <= b < 256) [b0; b1; b2; b3; b4; b5] ->
  sum6 b0 b1 b2 b3 b4 b5 =
  (b5 + 0xff) + (b4 + 0xff) + (b3 + 0xff) + (b2 + 0xff) + (b1 + 0xff) + (b0 + 0xff).
Proof.
  intros H. byte_bounds. unfold sum6.
  repeat match goal with
  | |- context [u16 ?x] =>
      lazymatch x with
      | context [u16 _] => fail
      | _ => rewrite (u16_small x) by lia
      end
  end.
  lia.
Qed.

Lemma find_delimiter_range fuel response p :
  0 <= p -> p <= find_delimiter fuel response p <= Z.max p 7.
Proof.
  revert p. induction fuel as [|fuel IH]; intros p Hp; simpl; [lia|].
  destruct (p <? 7) eqn:Hlt; [|lia].
  destruct (byte_at response p =? RDM_DELIMITER); [lia|].
  apply Z.ltb_lt in Hlt. specialize (IH (p + 1)). lia.
Qed.

(** The two decoding loops, for any response. *)
Lemma decode_uid_loop_bytes response :
  let d k :=
    Z.lor (Z.land (byte_at response (2 * k)) 0x55)
          (Z.land (byte_at response (2 * k + 1)) 0xaa) in
  decode_uid_loop 6 response 5 0 (le_bytes 8 0) 0 =
  ([d 5; d 4; d 3; d 2; d 1; d 0; 0; 0], sum6 (d 5) (d 4) (d 3) (d 2) (d 1) (d 0)).
Proof.
  unfold sum6. cbn -[u8 u16 Z.lor Z.land byte_at]. reflexivity.
Qed.

Lemma decode_checksum_loop_bytes response :
  decode_checksum_loop 2 response 1 12 [0; 0] =
  [Z.lor (Z.land (byte_at response 14) 0x55) (Z.land (byte_at response 15) 0xaa);
   Z.lor (Z.land (byte_at response 12) 0x55) (Z.land (byte_at response 13) 0xaa)].
Proof. cbn -[Z.lor Z.land byte_at]. reflexivity. Qed.

Section Codec.
Context {K : RdmConstants}.

(** The DISC branch of [rdm_parse] on a buffer that starts with a
    preamble byte or the delimiter. *)
Lemma rdm_parse_disc stale_d stale_s data size event :
  rdm_data_t.sc data = RDM_PREAMBLE \/ rdm_data_t.sc data = RDM_DELIMITER ->
  let p := find_delimiter 7 data 0 in
  let d k :=
    Z.lor (Z.land (byte_at data (p + 1 + 2 * k)) 0x55)
          (Z.land (byte_at data (p + 1 + (2 * k + 1))) 0xaa) in
  rdm_parse stale_d stale_s data size event =
  if (size >? 17) && (byte_at data p =? RDM_DELIMITER) && (p + 17 <=? size) then
    (true,
     {| destination_uid := destination_uid event;
        source_uid := le_word [d 5; d 4; d 3; d 2; d 1; d 0; 0; 0];
        tn := tn event;
        port_id := port_id event;
        message_count := message_count event;
        sub_device := sub_device event;
        cc := RDM_DISCOVERY_COMMAND_RESPONSE;
        pid := RDM_PID_DISC_UNIQUE_BRANCH;
        pdl := pdl event;
        checksum_is_valid :=
          sum6 (d 5) (d 4) (d 3) (d 2) (d 1) (d 0) =? le_word [d 7; d 6] |})
  else (false, event).
Proof.
  intros Hsc p d. unfold rdm_parse.
  assert (((rdm_data_t.sc data =? RDM_PREAMBLE)
           || (rdm_data_t.sc data =? RDM_DELIMITER)) = true) as ->
    by (apply orb_true_iff; rewrite !Z.eqb_eq; exact Hsc).
  assert ((rdm_data_t.sc data =? RDM_SC) = false) as Hstd
    by (apply Z.eqb_neq; destruct Hsc as [-> | ->]; discriminate).
  pose proof (find_delimiter_range 7 data 0 ltac:(lia)) as Hp. fold p in Hp.
  fold p. destruct (size >? 17); cbn [andb]; [|rewrite Hstd; reflexivity].
  destruct (byte_at data p =? RDM_DELIMITER); cbn [negb orb andb]; [|reflexivity].
  rewrite Z.ltb_antisym. destruct (p + 17 <=? size); cbn [negb]; [|reflexivity].
  rewrite decode_uid_loop_bytes, decode_checksum_loop_bytes.
  rewrite !byte_at_offset by lia.
  subst d. cbn beta.
  replace (p + 1 + 14) with (p + 1 + 2 * 7) by lia.
  replace (p + 1 + 15) with (p + 1 + (2 * 7 + 1)) by lia.
  replace (p + 1 + 12) with (p + 1 + 2 * 6) by lia.
  replace (p + 1 + 13) with (p + 1 + (2 * 6 + 1)) by lia.
  reflexivity.
Qed.

(** [rdm_parse] never returns true on a buffer with the RDM start code. *)
Lemma rdm_parse_standard_false stale_d stale_s data size event :
  rdm_data_t.sc data = RDM_SC ->
  fst (rdm_parse stale_d stale_s data size event) = false.
Proof.
  intros Hsc. unfold rdm_parse. rewrite Hsc.
  change ((RDM_SC =? RDM_PREAMBLE) || (RDM_SC =? RDM_DELIMITER)) with false.
  cbn [andb]. destruct (_ && _); reflexivity.
Qed.

Lemma rdm_parse_true_inv stale_d stale_s data size event event' :
  rdm_parse stale_d stale_s data size event = (true, event') ->
  rdm_data_t.sc data = RDM_PREAMBLE \/ rdm_data_t.sc data = RDM_DELIMITER.
Proof.
  unfold rdm_parse.
  destruct (rdm_data_t.sc data =? RDM_PREAMBLE) eqn:Hp;
    [left; apply Z.eqb_eq; exact Hp|].
  destruct (rdm_data_t.sc data =? RDM_DELIMITER) eqn:Hd;
    [right; apply Z.eqb_eq; exact Hd|].
  cbn [orb andb]. destruct (_ && _); discriminate.
Qed.

(** A recovered byte is a byte, whatever the two wire bytes are. *)
Lemma dub_decode_range x y :
  0 <= Z.lor (Z.land x 0x55) (Z.land y 0xaa) < 256.
Proof.
  rewrite (land_u8 x), (land_u8 y) by lia.
  pose proof (byte_forall (fun a =>
    forallb (fun b =>
      (0 <=? Z.lor (Z.land a 0x55) (Z.land b 0xaa))
      && (Z.lor (Z.land a 0x55) (Z.land b 0xaa) <? 256))
      (map Z.of_nat (seq 0 256))) ltac:(vm_compute; reflexivity)
    (u8 x) (u8_range x)) as H.
  cbv beta in H.
  pose proof (byte_forall _ H (u8 y) (u8_range y)) as H'. cbv beta in H'.
  apply andb_true_iff in H'. rewrite Z.leb_le, Z.ltb_lt in H'. exact H'.
Qed.

(** C3: for every device UID in [0, RDM_MAX_UID], the response handed to
    [dmx_write] has exactly 24 bytes, starts with seven preamble bytes
    0xFE and the delimiter 0xAA, and [rdm_parse] of these 24 bytes returns
    true with the original UID as source and a valid checksum. *)
Theorem discovery_response_round_trip rdm_uid efuse_uid stale_d stale_s event :
  0 <= fst (rdm_get_uid rdm_uid efuse_uid) <= RDM_MAX_UID ->
  exists response rdm_uid' event',
    rdm_write_discovery_response rdm_uid efuse_uid = (response, 24, rdm_uid')
    /\ length response = 24%nat
    /\ firstn 8 response = [0xfe; 0xfe; 0xfe; 0xfe; 0xfe; 0xfe; 0xfe; 0xaa]
    /\ rdm_parse stale_d stale_s response 24 event = (true, event')
    /\ source_uid event' = fst (rdm_get_uid rdm_uid efuse_uid)
    /\ checksum_is_valid event' = true.
Proof.
  unfold rdm_write_discovery_response.
  destruct (rdm_get_uid rdm_uid efuse_uid) as [uid rdm_uid']. cbn [fst].
  intros Huid. unfold RDM_MAX_UID in Huid.
  destruct (le_bytes_8 uid) as (b0 & b1 & b2 & b3 & b4 & b5 & b6 & b7 & Hs & Hr & Hw).
  rewrite (discovery_response_bytes uid _ _ _ _ _ _ _ _ Hs). cbn [fst].
  rewrite Z.mod_small in Hw by lia. byte_bounds.
  assert (b6 = 0 /\ b7 = 0) as [-> ->] by (cbn -[Z.mul Z.add] in Hw; lia).
  set (ck := sum6 b0 b1 b2 b3 b4 b5).
  assert (0 <= ck < 65536) as Hck by apply u16_range.
  eexists _, rdm_uid', _.
  split; [reflexivity|]. split; [reflexivity|]. split; [reflexivity|].
  rewrite rdm_parse_disc by (left; reflexivity).
  cbn -[u8 u16 Z.lor Z.land Z.shiftr le_word sum6].
  split; [reflexivity|]. cbn [source_uid checksum_is_valid].
  rewrite !dub_decode_encode by lia.
  rewrite dub_decode_encode_low.
  rewrite dub_decode_encode
    by (rewrite Z.shiftr_div_pow2 by lia; Z.div_mod_to_equations; lia).
  split; [exact Hw|].
  fold ck. apply Z.eqb_eq. unfold u8.
  rewrite Z.shiftr_div_pow2 by lia.
  cbn -[Z.mul Z.add Z.pow Z.div Z.modulo]. Z.div_mod_to_equations. lia.
Qed.

(** C4: in the response of the encoder every source byte B (the six UID
    bytes, most significant first, then the two checksum bytes) is sent as
    (B | 0xAA) then (B | 0x55); the checksum is the sum over the six UID
    bytes of (B + 0xFF); and whenever [rdm_parse] accepts a response, it
    has recovered each byte as (byte0 & 0x55) | (byte1 & 0xAA) and
    compared the sum of (B + 0xFF) over the six recovered UID bytes with
    the recovered checksum. *)
Theorem disc_unique_branch_wire_codec uid stale_d stale_s data size event event' :
  let src := le_bytes 8 uid in
  let response := fst (discovery_response uid) in
  let checksum := snd (discovery_response uid) in
  let wire B := [Z.lor B 0xaa; Z.lor B 0x55] in
  response =
    [0xfe; 0xfe; 0xfe; 0xfe; 0xfe; 0xfe; 0xfe; 0xaa]
    ++ wire (byte_at src 5) ++ wire (byte_at src 4) ++ wire (byte_at src 3)
    ++ wire (byte_at src 2) ++ wire (byte_at src 1) ++ wire (byte_at src 0)
    ++ wire (Z.shiftr checksum 8) ++ wire (u8 checksum)
  /\ checksum =
      (byte_at src 5 + 0xff) + (byte_at src 4 + 0xff) + (byte_at src 3 + 0xff)
      + (byte_at src 2 + 0xff) + (byte_at src 1 + 0xff) + (byte_at src 0 + 0xff)
  /\ (rdm_parse stale_d stale_s data size event = (true, event') ->
      let p := find_delimiter 7 data 0 in
      let B k :=
        Z.lor (Z.land (byte_at data (p + 1 + 2 * k)) 0x55)
              (Z.land (byte_at data (p + 1 + (2 * k + 1))) 0xaa) in
      source_uid event' = le_word [B 5; B 4; B 3; B 2; B 1; B 0]
      /\ checksum_is_valid event' =
         ((B 0 + 0xff) + (B 1 + 0xff) + (B 2 + 0xff) + (B 3 + 0xff)
          + (B 4 + 0xff) + (B 5 + 0xff) =? 256 * B 6 + B 7)).
Proof.
  intros src response checksum wire. subst src response checksum wire.
  destruct (le_bytes_8 uid) as (b0 & b1 & b2 & b3 & b4 & b5 & b6 & b7 & Hs & Hr & _).
  rewrite (discovery_response_bytes uid _ _ _ _ _ _ _ _ Hs), Hs. cbn [fst snd].
  byte_bounds.
  assert (0 <= sum6 b0 b1 b2 b3 b4 b5 < 65536) as Hck by apply u16_range.
  split; [|split].
  - cbn -[u8 u16 Z.lor Z.land Z.shiftr sum6].
    rewrite !(byte_lor_small b0), !(byte_lor_small b1), !(byte_lor_small b2),
      !(byte_lor_small b3), !(byte_lor_small b4), !(byte_lor_small b5) by lia.
    rewrite !(byte_lor_small (Z.shiftr _ 8))
      by (try rewrite Z.shiftr_div_pow2 by lia; try (Z.div_mod_to_equations; lia)).
    rewrite !(u8_lor (sum6 _ _ _ _ _ _)) by lia.
    reflexivity.
  - cbn -[u8 u16 Z.lor Z.land Z.shiftr sum6 Z.add].
    apply sum6_no_wrap. repeat constructor; lia.
  - intros Hparse.
    pose proof (rdm_parse_true_inv _ _ _ _ _ _ Hparse) as Hsc.
    rewrite rdm_parse_disc in Hparse by exact Hsc.
    destruct (_ && _) in Hparse; [|discriminate].
    apply (f_equal snd) in Hparse. cbn [snd] in Hparse. subst event'.
    cbn [source_uid checksum_is_valid].
    split; [cbn [le_word]; lia|].
    rewrite sum6_no_wrap by (repeat constructor; apply dub_decode_range).
    f_equal; cbn [le_word]; lia.
Qed.
End Codec.

Section CodecBranches.
Context {K : RdmConstants}.

(** When the DISC branch accepts: the code's three conditions. *)
Lemma rdm_parse_disc_accepts stale_d stale_s data size event :
  rdm_data_t.sc data = RDM_PREAMBLE \/ rdm_data_t.sc data = RDM_DELIMITER ->
  let p := find_delimiter 7 data 0 in
  fst (rdm_parse stale_d stale_s data size event) = true <->
  17 < size /\ byte_at data p = RDM_DELIMITER /\ p + 17 <= size.
Proof.
  intros Hsc p. rewrite rdm_parse_disc by exact Hsc. fold p.
  destruct (size >? 17) eqn:H1; destruct (byte_at data p =? RDM_DELIMITER) eqn:H2;
    destruct (p + 17 <=? size) eqn:H3; cbn [andb fst];
    rewrite ?Z.gtb_lt, ?Z.eqb_eq, ?Z.eqb_neq, ?Z.leb_le, ?Z.leb_gt in *;
    try (apply Z.gtb_ltb in H1; rewrite Z.ltb_ge in H1);
    split; intros; try discriminate; try tauto; lia.
Qed.

(** The preamble length that the search loop finds: the index of the
    first delimiter among bytes 0 to 6, and 7 when there is none. *)
Lemma find_delimiter_first data :
  let p := find_delimiter 7 data 0 in
  0 <= p <= 7
  /\ (forall k, 0 <= k < p -> byte_at data k <> RDM_DELIMITER)
  /\ (p < 7 -> byte_at data p = RDM_DELIMITER).
Proof.
  cbn [find_delimiter]. cbn -[byte_at Z.eqb].
  repeat match goal with
  | |- context [byte_at data ?i =? RDM_DELIMITER] =>
      let E := fresh "E" in
      destruct (byte_at data i =? RDM_DELIMITER) eqn:E;
      [apply Z.eqb_eq in E | apply Z.eqb_neq in E]
  end;
  (split; [lia|]; split; [|intros; first [assumption | lia]]);
  intros k Hk;
  assert (k = 0 \/ k = 1 \/ k = 2 \/ k = 3 \/ k = 4 \/ k = 5 \/ k = 6) as Hcases
    by lia;
  repeat (destruct Hcases as [-> | Hcases]; [first [assumption | lia]|]);
  subst k; first [assumption | lia].
Qed.

(** The standard branch is taken when [message_len >= size]; a packet
    shorter than the buffer is left alone. *)
Lemma rdm_parse_standard_guard stale_d stale_s data size event :
  rdm_data_t.sc data = RDM_SC ->
  rdm_data_t.message_len data < size ->
  rdm_parse stale_d stale_s data size event = (false, event).
Proof.
  intros Hsc Hlen. unfold rdm_parse. rewrite Hsc.
  change ((RDM_SC =? RDM_PREAMBLE) || (RDM_SC =? RDM_DELIMITER)) with false.
  cbn [andb].
  assert ((rdm_data_t.message_len data >=? size) = false) as ->
    by (rewrite Z.geb_leb; apply Z.leb_gt; exact Hlen).
  rewrite andb_false_r. reflexivity.
Qed.
End CodecBranches.

(** C5 (the code departs from the claim): the response without preamble
    is 17 bytes long, its delimiter is the first byte, so that the total
    length is preamble_len + 17, and [rdm_parse] rejects it; it is accepted
    once one more byte follows. Responses with 7 preamble bytes are
    accepted and 8 preamble bytes are rejected. *)
Theorem rdm_parse_rejects_disc_response_without_preamble :
  disc_response_no_preamble = skipn 7 (fst (discovery_response 0x123456789abc))
  /\ find_delimiter 7 disc_response_no_preamble 0 = 0
  /\ Z.of_nat (length disc_response_no_preamble) = 0 + 17
  /\ rdm_parse (K := e120_constants) 0 0 disc_response_no_preamble 17 event0
     = (false, event0)
  /\ fst (rdm_parse (K := e120_constants) 0 0 (disc_response_no_preamble ++ [0]) 18
            event0) = true
  /\ fst (rdm_parse (K := e120_constants) 0 0
            (repeat 0xfe 7 ++ disc_response_no_preamble) 24 event0) = true
  /\ fst (rdm_parse (K := e120_constants) 0 0
            (repeat 0xfe 8 ++ disc_response_no_preamble) 25 event0) = false.
Proof. repeat split; vm_compute; reflexivity. Qed.

(** C1 (the code departs from the claim): a well-formed request with start
    code 0xCC, sub-start code 0x01, message length 24 and a correct
    checksum, in a buffer of its 26 bytes, is not treated as a standard
    packet: the event is left as it was. *)
Theorem rdm_parse_ignores_well_formed_packet :
  rdm_data_t.sc get_device_info_packet = 0xcc
  /\ rdm_data_t.sub_sc get_device_info_packet = 0x01
  /\ 24 <= rdm_data_t.message_len get_device_info_packet <= 26
  /\ sum_loop 24 get_device_info_packet 24 0 0
     = 256 * byte_at get_device_info_packet 24 + byte_at get_device_info_packet 25
  /\ rdm_parse (K := e120_constants) 0 0 get_device_info_packet 26 event0
     = (false, event0).
Proof. repeat split; vm_compute; congruence. Qed.

(** C2 (the code departs from the claim): [rdm_parse] returns false on
    the well-formed request in its buffer of 26 bytes; and when the standard
    branch is taken (with [size] equal to the message length 24) the header
    is parsed into the event and the checksum is found valid, and
    [rdm_parse] returns false all the same. *)
Theorem rdm_parse_returns_false_on_standard_packet :
  fst (rdm_parse (K := e120_constants) 0 0 get_device_info_packet 26 event0) = false
  /\ rdm_parse (K := e120_constants) 0 0 get_device_info_packet 24 event0
  = (false,
     {| destination_uid := 0x7a7000000001;
        source_uid := 0x7a7000000002;
        tn := 0;
        port_id := 1;
        message_count := 0;
        sub_device := 0;
        cc := 0x20;
        pid := 0x0060;
        pdl := 0;
        checksum_is_valid := true |}).
Proof. split; vm_compute; reflexivity. Qed.

(** The round trip of C3 for the device 1234:56789abc. *)
Lemma discovery_response_round_trip_witness :
  0 <= fst (rdm_get_uid 0x123456789abc 0) <= RDM_MAX_UID
  /\ exists response rdm_uid' event',
      rdm_write_discovery_response 0x123456789abc 0 = (response, 24, rdm_uid')
      /\ length response = 24%nat
      /\ firstn 8 response = [0xfe; 0xfe; 0xfe; 0xfe; 0xfe; 0xfe; 0xfe; 0xaa]
      /\ rdm_parse (K := e120_constants) 0 0 response 24 event0 = (true, event')
      /\ source_uid event' = fst (rdm_get_uid 0x123456789abc 0)
      /\ checksum_is_valid event' = true.
Proof.
  assert (0 <= fst (rdm_get_uid 0x123456789abc 0) <= RDM_MAX_UID) as H
    by (vm_compute; split; discriminate).
  split; [exact H|].
  exact (discovery_response_round_trip (K := e120_constants)
           0x123456789abc 0 0 0 event0 H).
Defined.

(** The decoder part of C4 on the 24-byte response of the device
    1234:56789abc. *)
Lemma disc_unique_branch_wire_codec_witness :
  let data := repeat 0xfe 7 ++ disc_response_no_preamble in
  let event' :=
    {| destination_uid := 0; source_uid := 0x123456789abc; tn := 0; port_id := 0;
       message_count := 0; sub_device := 0; cc := 0x11; pid := 0x0001; pdl := 0;
       checksum_is_valid := true |} in
  rdm_parse (K := e120_constants) 0 0 data 24 event0 = (true, event')
  /\ source_uid event' = 0x123456789abc
  /\ checksum_is_valid event' = true.
Proof.
  intros data event'.
  assert (rdm_parse (K := e120_constants) 0 0 data 24 event0 = (true, event')) as H
    by (vm_compute; reflexivity).
  split; [exact H|].
  pose proof (proj2 (proj2 (disc_unique_branch_wire_codec (K := e120_constants)
                              0x123456789abc 0 0 data 24 event0 event')) H) as [Hs Hc].
  split; [rewrite Hs | rewrite Hc]; vm_compute; reflexivity.
Defined.

(** ** C6: start codes *)

(** C6: [DMX_START_CODE_IS_VALID] is false exactly on the three reserved
    ranges 0x92-0xA9, 0xAB-0xCD and 0xF0-0xF7; their six end points are
    rejected and 0x91, 0xAA and 0xCE are accepted. *)
Theorem start_code_is_valid_reserved_ranges :
  (forall sc,
     DMX_START_CODE_IS_VALID sc = false <->
     0x92 <= sc <= 0xa9 \/ 0xab <= sc <= 0xcd \/ 0xf0 <= sc <= 0xf7)
  /\ map DMX_START_CODE_IS_VALID [0x92; 0xa9; 0xab; 0xcd; 0xf0; 0xf7]
     = [false; false; false; false; false; false]
  /\ map DMX_START_CODE_IS_VALID [0x91; 0xaa; 0xce] = [true; true; true].
Proof.
  split; [|split; reflexivity].
  intros sc. unfold DMX_START_CODE_IS_VALID.
  rewrite !Z.geb_leb.
  destruct (0x92 <=? sc) eqn:A1; destruct (sc <=? 0xa9) eqn:A2;
    destruct (0xab <=? sc) eqn:B1; destruct (sc <=? 0xcd) eqn:B2;
    destruct (0xf0 <=? sc) eqn:C1; destruct (sc <=? 0xf7) eqn:C2;
    cbn [andb negb];
    rewrite ?Z.leb_le, ?Z.leb_gt in *;
    split; intros; try discriminate; try reflexivity; lia.
Qed.

(** ** C7: the buffer bounds under the receive interrupts *)

Section ReceiveBounds.
Context {U : UartIntr}.

Lemma dmx_intr_pass_bounded now h driver :
  receive_pass h = true ->
  head driver <= DMX_MAX_PACKET_SIZE /\ size driver <= DMX_MAX_PACKET_SIZE ->
  head (dmx_intr_pass now h driver) <= DMX_MAX_PACKET_SIZE
  /\ size (dmx_intr_pass now h driver) <= DMX_MAX_PACKET_SIZE.
Proof.
  unfold receive_pass, dmx_intr_pass, DMX_MAX_PACKET_SIZE.
  intros Hrx [Hhead Hsize].
  destruct (dmx_intr_branch (interrupt_status h)); try discriminate;
    cbn [head size]; try (split; lia).
  - (* break *) destruct (is_busy driver); split; lia.
  - (* data *)
    destruct (is_busy driver && (size_t (513 - head driver) >? 0)).
    + unfold dmx_hal_read_rxfifo. cbn [head size]. split; [|lia].
      assert (size_t (513 - head driver) <= 513 - head driver)
        by (unfold size_t; apply Z.mod_le; lia).
      destruct (size_t (513 - head driver) >? Z.of_nat (length (rxfifo h))) eqn:Hc;
        [apply Z.gtb_lt in Hc|]; lia.
    + cbn [head size]. split; lia.
Qed.

Lemma dmx_intr_handler_bounded now hal driver :
  forallb receive_pass hal = true ->
  head driver <= DMX_MAX_PACKET_SIZE /\ size driver <= DMX_MAX_PACKET_SIZE ->
  head (dmx_intr_handler now hal driver) <= DMX_MAX_PACKET_SIZE
  /\ size (dmx_intr_handler now hal driver) <= DMX_MAX_PACKET_SIZE.
Proof.
  revert driver. induction hal as [|h hal IH]; intros driver Hrx Hb; [exact Hb|].
  cbn [forallb] in Hrx. apply andb_true_iff in Hrx as [Hh Hhal].
  cbn [dmx_intr_handler]. destruct (interrupt_status h =? 0); [exact Hb|].
  apply IH; [exact Hhal|]. apply dmx_intr_pass_bounded; assumption.
Qed.

(** C7, as amended: if [head] and [size] are at most 513 before a
    sequence of receive interrupts (overflows, framing errors, breaks,
    data-ready events with any byte counts, bus clashes), they are at most
    513 after every interrupt of the sequence. *)
Theorem receive_interrupts_keep_head_and_size_bounded intrs driver :
  head driver <= 513 ->
  size driver <= 513 ->
  forallb receive_interrupt intrs = true ->
  Forall (fun d => head d <= 513 /\ size d <= 513) (dmx_intr_trace intrs driver).
Proof.
  revert driver.
  induction intrs as [|[now hal] intrs IH]; intros driver Hhead Hsize Hrx;
    [constructor|].
  cbn [forallb] in Hrx. apply andb_true_iff in Hrx as [Hi Hrest].
  cbn [dmx_intr_trace].
  pose proof (dmx_intr_handler_bounded now hal driver Hi (conj Hhead Hsize)) as [H1 H2].
  unfold DMX_MAX_PACKET_SIZE in *.
  constructor; [split; assumption|]. apply IH; assumption.
Qed.
End ReceiveBounds.

(** C7 fails as stated: from an idle driver with [head <= size <= 513], a
    frame of three slots followed by a frame of five slots leaves
    [head = 5] above [size = 3]. *)
Lemma receive_interrupts_let_head_exceed_size :
  head idle_driver <= size idle_driver <= 513
  /\ forallb (receive_interrupt (U := esp32_uart_intr)) two_short_frames = true
  /\ map (fun d => (head d, size d))
       (dmx_intr_trace (U := esp32_uart_intr) two_short_frames idle_driver)
     = [(0, 513); (3, 513); (0, 3); (5, 3)]
  /\ ~ Forall (fun d => head d <= size d <= 513)
         (dmx_intr_trace (U := esp32_uart_intr) two_short_frames idle_driver).
Proof.
  split; [vm_compute; split; discriminate|].
  split; [vm_compute; reflexivity|].
  split; [vm_compute; reflexivity|].
  intros H.
  assert (exists d,
             nth_error (dmx_intr_trace (U := esp32_uart_intr) two_short_frames
                          idle_driver) 3 = Some d
             /\ head d = 5 /\ size d = 3) as (d & Hd & Hh & Hs)
    by (eexists; split; [vm_compute; reflexivity | split; reflexivity]).
  apply nth_error_In in Hd. rewrite Forall_forall in H.
  specialize (H d Hd). lia.
Qed.

(** The bounds of C7 along the two short frames. *)
Lemma receive_interrupts_keep_head_and_size_bounded_witness :
  head idle_driver <= 513
  /\ size idle_driver <= 513
  /\ forallb (receive_interrupt (U := esp32_uart_intr)) two_short_frames = true
  /\ Forall (fun d => head d <= 513 /\ size d <= 513)
       (dmx_intr_trace (U := esp32_uart_intr) two_short_frames idle_driver).
Proof.
  assert (head idle_driver <= 513) as H1 by (vm_compute; discriminate).
  assert (size idle_driver <= 513) as H2 by (vm_compute; discriminate).
  assert (forallb (receive_interrupt (U := esp32_uart_intr)) two_short_frames = true)
    as H3 by (vm_compute; reflexivity).
  repeat split; try assumption.
  exact (receive_interrupts_keep_head_and_size_bounded (U := esp32_uart_intr)
           two_short_frames idle_driver H1 H2 H3).
Defined.

(** ** C9: the queued-message handler *)

Section QueuedMessage.
Context {Q : QueueStatusEnv}.

Lemma status_type_guard status_type_requested :
  negb (status_type_requested =? RDM_STATUS_GET_LAST_MESSAGE)
  && negb (status_type_requested =? RDM_STATUS_ADVISORY)
  && negb (status_type_requested =? RDM_STATUS_WARNING)
  && negb (status_type_requested =? RDM_STATUS_ERROR)
  = negb (status_type_is_valid status_type_requested).
Proof.
  unfold status_type_is_valid.
  destruct (status_type_requested =? RDM_STATUS_GET_LAST_MESSAGE);
    destruct (status_type_requested =? RDM_STATUS_ADVISORY);
    destruct (status_type_requested =? RDM_STATUS_WARNING);
    destruct (status_type_requested =? RDM_STATUS_ERROR); reflexivity.
Qed.

(** C9, as amended: when the requested status type is one of
    GET_LAST_MESSAGE, ADVISORY, WARNING and ERROR, the handler pops the
    queue exactly once and answers with an ACK; if the pop returns 0 (the
    queue was empty) it puts PID STATUS_MESSAGE into the header and the
    answer is the status-message response, with a PDL of 0; if the pop
    returns a PID, the header, the parameter data and the PDL are left as
    they were. For any other status type the handler answers with a NACK,
    the reason DATA_OUT_OF_RANGE is emplaced into the parameter data and its
    size is the PDL, and the queue and the PID of the header are left as
    they were. *)
Theorem queued_message_checks_status_type_then_serves_queue
    queue header_pid pd pdl_out :
  let result := rdm_rhd_queued_message queue header_pid pd pdl_out in
  (status_type_is_valid (byte_at pd 0) = true ->
   rhd_queue result = snd (rdm_queue_pop queue)
   /\ rhd_ack result = RDM_RESPONSE_TYPE_ACK
   /\ (fst (rdm_queue_pop queue) = 0 ->
       rhd_header_pid result = RDM_PID_STATUS_MESSAGE
       /\ rhd_pd result = pd
       /\ rhd_pdl_out result = 0
       /\ result
          = rdm_rhd_status_messages (snd (rdm_queue_pop queue))
              RDM_PID_STATUS_MESSAGE pd pdl_out)
   /\ (fst (rdm_queue_pop queue) <> 0 ->
       rhd_header_pid result = header_pid
       /\ rhd_pd result = pd
       /\ rhd_pdl_out result = pdl_out))
  /\ (status_type_is_valid (byte_at pd 0) = false ->
      rhd_ack result = RDM_RESPONSE_TYPE_NACK_REASON
      /\ rhd_queue result = queue
      /\ rhd_header_pid result = header_pid
      /\ rhd_pd result = fst (rdm_emplace_word pd RDM_NR_DATA_OUT_OF_RANGE)
      /\ rhd_pdl_out result
         = u8 (snd (rdm_emplace_word pd RDM_NR_DATA_OUT_OF_RANGE))).
Proof.
  intros result. subst result. unfold rdm_rhd_queued_message.
  rewrite status_type_guard. split; intros ->; cbn [negb].
  - destruct (rdm_queue_pop queue) as [queue_pid queue']. cbn [fst snd].
    destruct (queue_pid =? 0) eqn:Hpid; cbn [negb];
      [apply Z.eqb_eq in Hpid | apply Z.eqb_neq in Hpid];
      cbn [rdm_rhd_status_messages rhd_queue rhd_ack rhd_header_pid rhd_pd
           rhd_pdl_out];
      repeat split; intros; try reflexivity; contradiction.
  - destruct (rdm_emplace_word pd RDM_NR_DATA_OUT_OF_RANGE) as [pd' n].
    repeat split.
Qed.
End QueuedMessage.

(** C9 fails as stated: for a request whose status type is 0x00 or 0x05,
    the handler answers with a NACK whatever the queue holds; on an empty
    queue the PID of the header is not replaced and the parameter data
    carry the reason 0x0006, and a non-empty queue keeps its entry. *)
Lemma queued_message_nacks_invalid_status_type :
  fst (fifo_queue_pop []) = 0
  /\ rhd_ack (rdm_rhd_queued_message (Q := e120_queue_status) [] 0x0020 [0; 0] 0)
     = RDM_RESPONSE_TYPE_NACK_REASON
  /\ rhd_header_pid (rdm_rhd_queued_message (Q := e120_queue_status) [] 0x0020 [0; 0] 0)
     <> RDM_PID_STATUS_MESSAGE (QueueStatusEnv := e120_queue_status)
  /\ rhd_pd (rdm_rhd_queued_message (Q := e120_queue_status) [] 0x0020 [0; 0] 0)
     = [0x00; 0x06]
  /\ rhd_queue (rdm_rhd_queued_message (Q := e120_queue_status) [0x0082] 0x0020 [0; 0] 0)
     = [0x0082]
  /\ rhd_ack (rdm_rhd_queued_message (Q := e120_queue_status) [0x0082] 0x0020 [0; 0] 0)
     <> RDM_RESPONSE_TYPE_ACK
  /\ rhd_queue (rdm_rhd_queued_message (Q := e120_queue_status) [0x0082] 0x0020 [5; 0] 0)
     = [0x0082]
  /\ rhd_ack (rdm_rhd_queued_message (Q := e120_queue_status) [0x0082] 0x0020 [5; 0] 0)
     <> RDM_RESPONSE_TYPE_ACK.
Proof. repeat split; vm_compute; congruence. Qed.

(** C9 for a GET_LAST_MESSAGE request on a queue of two PIDs: one PID has
    left the queue and the answer is an ACK; and for a request of the status
    type 0x05 on the same queue: a NACK with the reason 0x0006 in two bytes
    of parameter data, and the queue and the header as they were. *)
Lemma queued_message_checks_status_type_then_serves_queue_witness :
  status_type_is_valid (Q := e120_queue_status) (byte_at [0x01] 0) = true
  /\ rhd_queue (rdm_rhd_queued_message (Q := e120_queue_status) [0x0082; 0x00f0]
                  0x0020 [0x01] 7) = [0x00f0]
  /\ rhd_ack (rdm_rhd_queued_message (Q := e120_queue_status) [0x0082; 0x00f0]
                0x0020 [0x01] 7) = RDM_RESPONSE_TYPE_ACK
  /\ status_type_is_valid (Q := e120_queue_status) (byte_at [0x05; 0] 0) = false
  /\ rhd_ack (rdm_rhd_queued_message (Q := e120_queue_status) [0x0082; 0x00f0]
                0x0020 [0x05; 0] 7) = RDM_RESPONSE_TYPE_NACK_REASON
  /\ rhd_queue (rdm_rhd_queued_message (Q := e120_queue_status) [0x0082; 0x00f0]
                  0x0020 [0x05; 0] 7) = [0x0082; 0x00f0]
  /\ rhd_header_pid (rdm_rhd_queued_message (Q := e120_queue_status)
                       [0x0082; 0x00f0] 0x0020 [0x05; 0] 7) = 0x0020
  /\ rhd_pd (rdm_rhd_queued_message (Q := e120_queue_status) [0x0082; 0x00f0]
               0x0020 [0x05; 0] 7) = [0x00; 0x06]
  /\ rhd_pdl_out (rdm_rhd_queued_message (Q := e120_queue_status)
                    [0x0082; 0x00f0] 0x0020 [0x05; 0] 7) = 2.
Proof.
  assert (status_type_is_valid (Q := e120_queue_status) (byte_at [0x01] 0) = true)
    as H by reflexivity.
  assert (status_type_is_valid (Q := e120_queue_status) (byte_at [0x05; 0] 0)
          = false) as H' by reflexivity.
  split; [exact H|].
  destruct (proj1 (queued_message_checks_status_type_then_serves_queue
                     (Q := e120_queue_status) [0x0082; 0x00f0] 0x0020 [0x01] 7) H)
    as (Hq & Ha & _).
  split; [exact Hq|]. split; [exact Ha|]. split; [exact H'|].
  destruct (proj2 (queued_message_checks_status_type_then_serves_queue
                     (Q := e120_queue_status) [0x0082; 0x00f0] 0x0020 [0x05; 0] 7) H')
    as (N1 & N2 & N3 & N4 & N5).
  split; [exact N1|]. split; [exact N2|]. split; [exact N3|].
  split; [exact N4 | exact N5].
Defined.

(** ** C10: registering the device label *)

Lemma strnlen_full s n :
  (n <= length s)%nat -> Forall (fun c => c <> 0) (firstn n s) ->
  strnlen s n = Z.of_nat n.
Proof.
  revert s. induction n as [|n IH]; intros s Hlen Hnz; [destruct s; reflexivity|].
  destruct s as [|c s]; [simpl in Hlen; lia|].
  cbn [firstn] in Hnz. apply Forall_cons_iff in Hnz as [Hc Hnz].
  cbn [strnlen]. apply Z.eqb_neq in Hc. rewrite Hc.
  rewrite IH by (simpl in Hlen; auto with arith; lia). lia.
Qed.

Lemma strnlen_terminated s n k :
  (k < n)%nat -> nth k s 0 = 0 -> strnlen s n < Z.of_nat n.
Proof.
  revert s k. induction n as [|n IH]; intros s k Hk Hnul; [lia|].
  destruct s as [|c s]; cbn [strnlen]; [lia|].
  destruct (c =? 0) eqn:Hc; [lia|].
  destruct k as [|k]; [cbn in Hnul; apply Z.eqb_neq in Hc; contradiction|].
  cbn [nth] in Hnul. specialize (IH s k ltac:(lia) Hnul). lia.
Qed.

Section DeviceLabel.
Context {D : DmxDriver}.

(** C10: while DEVICE_LABEL is not registered, a label with no NUL among
    its first 32 bytes makes [rdm_register_device_label] return false and
    leaves the driver as it was, and a label with a NUL at one of the
    positions 0 to 31 (length at most 31) is accepted; once the parameter
    exists the label is not checked. In both of these cases registration
    proceeds: the first 32 bytes of the label, as [strncpy] copies them,
    are handed to [dmx_driver_add_parameter] as a non-volatile parameter of
    32 bytes; if that fails the function returns false; otherwise the
    definition of the parameter is set, the callback is set, and the result
    is that of [rdm_callback_set]. *)
Theorem register_device_label_checks_new_labels_only st dmx_num label cb :
  let registered :=
    dmx_parameter_exists st dmx_num RDM_SUB_DEVICE_ROOT RDM_PID_DEVICE_LABEL in
  let added :=
    dmx_driver_add_parameter st dmx_num RDM_SUB_DEVICE_ROOT RDM_PID_DEVICE_LABEL
      DMX_PARAMETER_TYPE_NON_VOLATILE (strncpy label 32) 32 in
  let defined :=
    rdm_definition_set (snd added) dmx_num RDM_SUB_DEVICE_ROOT
      RDM_PID_DEVICE_LABEL device_label_definition in
  let called :=
    rdm_callback_set defined dmx_num RDM_SUB_DEVICE_ROOT RDM_PID_DEVICE_LABEL cb in
  let proceeds :=
    rdm_register_device_label st dmx_num (Some label) cb
    = if fst added then Returns (fst called) (snd called)
      else Returns false (snd added) in
  (registered = false ->
   (32 <= length label)%nat -> Forall (fun c => c <> 0) (firstn 32 label) ->
   rdm_register_device_label st dmx_num (Some label) cb = Returns false st)
  /\ (registered = false ->
      dmx_num < DMX_NUM_MAX -> dmx_driver_is_installed st dmx_num = true ->
      (exists k, (k <= 31)%nat /\ nth k label 0 = 0) ->
      proceeds)
  /\ (registered = true ->
      dmx_num < DMX_NUM_MAX -> dmx_driver_is_installed st dmx_num = true ->
      proceeds).
Proof.
  intros registered added defined called proceeds.
  subst proceeds called defined added registered.
  unfold rdm_register_device_label, register_device_label_parameter.
  split; [|split].
  - intros -> Hlen Hnz. cbn [negb].
    unfold RDM_ASCII_SIZE_MAX. change (Z.to_nat 32) with 32%nat.
    rewrite (strnlen_full label 32 Hlen Hnz).
    change (Z.of_nat 32 <? 32) with false. cbn [negb].
    destruct (negb (dmx_num <? DMX_NUM_MAX)); [reflexivity|].
    destruct (negb (dmx_driver_is_installed st dmx_num)); reflexivity.
  - intros -> Hnum -> (k & Hk & Hnul). cbn [negb].
    apply Z.ltb_lt in Hnum. rewrite Hnum. cbn [negb].
    pose proof (strnlen_terminated label 32 k ltac:(lia) Hnul) as Hlt.
    apply Z.ltb_lt in Hlt. unfold RDM_ASCII_SIZE_MAX.
    change (Z.to_nat 32) with 32%nat. change (Z.of_nat 32) with 32 in Hlt.
    rewrite Hlt. cbn [negb].
    destruct (dmx_driver_add_parameter st dmx_num RDM_SUB_DEVICE_ROOT
                RDM_PID_DEVICE_LABEL DMX_PARAMETER_TYPE_NON_VOLATILE
                (strncpy label 32) 32) as [[|] st1]; cbn [negb fst snd];
      [|reflexivity].
    destruct (rdm_callback_set _ dmx_num RDM_SUB_DEVICE_ROOT
                RDM_PID_DEVICE_LABEL cb); reflexivity.
  - intros -> Hnum ->. apply Z.ltb_lt in Hnum. rewrite Hnum. cbn [negb].
    unfold RDM_ASCII_SIZE_MAX.
    destruct (dmx_driver_add_parameter st dmx_num RDM_SUB_DEVICE_ROOT
                RDM_PID_DEVICE_LABEL DMX_PARAMETER_TYPE_NON_VOLATILE
                (strncpy label 32) 32) as [[|] st1]; cbn [negb fst snd];
      [|reflexivity].
    destruct (rdm_callback_set _ dmx_num RDM_SUB_DEVICE_ROOT
                RDM_PID_DEVICE_LABEL cb); reflexivity.
Qed.
End DeviceLabel.

(** The three cases of C10 on the one-port driver: a label of 32 letters is
    refused; the label Hello is stored, padded with NULs to 32 bytes, and
    the callback is set; and a label of 40 letters, when the parameter
    exists, reaches [dmx_driver_add_parameter], which refuses the
    duplicate. *)
Lemma register_device_label_checks_new_labels_only_witness :
  rdm_register_device_label (D := simple_driver) [] 0 (Some (repeat 65 32)) tt
  = Returns false []
  /\ rdm_register_device_label (D := simple_driver) [] 0
       (Some [72; 101; 108; 108; 111; 0]) tt
     = Returns true [(0, 0x0082, [72; 101; 108; 108; 111] ++ repeat 0 27)]
  /\ rdm_register_device_label (D := simple_driver) [(0, 0x0082, [0])] 0
       (Some (repeat 65 40)) tt
     = Returns false [(0, 0x0082, [0])].
Proof.
  split; [|split].
  - apply (proj1 (register_device_label_checks_new_labels_only
                    (D := simple_driver) [] 0 (repeat 65 32) tt));
      [reflexivity | simpl; lia | ].
    simpl. repeat constructor; discriminate.
  - rewrite (proj1 (proj2 (register_device_label_checks_new_labels_only
                             (D := simple_driver) [] 0
                             [72; 101; 108; 108; 111; 0] tt)));
      [reflexivity | reflexivity | reflexivity | reflexivity | ].
    exists 5%nat. split; [lia | reflexivity].
  - rewrite (proj2 (proj2 (register_device_label_checks_new_labels_only
                             (D := simple_driver) [(0, 0x0082, [0])] 0
                             (repeat 65 40) tt)));
      reflexivity.
Defined.

(** * Further properties of the code *)

(** ** UID conversions *)

Lemma byte_at_range buf i :
  Forall (fun b => 0 <= b < 256) buf -> 0 <= byte_at buf i < 256.
Proof.
  intros H. unfold byte_at.
  destruct (nth_in_or_default (Z.to_nat i) buf 0) as [Hin | ->]; [|lia].
  rewrite Forall_forall in H. apply H. exact Hin.
Qed.

Lemma le_bytes_le_word_app bs t :
  Forall (fun b => 0 <= b < 256) bs ->
  le_bytes (length bs) (le_word bs + 256 ^ Z.of_nat (length bs) * t) = bs.
Proof.
  induction bs as [|b bs IH]; intros H; [reflexivity|].
  apply Forall_cons_iff in H as [Hb Hbs].
  cbn [length le_bytes le_word]. rewrite Nat2Z.inj_succ, Z.pow_succ_r by lia.
  replace (b + 256 * le_word bs + 256 * 256 ^ Z.of_nat (length bs) * t)
    with (b + (le_word bs + 256 ^ Z.of_nat (length bs) * t) * 256) by ring.
  rewrite Z_mod_plus_full, Z.mod_small by lia.
  rewrite Z_div_plus_full, Z.div_small by lia.
  cbn [Z.add]. rewrite IH by exact Hbs. reflexivity.
Qed.

Lemma le_bytes_8_6 v :
  exists b0 b1 b2 b3 b4 b5 b6 b7,
    le_bytes 8 v = [b0; b1; b2; b3; b4; b5; b6; b7] /\
    le_bytes 6 v = [b0; b1; b2; b3; b4; b5] /\
    Forall (fun b => 0 <= b < 256) [b0; b1; b2; b3; b4; b5; b6; b7].
Proof.
  pose proof (le_bytes_range 8 v) as Hr.
  cbn [le_bytes] in *. repeat eexists. exact Hr.
Qed.

(** [uid_to_buf] writes the six low-order bytes of the UID, most
    significant first. *)
Lemma uid_to_buf_rev uid : uid_to_buf uid = rev (le_bytes 6 uid).
Proof.
  unfold uid_to_buf, bswap64.
  destruct (le_bytes_8_6 uid)
    as (b0 & b1 & b2 & b3 & b4 & b5 & b6 & b7 & H8 & H6 & Hr).
  rewrite H8, H6. byte_bounds.
  rewrite Z.shiftr_div_pow2 by lia.
  replace (le_word (rev [b0; b1; b2; b3; b4; b5; b6; b7]) / 2 ^ 16)
    with (le_word [b5; b4; b3; b2; b1; b0; 0; 0] + 256 ^ Z.of_nat 8 * 0)
    by (cbn -[Z.mul Z.add Z.pow Z.div]; Z.div_mod_to_equations; lia).
  rewrite (le_bytes_le_word_app [b5; b4; b3; b2; b1; b0; 0; 0])
    by (repeat constructor; lia).
  reflexivity.
Qed.

Lemma be48_range buf :
  Forall (fun b => 0 <= b < 256) buf -> 0 <= be48 buf < 2 ^ 48.
Proof.
  intros H. unfold be48.
  pose proof (byte_at_range buf 0 H). pose proof (byte_at_range buf 1 H).
  pose proof (byte_at_range buf 2 H). pose proof (byte_at_range buf 3 H).
  pose proof (byte_at_range buf 4 H). pose proof (byte_at_range buf 5 H).
  cbn -[Z.mul Z.add Z.pow byte_at]. lia.
Qed.

(** [buf_to_uid] without a bound on the length of the buffer: bytes past
    its end read as 0. *)
Lemma buf_to_uid_bytes stale buf :
  Forall (fun b => 0 <= b < 256) buf ->
  buf_to_uid stale buf = be48 buf + 2 ^ 48 * ((stale mod 2 ^ 64) / 2 ^ 48).
Proof.
  intros H. unfold buf_to_uid, be48.
  destruct (le_bytes_8 stale) as (s0 & s1 & s2 & s3 & s4 & s5 & s6 & s7 & Hs & Hr & Hw).
  rewrite Hs, <- Hw.
  pose proof (byte_at_range buf 0 H). pose proof (byte_at_range buf 1 H).
  pose proof (byte_at_range buf 2 H). pose proof (byte_at_range buf 3 H).
  pose proof (byte_at_range buf 4 H). pose proof (byte_at_range buf 5 H).
  cbn -[Z.mul Z.add Z.pow Z.div byte_at] in *. byte_bounds.
  Z.div_mod_to_equations. lia.
Qed.

Lemma low_48_bits a t :
  0 <= a < 2 ^ 48 ->
  (a + 2 ^ 48 * t) mod 2 ^ 48 = a /\ (a + 2 ^ 48 * t) / 2 ^ 48 = t.
Proof. intros H. Z.div_mod_to_equations. lia. Qed.

(** X1: for a buffer of bytes, the low 48 bits of the result of
    [buf_to_uid] (and of [uidcpy], the same code) are the big-endian reading
    of its first six bytes, and the 16 bits above them are those that the
    local [val] held on entry. *)
Theorem buf_to_uid_low_48_bits stale buf :
  Forall (fun b => 0 <= b < 256) buf ->
  buf_to_uid stale buf mod 2 ^ 48 = be48 buf
  /\ buf_to_uid stale buf / 2 ^ 48 = (stale mod 2 ^ 64) / 2 ^ 48
  /\ uidcpy stale buf = buf_to_uid stale buf.
Proof.
  intros H. pose proof (be48_range buf H) as Hr.
  split; [|split; [|reflexivity]]; rewrite (buf_to_uid_bytes stale buf H).
  - apply low_48_bits. exact Hr.
  - apply low_48_bits. exact Hr.
Qed.

(** The six bytes 01..06 on a stack slot filled with 0xa5. *)
Lemma buf_to_uid_low_48_bits_witness :
  Forall (fun b => 0 <= b < 256) [1; 2; 3; 4; 5; 6]
  /\ buf_to_uid 0xa5a5a5a5a5a5a5a5 [1; 2; 3; 4; 5; 6] mod 2 ^ 48 = 0x010203040506.
Proof.
  assert (Forall (fun b => 0 <= b < 256) [1; 2; 3; 4; 5; 6]) as H
    by (repeat constructor; lia).
  split; [exact H|].
  exact (proj1 (buf_to_uid_low_48_bits 0xa5a5a5a5a5a5a5a5 [1; 2; 3; 4; 5; 6] H)).
Defined.

Lemma uid_to_buf_be48 uid :
  Forall (fun b => 0 <= b < 256) (uid_to_buf uid)
  /\ be48 (uid_to_buf uid) = uid mod 2 ^ 48.
Proof.
  rewrite uid_to_buf_rev. split; [apply Forall_rev, le_bytes_range|].
  change (2 ^ 48) with (256 ^ Z.of_nat 6). rewrite <- le_word_le_bytes.
  destruct (le_bytes_8_6 uid)
    as (b0 & b1 & b2 & b3 & b4 & b5 & b6 & b7 & _ & -> & _).
  reflexivity.
Qed.

(** X2: [uid_to_buf] writes six bytes, the big-endian form of the UID
    modulo 2^48; the bits of the argument from 48 up do not reach the
    buffer. *)
Theorem uid_to_buf_big_endian uid :
  length (uid_to_buf uid) = 6%nat
  /\ Forall (fun b => 0 <= b < 256) (uid_to_buf uid)
  /\ be48 (uid_to_buf uid) = uid mod 2 ^ 48
  /\ forall high, uid_to_buf (uid + 2 ^ 48 * high) = uid_to_buf uid.
Proof.
  destruct (uid_to_buf_be48 uid) as [Hr Hbe].
  split; [rewrite uid_to_buf_rev, length_rev; apply le_bytes_length|].
  split; [exact Hr|]. split; [exact Hbe|].
  rewrite uid_to_buf_rev.
  - intros high. rewrite uid_to_buf_rev. f_equal.
    rewrite <- (le_bytes_le_word_app (le_bytes 6 uid) (uid / 2 ^ 48 + high))
      by apply le_bytes_range.
    rewrite !le_bytes_length, le_word_le_bytes. f_equal.
    change (256 ^ Z.of_nat 6) with (2 ^ 48).
    pose proof (Z.div_mod uid (2 ^ 48) ltac:(lia)). lia.
Qed.

(** X3: writing back the result of [buf_to_uid] with [uid_to_buf] restores
    the first six bytes of the buffer, whatever the stale bits of the
    result are. *)
Theorem uid_to_buf_buf_to_uid stale buf :
  Forall (fun b => 0 <= b < 256) buf -> (6 <= length buf)%nat ->
  uid_to_buf (buf_to_uid stale buf) = firstn 6 buf.
Proof.
  intros H Hlen. rewrite uid_to_buf_rev, (buf_to_uid_bytes stale buf H).
  destruct buf as [|c0 [|c1 [|c2 [|c3 [|c4 [|c5 buf]]]]]];
    try (simpl in Hlen; lia).
  unfold be48. cbn [byte_at nth Z.to_nat Pos.to_nat Pos.iter_op Nat.add firstn].
  assert (Forall (fun b => 0 <= b < 256) [c5; c4; c3; c2; c1; c0])
    as Hsix by (byte_bounds; repeat apply Forall_cons; try apply Forall_nil; assumption).
  rewrite (le_bytes_le_word_app [c5; c4; c3; c2; c1; c0] _ Hsix : le_bytes 6 _ = _).
  reflexivity.
Qed.

(** A buffer with more than six bytes, on a slot filled with 0xff. *)
Lemma uid_to_buf_buf_to_uid_witness :
  Forall (fun b => 0 <= b < 256) [0x7a; 0x70; 0; 0; 0; 1; 0xcc]
  /\ (6 <= length [0x7a; 0x70; 0; 0; 0; 1; 0xcc])%nat
  /\ uid_to_buf (buf_to_uid 0xffffffffffffffff [0x7a; 0x70; 0; 0; 0; 1; 0xcc])
     = [0x7a; 0x70; 0; 0; 0; 1].
Proof.
  assert (Forall (fun b => 0 <= b < 256) [0x7a; 0x70; 0; 0; 0; 1; 0xcc]) as H
    by (repeat constructor; lia).
  assert (6 <= length [0x7a; 0x70; 0; 0; 0; 1; 0xcc])%nat as Hlen by (simpl; lia).
  split; [exact H|]. split; [exact Hlen|].
  exact (uid_to_buf_buf_to_uid 0xffffffffffffffff [0x7a; 0x70; 0; 0; 0; 1; 0xcc] H Hlen).
Defined.

(** X4: reading back with [buf_to_uid] what [uid_to_buf] wrote gives the
    UID modulo 2^48 in the low 48 bits, for every 64-bit argument. *)
Theorem buf_to_uid_uid_to_buf_low_bits stale uid :
  buf_to_uid stale (uid_to_buf uid) mod 2 ^ 48 = uid mod 2 ^ 48.
Proof.
  destruct (uid_to_buf_be48 uid) as [Hr Hbe].
  rewrite (buf_to_uid_bytes stale _ Hr), Hbe.
  apply low_48_bits. apply Z.mod_pos_bound. lia.
Qed.

(** ** More on the DISC_UNIQUE_BRANCH response *)

Lemma find_delimiter_preamble p rest :
  (p <= 7)%nat ->
  find_delimiter 7 (repeat RDM_PREAMBLE p ++ RDM_DELIMITER :: rest) 0 = Z.of_nat p.
Proof.
  intros Hp. do 8 (destruct p as [|p]; [reflexivity|]). lia.
Qed.

Lemma byte_at_app_r l1 l2 j :
  0 <= j -> byte_at (l1 ++ l2) (Z.of_nat (length l1) + j) = byte_at l2 j.
Proof.
  intros Hj. unfold byte_at.
  rewrite Z2Nat.inj_add, Nat2Z.id by lia.
  rewrite app_nth2 by lia. f_equal. lia.
Qed.

Lemma byte_at_preamble p rest j :
  0 <= j ->
  byte_at (repeat RDM_PREAMBLE p ++ RDM_DELIMITER :: rest) (Z.of_nat p + 1 + j)
  = byte_at rest j.
Proof.
  intros Hj.
  change (repeat RDM_PREAMBLE p ++ RDM_DELIMITER :: rest)
    with (repeat RDM_PREAMBLE p ++ [RDM_DELIMITER] ++ rest).
  rewrite app_assoc.
  replace (Z.of_nat p + 1)
    with (Z.of_nat (length (repeat RDM_PREAMBLE p ++ [RDM_DELIMITER])))
    by (rewrite length_app, repeat_length; simpl; lia).
  apply byte_at_app_r. exact Hj.
Qed.

Lemma byte_at_delimiter p rest :
  byte_at (repeat RDM_PREAMBLE p ++ RDM_DELIMITER :: rest) (Z.of_nat p)
  = RDM_DELIMITER.
Proof.
  replace (Z.of_nat p) with (Z.of_nat (length (repeat RDM_PREAMBLE p)) + 0)
    by (rewrite repeat_length; lia).
  rewrite byte_at_app_r by lia. reflexivity.
Qed.

Section DiscResponses.
Context {K : RdmConstants}.

(** X5: the response of the encoder is decoded whatever the number of
    preamble bytes in front of the delimiter: with 0 to 7 preamble bytes,
    and any bytes after the response, [rdm_parse] returns true with the
    UID of the encoder and a valid checksum, provided the buffer has more
    than 17 bytes. *)
Theorem discovery_response_any_preamble uid p trailer stale_d stale_s event :
  0 <= uid <= RDM_MAX_UID ->
  (p <= 7)%nat ->
  (1 <= p + length trailer)%nat ->
  exists event',
    rdm_parse stale_d stale_s
      (repeat RDM_PREAMBLE p ++ skipn 7 (fst (discovery_response uid)) ++ trailer)
      (Z.of_nat (p + 17 + length trailer)) event = (true, event')
    /\ source_uid event' = uid
    /\ checksum_is_valid event' = true.
Proof.
  intros Huid Hp Hlen. unfold RDM_MAX_UID in Huid.
  destruct (le_bytes_8 uid) as (b0 & b1 & b2 & b3 & b4 & b5 & b6 & b7 & Hs & Hr & Hw).
  rewrite (discovery_response_bytes uid _ _ _ _ _ _ _ _ Hs). cbn [fst skipn app].
  rewrite Z.mod_small in Hw by lia. byte_bounds.
  assert (b6 = 0 /\ b7 = 0) as [-> ->] by (cbn -[Z.mul Z.add] in Hw; lia).
  set (ck := sum6 b0 b1 b2 b3 b4 b5).
  assert (0 <= ck < 65536) as Hck by apply u16_range.
  change 0xaa with RDM_DELIMITER at 1.
  rewrite rdm_parse_disc.
  2:{ unfold rdm_data_t.sc. destruct p as [|p]; [right | left]; reflexivity. }
  rewrite find_delimiter_preamble by exact Hp.
  rewrite byte_at_delimiter, Z.eqb_refl.
  rewrite !byte_at_preamble by lia.
  assert ((Z.of_nat (p + 17 + length trailer) >? 17) = true) as ->
    by (apply Z.gtb_lt; lia).
  assert ((Z.of_nat p + 17 <=? Z.of_nat (p + 17 + length trailer)) = true) as ->
    by (apply Z.leb_le; lia).
  cbn -[u8 u16 Z.lor Z.land Z.shiftr le_word sum6].
  eexists. split; [reflexivity|]. cbn [source_uid checksum_is_valid].
  rewrite !dub_decode_encode by lia.
  rewrite dub_decode_encode_low.
  rewrite dub_decode_encode
    by (rewrite Z.shiftr_div_pow2 by lia; Z.div_mod_to_equations; lia).
  split; [exact Hw|].
  fold ck. apply Z.eqb_eq. unfold u8.
  rewrite Z.shiftr_div_pow2 by lia.
  cbn -[Z.mul Z.add Z.pow Z.div Z.modulo]. Z.div_mod_to_equations. lia.
Qed.

(** X6: when [rdm_parse] returns true, the buffer began with a preamble
    byte or the delimiter and had more than 17 bytes; the source UID of the
    event is below 2^48; the command class and PID of the event are those of
    a DISC_UNIQUE_BRANCH response; and the fields that a discovery response
    does not carry are left as they were. *)
Theorem rdm_parse_true_is_discovery_response
    stale_d stale_s data size event event' :
  rdm_parse stale_d stale_s data size event = (true, event') ->
  (rdm_data_t.sc data = RDM_PREAMBLE \/ rdm_data_t.sc data = RDM_DELIMITER)
  /\ 17 < size
  /\ 0 <= source_uid event' < 2 ^ 48
  /\ cc event' = RDM_DISCOVERY_COMMAND_RESPONSE
  /\ pid event' = RDM_PID_DISC_UNIQUE_BRANCH
  /\ destination_uid event' = destination_uid event
  /\ tn event' = tn event
  /\ port_id event' = port_id event
  /\ message_count event' = message_count event
  /\ sub_device event' = sub_device event
  /\ pdl event' = pdl event.
Proof.
  intros Hparse.
  pose proof (rdm_parse_true_inv _ _ _ _ _ _ Hparse) as Hsc.
  split; [exact Hsc|].
  rewrite rdm_parse_disc in Hparse by exact Hsc.
  destruct (size >? 17) eqn:Hsize; [|discriminate].
  destruct (_ && _) in Hparse; [|discriminate].
  apply Z.gtb_lt in Hsize.
  apply (f_equal snd) in Hparse. cbn [snd] in Hparse. subst event'.
  cbn [source_uid cc pid destination_uid tn port_id message_count sub_device pdl].
  split; [lia|]. split; [|repeat split; reflexivity].
  repeat match goal with
  | |- context [Z.lor (Z.land ?x 0x55) (Z.land ?y 0xaa)] =>
      let d := fresh "d" in
      let Hd := fresh "Hd" in
      pose proof (dub_decode_range x y) as Hd;
      set (d := Z.lor (Z.land x 0x55) (Z.land y 0xaa)) in *;
      clearbody d
  end.
  cbn [le_word]. lia.
Qed.

(** X7: whenever [rdm_parse] returns false on a buffer whose start code is
    not the RDM start code, the event is left as it was: a rejected
    discovery response or an unknown start code writes nothing. *)
Theorem rdm_parse_rejection_keeps_event stale_d stale_s data size event :
  rdm_data_t.sc data <> RDM_SC ->
  fst (rdm_parse stale_d stale_s data size event) = false ->
  snd (rdm_parse stale_d stale_s data size event) = event.
Proof.
  intros Hsc. unfold rdm_parse.
  apply Z.eqb_neq in Hsc. rewrite Hsc. cbn [andb].
  destruct (_ && _); [|reflexivity].
  destruct (_ || _); [reflexivity|].
  destruct (decode_uid_loop _ _ _ _ _ _). cbn [fst]. discriminate.
Qed.
End DiscResponses.

(** X5 for the device 1234:56789abc, with three preamble bytes and a byte of
    noise after the response. *)
Lemma discovery_response_any_preamble_witness :
  0 <= 0x123456789abc <= RDM_MAX_UID
  /\ (3 <= 7)%nat
  /\ (1 <= 3 + length [0x42])%nat
  /\ exists event',
      rdm_parse (K := e120_constants) 0 0
        (repeat RDM_PREAMBLE 3 ++ skipn 7 (fst (discovery_response 0x123456789abc))
           ++ [0x42])
        (Z.of_nat (3 + 17 + length [0x42])) event0 = (true, event')
      /\ source_uid event' = 0x123456789abc
      /\ checksum_is_valid event' = true.
Proof.
  assert (0 <= 0x123456789abc <= RDM_MAX_UID) as H1 by (vm_compute; split; discriminate).
  assert (3 <= 7)%nat as H2 by lia.
  assert (1 <= 3 + length [0x42])%nat as H3 by (simpl; lia).
  split; [exact H1|]. split; [exact H2|]. split; [exact H3|].
  exact (discovery_response_any_preamble (K := e120_constants)
           0x123456789abc 3 [0x42] 0 0 event0 H1 H2 H3).
Defined.

(** X6 on the response without preamble followed by one byte. *)
Lemma rdm_parse_true_is_discovery_response_witness :
  let event' :=
    {| destination_uid := 0; source_uid := 0x123456789abc; tn := 0; port_id := 0;
       message_count := 0; sub_device := 0; cc := 0x11; pid := 0x0001; pdl := 0;
       checksum_is_valid := true |} in
  rdm_parse (K := e120_constants) 0 0 (disc_response_no_preamble ++ [0]) 18 event0
  = (true, event')
  /\ 0 <= source_uid event' < 2 ^ 48.
Proof.
  intros event'.
  assert (rdm_parse (K := e120_constants) 0 0 (disc_response_no_preamble ++ [0]) 18
            event0 = (true, event')) as H by (vm_compute; reflexivity).
  split; [exact H|].
  exact (proj1 (proj2 (proj2 (rdm_parse_true_is_discovery_response
                                (K := e120_constants) 0 0 _ 18 event0 event' H)))).
Defined.

(** X7 on a DMX frame (null start code) and a used event. *)
Lemma rdm_parse_rejection_keeps_event_witness :
  let event :=
    {| destination_uid := 1; source_uid := 2; tn := 3; port_id := 4;
       message_count := 5; sub_device := 6; cc := 7; pid := 8; pdl := 9;
       checksum_is_valid := true |} in
  rdm_data_t.sc (0 :: repeat 0xff 24) <> RDM_SC
  /\ fst (rdm_parse (K := e120_constants) 0 0 (0 :: repeat 0xff 24) 25 event) = false
  /\ snd (rdm_parse (K := e120_constants) 0 0 (0 :: repeat 0xff 24) 25 event) = event.
Proof.
  intros event.
  assert (rdm_data_t.sc (0 :: repeat 0xff 24) <> RDM_SC) as H1
    by (vm_compute; discriminate).
  assert (fst (rdm_parse (K := e120_constants) 0 0 (0 :: repeat 0xff 24) 25 event)
          = false) as H2 by (vm_compute; reflexivity).
  split; [exact H1|]. split; [exact H2|].
  exact (rdm_parse_rejection_keeps_event (K := e120_constants) 0 0 _ 25 event H1 H2).
Defined.

(** ** The standard packet *)

Lemma Forall_skipn_bytes (P : Z -> Prop) n l : Forall P l -> Forall P (skipn n l).
Proof.
  revert l. induction n as [|n IH]; intros l H; [exact H|].
  destruct l as [|b l]; [exact H|].
  apply Forall_cons_iff in H as [_ H]. apply IH. exact H.
Qed.

Lemma byte_sum_nil n : byte_sum [] n = 0.
Proof. unfold byte_sum. now rewrite firstn_nil. Qed.

Lemma byte_sum_skipn_step data i f :
  byte_sum (skipn i data) (S f) = nth i data 0 + byte_sum (skipn (S i) data) f.
Proof.
  revert data. induction i as [|i IH]; intros [|b data].
  - rewrite !byte_sum_nil. reflexivity.
  - reflexivity.
  - cbn [skipn nth]. rewrite !byte_sum_nil. reflexivity.
  - cbn [skipn nth]. apply IH.
Qed.

(** The checksum loop yields the sum of the bytes modulo 2^16. *)
Lemma sum_loop_byte_sum fuel data len i s :
  0 <= i -> i + Z.of_nat fuel = len ->
  sum_loop fuel data len i (u16 s)
  = u16 (s + byte_sum (skipn (Z.to_nat i) data) fuel).
Proof.
  revert i s. induction fuel as [|fuel IH]; intros i s Hi Hlen.
  - cbn [sum_loop]. unfold byte_sum. cbn [firstn fold_right]. now rewrite Z.add_0_r.
  - cbn [sum_loop].
    assert ((i <? len) = true) as -> by (apply Z.ltb_lt; lia).
    rewrite IH by lia.
    rewrite byte_sum_skipn_step.
    replace (Z.to_nat (i + 1)) with (S (Z.to_nat i)) by lia.
    unfold byte_at, u16.
    rewrite <- Z.add_assoc, Zplus_mod_idemp_l. reflexivity.
Qed.

Lemma sum_loop_checksum data len :
  0 <= len ->
  sum_loop (Z.to_nat len) data len 0 0 = byte_sum data (Z.to_nat len) mod 2 ^ 16.
Proof.
  intros Hlen. change 0 with (u16 0) at 2.
  rewrite sum_loop_byte_sum by lia. reflexivity.
Qed.

Lemma bswap16_bytes x : le_bytes 2 (bswap16 x) = rev (le_bytes 2 x).
Proof.
  unfold bswap16.
  pose proof (le_bytes_le_word_app (rev (le_bytes 2 x)) 0
                (Forall_rev (le_bytes_range 2 x))) as H.
  rewrite Z.mul_0_r, Z.add_0_r, length_rev, le_bytes_length in H. exact H.
Qed.

Lemma bswap16_be a b :
  0 <= a < 256 -> 0 <= b < 256 -> bswap16 (le_word [a; b]) = 256 * a + b.
Proof.
  intros Ha Hb. unfold bswap16.
  assert (Forall (fun c => 0 <= c < 256) [a; b]) as Hab
    by (repeat apply Forall_cons; try apply Forall_nil; assumption).
  pose proof (le_bytes_le_word_app [a; b] 0 Hab) as H.
  rewrite Z.mul_0_r, Z.add_0_r in H. cbn [length] in H. rewrite H.
  cbn -[Z.mul Z.add]. lia.
Qed.

Section StandardPacket.
Context {K : RdmConstants}.

(** The event that the standard branch of [rdm_parse] leaves. *)
Lemma rdm_parse_standard_event stale_d stale_s data size event :
  Forall (fun b => 0 <= b < 256) data ->
  rdm_data_t.sc data = RDM_SC ->
  rdm_data_t.sub_sc data = RDM_SUB_SC ->
  size <= rdm_data_t.message_len data ->
  let message_len := rdm_data_t.message_len data in
  let event' := snd (rdm_parse stale_d stale_s data size event) in
  destination_uid event' mod 2 ^ 48 = be48 (offset data 3)
  /\ source_uid event' mod 2 ^ 48 = be48 (offset data 9)
  /\ tn event' = byte_at data 15
  /\ port_id event' = byte_at data 16
  /\ message_count event' = byte_at data 17
  /\ sub_device event' = 256 * byte_at data 18 + byte_at data 19
  /\ cc event' = byte_at data 20
  /\ pid event' = 256 * byte_at data 21 + byte_at data 22
  /\ pdl event' = byte_at data 23
  /\ checksum_is_valid event'
     = (byte_sum data (Z.to_nat message_len) mod 2 ^ 16
        =? 256 * byte_at data message_len + byte_at data (message_len + 1)).
Proof.
  intros Hbytes Hsc Hsub Hsize message_len event'.
  subst event' message_len. unfold rdm_parse. rewrite Hsc, Hsub.
  change ((RDM_SC =? RDM_PREAMBLE) || (RDM_SC =? RDM_DELIMITER)) with false.
  rewrite !Z.eqb_refl.
  assert ((rdm_data_t.message_len data >=? size) = true) as ->
    by (rewrite Z.geb_leb; apply Z.leb_le; exact Hsize).
  cbn [andb snd destination_uid source_uid tn port_id message_count sub_device
       cc pid pdl checksum_is_valid].
  pose proof (fun i => byte_at_range data i Hbytes) as Hr.
  unfold rdm_data_t.destination_uid, rdm_data_t.source_uid, rdm_data_t.tn,
    rdm_data_t.port_id, rdm_data_t.message_count, rdm_data_t.sub_device,
    rdm_data_t.cc, rdm_data_t.pid, rdm_data_t.pdl.
  rewrite !bswap16_be by apply Hr.
  rewrite sum_loop_checksum by (apply Hr).
  rewrite !buf_to_uid_bytes by (apply Forall_skipn_bytes; exact Hbytes).
  repeat split;
    apply low_48_bits, be48_range, Forall_skipn_bytes; exact Hbytes.
Qed.

(** X8: when [rdm_parse] takes its standard branch (RDM start code,
    sub-start code 0x01, [size <= message_len]) on a buffer of bytes, the
    event holds the header fields of the packet, with the sub-device and the
    PID read big-endian and both UIDs read big-endian in their low 48 bits,
    and [checksum_is_valid] tells whether the sum of the first
    [message_len] bytes modulo 2^16 is the big-endian word that follows
    them. *)
Theorem rdm_parse_standard_fields stale_d stale_s data size event :
  Forall (fun b => 0 <= b < 256) data ->
  rdm_data_t.sc data = RDM_SC ->
  rdm_data_t.sub_sc data = RDM_SUB_SC ->
  size <= rdm_data_t.message_len data ->
  let message_len := rdm_data_t.message_len data in
  let event' := snd (rdm_parse stale_d stale_s data size event) in
  destination_uid event' mod 2 ^ 48 = be48 (offset data 3)
  /\ source_uid event' mod 2 ^ 48 = be48 (offset data 9)
  /\ tn event' = byte_at data 15
  /\ port_id event' = byte_at data 16
  /\ message_count event' = byte_at data 17
  /\ sub_device event' = 256 * byte_at data 18 + byte_at data 19
  /\ cc event' = byte_at data 20
  /\ pid event' = 256 * byte_at data 21 + byte_at data 22
  /\ pdl event' = byte_at data 23
  /\ checksum_is_valid event'
     = (byte_sum data (Z.to_nat message_len) mod 2 ^ 16
        =? 256 * byte_at data message_len + byte_at data (message_len + 1)).
Proof. exact (rdm_parse_standard_event stale_d stale_s data size event). Qed.
End StandardPacket.

(** X8 on the GET DEVICE_INFO request, with [size] equal to its message
    length. *)
Lemma rdm_parse_standard_fields_witness :
  let event' :=
    snd (rdm_parse (K := e120_constants) 0 0 get_device_info_packet 24 event0) in
  Forall (fun b => 0 <= b < 256) get_device_info_packet
  /\ rdm_data_t.sc get_device_info_packet = RDM_SC
  /\ rdm_data_t.sub_sc get_device_info_packet = RDM_SUB_SC
  /\ 24 <= rdm_data_t.message_len get_device_info_packet
  /\ pid event' = 256 * byte_at get_device_info_packet 21
                  + byte_at get_device_info_packet 22
  /\ destination_uid event' mod 2 ^ 48 = be48 (offset get_device_info_packet 3).
Proof.
  intros event'.
  assert (Forall (fun b => 0 <= b < 256) get_device_info_packet) as H1
    by (repeat apply Forall_cons; try apply Forall_nil; lia).
  assert (rdm_data_t.sc get_device_info_packet = RDM_SC) as H2 by reflexivity.
  assert (rdm_data_t.sub_sc get_device_info_packet = RDM_SUB_SC) as H3 by reflexivity.
  assert (24 <= rdm_data_t.message_len get_device_info_packet) as H4
    by (vm_compute; discriminate).
  pose proof (rdm_parse_standard_fields (K := e120_constants) 0 0
                get_device_info_packet 24 event0 H1 H2 H3 H4) as H.
  cbv zeta in H. fold event' in H.
  repeat split; try assumption; apply H.
Defined.

(** ** The discovery mute command *)

Lemma uid_to_buf_six uid :
  exists a0 a1 a2 a3 a4 a5, uid_to_buf uid = [a0; a1; a2; a3; a4; a5].
Proof.
  pose proof (f_equal (@length Z) (uid_to_buf_rev uid)) as Hlen.
  rewrite length_rev, le_bytes_length in Hlen.
  destruct (uid_to_buf uid) as [|a0 [|a1 [|a2 [|a3 [|a4 [|a5 [|a6 l]]]]]]];
    try discriminate Hlen.
  repeat eexists.
Qed.

Lemma le_bytes_2_u16 x : le_bytes 2 (u16 x) = le_bytes 2 x.
Proof.
  unfold u16. change (2 ^ 16) with 65536. cbn [le_bytes].
  f_equal; [|f_equal]; Z.div_mod_to_equations; lia.
Qed.

Section DiscoveryMuteCommand.
Context {M : RdmMuteConstants}.

(** The bytes of the mute command. *)
Lemma discovery_mute_command_bytes rdm_uid efuse_uid stale dmx_num uid
    (mute : bool) :
  RDM_BASE_PACKET_SIZE = 26 ->
  length stale = 26%nat ->
  let own_uid := fst (rdm_get_uid rdm_uid efuse_uid) in
  let pid := if mute then RDM_PID_DISC_MUTE else RDM_PID_DISC_UN_MUTE in
  let header :=
    [RDM_SC; RDM_SUB_SC; 24] ++ uid_to_buf uid ++ uid_to_buf own_uid
    ++ [0; u8 (dmx_num + 1); 0; 0; 0; u8 RDM_DISCOVERY_COMMAND]
    ++ rev (le_bytes 2 pid) ++ [0] in
  let result :=
    rdm_write_discovery_mute rdm_uid efuse_uid stale dmx_num uid mute in
  fst (fst result) = header ++ rev (le_bytes 2 (byte_sum header 24))
  /\ snd (fst result) = 26
  /\ sum_loop 24 (fst (fst result)) 24 0 0
     = bswap16 (le_word [byte_at (fst (fst result)) 24;
                         byte_at (fst (fst result)) 25]).
Proof.
  intros Hsize Hstale own_uid pid header result.
  assert (fst (fst result) = header ++ rev (le_bytes 2 (byte_sum header 24))
          /\ snd (fst result) = 26) as [Hcmd Hlen].
  { subst result header own_uid. unfold rdm_write_discovery_mute.
    rewrite Hsize. change (u8 (26 - 2)) with 24.
    change (le_bytes 2 (bswap16 0)) with [0; 0].
    fold pid. rewrite (bswap16_bytes pid).
    destruct (rdm_get_uid rdm_uid efuse_uid) as [own rdm_uid']. cbn [fst].
    destruct (uid_to_buf_six uid) as (a0 & a1 & a2 & a3 & a4 & a5 & ->).
    destruct (uid_to_buf_six own) as (o0 & o1 & o2 & o3 & o4 & o5 & ->).
    pose proof (le_bytes_length 2 pid) as Hp.
    destruct (le_bytes 2 pid) as [|p0 [|p1 [|p2 l]]]; try discriminate Hp.
    do 26 (destruct stale as [|? stale]; [discriminate Hstale|]).
    destruct stale; [|discriminate Hstale].
    cbn -[u8 u16 sum_loop bswap16 le_bytes byte_sum].
    rewrite bswap16_bytes.
    rewrite (sum_loop_checksum _ 24 ltac:(lia) : sum_loop 24 _ 24 0 0 = _).
    match goal with
    | |- context [le_bytes 2 (?a mod 2 ^ 16)] =>
        change (a mod 2 ^ 16) with (u16 a); rewrite le_bytes_2_u16
    end.
    change (Z.to_nat 24) with 24%nat. unfold byte_sum. cbn [firstn].
    match goal with
    | |- context [le_bytes 2 ?x] =>
        pose proof (le_bytes_length 2 x) as Hk;
        destruct (le_bytes 2 x) as [|k0 [|k1 [|k2 l]]]; try discriminate Hk
    end.
    split; reflexivity. }
  split; [exact Hcmd|]. split; [exact Hlen|].
  rewrite Hcmd.
  assert (length header = 24%nat) as Hheader.
  { subst header. pose proof (le_bytes_length 2 pid).
    destruct (uid_to_buf_six uid) as (a0 & a1 & a2 & a3 & a4 & a5 & ->).
    destruct (uid_to_buf_six own_uid) as (o0 & o1 & o2 & o3 & o4 & o5 & ->).
    rewrite !length_app, length_rev. simpl. lia. }
  rewrite (sum_loop_checksum _ 24 ltac:(lia) : sum_loop 24 _ 24 0 0 = _).
  change (Z.to_nat 24) with 24%nat.
  assert (byte_sum (header ++ rev (le_bytes 2 (byte_sum header 24))) 24
          = byte_sum header 24) as ->.
  { unfold byte_sum. rewrite firstn_app, Hheader, Nat.sub_diag.
    cbn [firstn]. rewrite app_nil_r. reflexivity. }
  assert (forall l j, 0 <= j -> byte_at (header ++ l) (24 + j) = byte_at l j) as Hb.
  { intros l j Hj. replace 24 with (Z.of_nat (length header)) by lia.
    apply byte_at_app_r. exact Hj. }
  rewrite (Hb _ 0 ltac:(lia) : byte_at _ 24 = _).
  rewrite (Hb _ 1 ltac:(lia) : byte_at _ 25 = _). clear Hb.
  generalize (byte_sum header 24). intros ck.
  pose proof (le_bytes_range 2 ck) as Hr. pose proof (le_word_le_bytes 2 ck) as Hw.
  cbn [le_bytes] in Hr, Hw |- *. byte_bounds.
  cbn [rev app byte_at nth Z.to_nat Pos.to_nat Pos.iter_op Nat.add].
  rewrite bswap16_be by assumption.
  cbn [le_word] in Hw. change (256 ^ Z.of_nat 2) with (2 ^ 16) in Hw. lia.
Qed.

(** X9: when the base packet has 26 bytes, the command that
    [rdm_write_discovery_mute] hands to [dmx_write] is the 24-byte header
    (start codes, message length 24, the destination UID and the own UID
    big-endian, transaction 0, port [dmx_num + 1], message count 0,
    sub-device 0, the discovery command class, the PID of DISC_MUTE or
    DISC_UN_MUTE big-endian, PDL 0) followed by the big-endian 16-bit sum
    of these 24 bytes; nothing of the uninitialised array is left in it,
    and the checksum test of [rdm_parse] succeeds on it. *)
Theorem discovery_mute_command_layout rdm_uid efuse_uid stale dmx_num uid
    (mute : bool) :
  RDM_BASE_PACKET_SIZE = 26 ->
  length stale = 26%nat ->
  let own_uid := fst (rdm_get_uid rdm_uid efuse_uid) in
  let pid := if mute then RDM_PID_DISC_MUTE else RDM_PID_DISC_UN_MUTE in
  let header :=
    [RDM_SC; RDM_SUB_SC; 24] ++ uid_to_buf uid ++ uid_to_buf own_uid
    ++ [0; u8 (dmx_num + 1); 0; 0; 0; u8 RDM_DISCOVERY_COMMAND]
    ++ rev (le_bytes 2 pid) ++ [0] in
  let result :=
    rdm_write_discovery_mute rdm_uid efuse_uid stale dmx_num uid mute in
  fst (fst result) = header ++ rev (le_bytes 2 (byte_sum header 24))
  /\ snd (fst result) = 26
  /\ sum_loop 24 (fst (fst result)) 24 0 0
     = bswap16 (le_word [byte_at (fst (fst result)) 24;
                         byte_at (fst (fst result)) 25]).
Proof.
  exact (discovery_mute_command_bytes rdm_uid efuse_uid stale dmx_num uid mute).
Qed.
End DiscoveryMuteCommand.

(** X9 for a mute command to the device 7a70:00000001 from port 0, built in
    an array that held 0xee everywhere. *)
Lemma discovery_mute_command_layout_witness :
  RDM_BASE_PACKET_SIZE (RdmMuteConstants := e120_mute_constants) = 26
  /\ length (repeat 0xee 26) = 26%nat
  /\ fst (fst (rdm_write_discovery_mute (M := e120_mute_constants)
                 0x7a7000000002 0 (repeat 0xee 26) 0 0x7a7000000001 true))
     = [0xcc; 0x01; 0x18; 0x7a; 0x70; 0; 0; 0; 1; 0x7a; 0x70; 0; 0; 0; 2;
        0; 1; 0; 0; 0; 0x10; 0; 2; 0; 0x02; 0xcf].
Proof.
  assert (RDM_BASE_PACKET_SIZE (RdmMuteConstants := e120_mute_constants) = 26)
    as H1 by reflexivity.
  assert (length (repeat 0xee 26) = 26%nat) as H2 by reflexivity.
  split; [exact H1|]. split; [exact H2|].
  rewrite (proj1 (discovery_mute_command_layout (M := e120_mute_constants)
                    0x7a7000000002 0 (repeat 0xee 26) 0 0x7a7000000001 true H1 H2)).
  vm_compute. reflexivity.
Defined.

(** ** The interrupt handlers: buffers *)

Lemma store_length buf i b : length (store buf i b) = length buf.
Proof.
  revert i. induction buf as [|c buf IH]; intros [|i]; cbn [store length];
    try reflexivity. now rewrite IH.
Qed.

Lemma blit_length buf off src : length (blit buf off src) = length buf.
Proof.
  revert buf off. induction src as [|b src IH]; intros buf off; cbn [blit];
    [reflexivity|]. now rewrite IH, store_length.
Qed.

Lemma firstn_store_before buf i b n :
  (n <= i)%nat -> firstn n (store buf i b) = firstn n buf.
Proof.
  revert i n. induction buf as [|c buf IH]; intros [|i] [|n] H;
    cbn [store firstn]; try reflexivity; try lia.
  f_equal. apply IH. lia.
Qed.

Lemma firstn_store_here buf i b :
  (i < length buf)%nat -> firstn (S i) (store buf i b) = firstn i buf ++ [b].
Proof.
  revert i. induction buf as [|c buf IH]; intros [|i] H; cbn [length] in H;
    cbn [store firstn app]; try reflexivity; try lia.
  f_equal. apply IH. lia.
Qed.

(** [blit] writes [src] right after the first [off] elements. *)
Lemma firstn_blit buf off src :
  (off + length src <= length buf)%nat ->
  firstn (off + length src) (blit buf off src) = firstn off buf ++ src.
Proof.
  revert buf off. induction src as [|b src IH]; intros buf off H.
  - cbn [blit length]. rewrite Nat.add_0_r, app_nil_r. reflexivity.
  - cbn [blit length] in *.
    replace (off + S (length src))%nat with (S off + length src)%nat by lia.
    rewrite IH by (rewrite store_length; lia).
    rewrite firstn_store_here by lia.
    rewrite <- app_assoc. reflexivity.
Qed.

Section ReceivePath.
Context {U : UartIntr}.

Lemma dmx_intr_branch_zero : dmx_intr_branch 0 = Unhandled.
Proof. unfold dmx_intr_branch, intr_set. rewrite !Z.land_0_l. reflexivity. Qed.

Lemma pass_status_nonzero h :
  pass_branch h <> Unhandled -> (interrupt_status h =? 0) = false.
Proof.
  intros H. apply Z.eqb_neq. intros Hz. apply H.
  unfold pass_branch. rewrite Hz. apply dmx_intr_branch_zero.
Qed.

(** An entry of the handler with one pending interrupt makes one pass. *)
Lemma dmx_intr_handler_single now h driver :
  pass_branch h <> Unhandled ->
  dmx_intr_handler now [h] driver = dmx_intr_pass now h driver.
Proof.
  intros H. cbn [dmx_intr_handler]. rewrite (pass_status_nonzero h H). reflexivity.
Qed.

(** What a data pass does on a busy driver. *)
Lemma rx_data_pass_busy now h driver :
  pass_branch h = RxData ->
  is_busy driver = true ->
  0 <= head driver <= 513 ->
  length (data driver) = 513%nat ->
  let taken := firstn (Z.to_nat (513 - head driver)) (rxfifo h) in
  let driver' := dmx_intr_pass now h driver in
  head driver' = head driver + Z.of_nat (length taken)
  /\ firstn (Z.to_nat (head driver')) (data driver')
     = firstn (Z.to_nat (head driver)) (data driver) ++ taken
  /\ length (data driver') = 513%nat
  /\ size driver' = size driver
  /\ waiting_task driver' = waiting_task driver
  /\ is_busy driver'
     = negb (waiting_task driver && (byte_at (data driver') 0 =? DMX_SC)
             && (head driver' >? size driver))
  /\ notification driver'
     = if is_busy driver' then notification driver else Some NOTIFY_ZERO.
Proof.
  intros Hbranch Hbusy Hhead Hlen taken driver'.
  subst driver'. unfold dmx_intr_pass. unfold pass_branch in Hbranch.
  rewrite Hbranch, Hbusy. unfold DMX_MAX_PACKET_SIZE, size_t.
  rewrite (Z.mod_small (513 - head driver)) by lia.
  assert (length taken = Nat.min (Z.to_nat (513 - head driver)) (length (rxfifo h)))
    as Htaken by apply length_firstn.
  destruct (513 - head driver >? 0) eqn:Hroom; cbn [andb negb orb].
  - apply Z.gtb_lt in Hroom. unfold dmx_hal_read_rxfifo.
    assert (firstn
              (Z.to_nat (if 513 - head driver >? Z.of_nat (length (rxfifo h))
                         then Z.of_nat (length (rxfifo h))
                         else 513 - head driver)) (rxfifo h) = taken) as Hread.
    { subst taken.
      destruct (513 - head driver >? Z.of_nat (length (rxfifo h))) eqn:Hc; [|reflexivity].
      apply Z.gtb_lt in Hc. rewrite Nat2Z.id.
      rewrite !firstn_all2 by lia. reflexivity. }
    assert ((if 513 - head driver >? Z.of_nat (length (rxfifo h))
             then Z.of_nat (length (rxfifo h))
             else 513 - head driver) = Z.of_nat (length taken)) as Hsize.
    { rewrite Htaken.
      destruct (513 - head driver >? Z.of_nat (length (rxfifo h))) eqn:Hc;
        [apply Z.gtb_lt in Hc | rewrite Z.gtb_ltb, Z.ltb_ge in Hc]; lia. }
    rewrite Hread, Hsize.
    cbn [head data size waiting_task is_busy notification].
    assert (firstn (Z.to_nat (head driver + Z.of_nat (length taken)))
              (blit (data driver) (Z.to_nat (head driver)) taken)
            = firstn (Z.to_nat (head driver)) (data driver) ++ taken) as Hfirst.
    { replace (Z.to_nat (head driver + Z.of_nat (length taken)))
        with (Z.to_nat (head driver) + length taken)%nat by lia.
      apply firstn_blit. lia. }
    rewrite blit_length.
    destruct (waiting_task driver); cbn [negb orb andb];
      [destruct (byte_at _ 0 =? DMX_SC); cbn [andb];
       [destruct (_ >? size driver)|]|];
      cbn [negb head data size waiting_task is_busy notification];
      repeat split; try assumption; reflexivity.
  - rewrite Z.gtb_ltb, Z.ltb_ge in Hroom.
    assert (head driver = 513) as H513 by lia.
    assert (taken = []) as Hnil
      by (subst taken; rewrite H513; reflexivity).
    rewrite Hnil. cbn [length Z.of_nat]. rewrite app_nil_r, Z.add_0_r.
    destruct (waiting_task driver); cbn [negb orb andb];
      [destruct (byte_at _ 0 =? DMX_SC); cbn [andb];
       [destruct (_ >? size driver)|]|];
      cbn [negb head data size waiting_task is_busy notification];
      repeat split; try assumption; reflexivity.
Qed.

(** X10: a data pass on a busy driver copies the bytes of the receive FIFO
    that fit into the 513 slots to the buffer at [head], in order, and
    advances [head] by their number; [size] stays; and the driver stops being
    busy, with the value 0 posted to the waiting task, exactly when a task
    waits, the start code in the buffer is the null start code and [head]
    has passed [size]. *)
Theorem rx_data_pass_stores_fifo_in_order now h driver :
  pass_branch h = RxData ->
  is_busy driver = true ->
  0 <= head driver <= 513 ->
  length (data driver) = 513%nat ->
  let taken := firstn (Z.to_nat (513 - head driver)) (rxfifo h) in
  let driver' := dmx_intr_pass now h driver in
  head driver' = head driver + Z.min (513 - head driver) (Z.of_nat (length (rxfifo h)))
  /\ firstn (Z.to_nat (head driver')) (data driver')
     = firstn (Z.to_nat (head driver)) (data driver) ++ taken
  /\ length (data driver') = 513%nat
  /\ size driver' = size driver
  /\ (is_busy driver' = false <->
      waiting_task driver = true /\ byte_at (data driver') 0 = DMX_SC
      /\ size driver < head driver')
  /\ (is_busy driver' = false -> notification driver' = Some NOTIFY_ZERO)
  /\ (is_busy driver' = true -> notification driver' = notification driver).
Proof.
  intros Hbranch Hbusy Hhead Hlen taken driver'.
  destruct (rx_data_pass_busy now h driver Hbranch Hbusy Hhead Hlen)
    as (H1 & H2 & H3 & H4 & _ & H6 & H7).
  fold taken driver' in H1, H2, H3, H4, H6, H7.
  assert (Z.of_nat (length taken)
          = Z.min (513 - head driver) (Z.of_nat (length (rxfifo h)))) as Hmin
    by (subst taken; rewrite length_firstn; lia).
  rewrite <- Hmin.
  split; [exact H1|]. split; [exact H2|]. split; [exact H3|]. split; [exact H4|].
  split; [|split; intros Hb; rewrite Hb in H7; exact H7].
  rewrite H6, negb_false_iff, !andb_true_iff, Z.eqb_eq, Z.gtb_lt. tauto.
Qed.

Lemma receiving_received driver : receiving driver -> received driver [] driver.
Proof.
  intros Hr. unfold received. rewrite firstn_nil. cbn [length Z.of_nat].
  rewrite app_nil_r, Z.add_0_r. repeat split; try reflexivity; apply Hr.
Qed.

Lemma received_app driver bytes1 driver1 bytes2 driver2 :
  0 <= head driver <= 513 ->
  received driver bytes1 driver1 ->
  received driver1 bytes2 driver2 ->
  received driver (bytes1 ++ bytes2) driver2.
Proof.
  unfold received. intros Hhead (Hr1 & Hs1 & Hn1 & Hh1 & Hd1) (Hr2 & Hs2 & Hn2 & Hh2 & Hd2).
  assert (firstn (Z.to_nat (513 - head driver)) (bytes1 ++ bytes2)
          = firstn (Z.to_nat (513 - head driver)) bytes1
            ++ firstn (Z.to_nat (513 - head driver1)) bytes2) as Happ.
  { rewrite firstn_app. f_equal. rewrite Hh1, length_firstn.
    destruct (Nat.le_gt_cases (length bytes1) (Z.to_nat (513 - head driver))).
    - f_equal. lia.
    - replace (Z.to_nat (513 - head driver) - length bytes1)%nat with 0%nat by lia.
      replace (Z.to_nat (513 - (head driver + Z.of_nat (Nat.min (Z.to_nat (513 - head driver)) (length bytes1)))))
        with 0%nat by lia.
      reflexivity. }
  rewrite Happ, length_app, app_assoc, <- Hd1, Hd2, Hh2, Hh1, Hs2, Hs1, Hn2, Hn1.
  repeat split; try reflexivity; try apply Hr2. lia.
Qed.

Lemma received_pass now h driver :
  receiving driver -> pass_branch h = RxData ->
  received driver (rxfifo h) (dmx_intr_pass now h driver).
Proof.
  intros (Hbusy & Hwait & Hhead & Hlen) Hbranch.
  destruct (rx_data_pass_busy now h driver Hbranch Hbusy Hhead Hlen)
    as (H1 & H2 & H3 & H4 & H5 & H6 & H7).
  rewrite Hwait in H5, H6. cbn [andb negb] in H6. rewrite H6 in H7.
  unfold received, receiving. rewrite H1 in *.
  pose proof (length_firstn (Z.to_nat (513 - head driver)) (rxfifo h)).
  repeat split; try assumption; lia.
Qed.

Lemma rx_data_pass_branch h : rx_data_pass h = true -> pass_branch h = RxData.
Proof. unfold rx_data_pass. destruct (pass_branch h); congruence. Qed.

Lemma received_handler now hal driver :
  receiving driver -> forallb rx_data_pass hal = true ->
  received driver (rxfifo_bytes hal) (dmx_intr_handler now hal driver).
Proof.
  revert driver. induction hal as [|h hal IH]; intros driver Hr Hall.
  - apply receiving_received. exact Hr.
  - cbn [forallb] in Hall. apply andb_true_iff in Hall as [Hh Hall].
    apply rx_data_pass_branch in Hh.
    cbn [dmx_intr_handler]. rewrite pass_status_nonzero by congruence.
    pose proof (received_pass now h driver Hr Hh) as Hstep.
    unfold rxfifo_bytes. cbn [map concat].
    apply received_app with (driver1 := dmx_intr_pass now h driver);
      [apply Hr | exact Hstep |].
    apply IH; [apply Hstep | exact Hall].
Qed.

Lemma received_run intrs driver :
  receiving driver -> forallb rx_data_pass (intr_passes intrs) = true ->
  received driver (rxfifo_bytes (intr_passes intrs)) (dmx_intr_run intrs driver).
Proof.
  revert driver. induction intrs as [|[now hal] intrs IH]; intros driver Hr Hall.
  - apply receiving_received. exact Hr.
  - unfold intr_passes in *. cbn [map concat snd] in *.
    rewrite forallb_app in Hall. apply andb_true_iff in Hall as [Hh Hall].
    unfold rxfifo_bytes. rewrite map_app, concat_app.
    pose proof (received_handler now hal driver Hr Hh) as Hstep.
    apply received_app with (driver1 := dmx_intr_handler now hal driver);
      [apply Hr | exact Hstep |].
    apply (IH (dmx_intr_handler now hal driver)); [apply Hstep | exact Hall].
Qed.

Lemma dmx_intr_run_app intrs1 intrs2 driver :
  dmx_intr_run (intrs1 ++ intrs2) driver
  = dmx_intr_run intrs2 (dmx_intr_run intrs1 driver).
Proof. unfold dmx_intr_run. apply fold_left_app. Qed.

Lemma dmx_intr_run_single now h driver :
  pass_branch h <> Unhandled ->
  dmx_intr_run [(now, [h])] driver = dmx_intr_pass now h driver.
Proof.
  intros H. unfold dmx_intr_run. cbn [fold_left fst snd].
  apply dmx_intr_handler_single. exact H.
Qed.

(** X11: a frame measured between two breaks. For a driver with no waiting
    task, after a break, any data interrupts and a second break, [size] is
    the number of bytes that the receive FIFO delivered in between, at most
    513; these bytes are in the buffer in the order of their arrival; [head]
    is back at 0 and the driver is busy. The break branch tests [is_busy]
    only, so the second break passes DMX_OK to [xTaskNotifyFromISR] although
    the task handle is null. *)
Theorem break_to_break_measures_frame driver t0 brk frame t1 brk' :
  waiting_task driver = false ->
  length (data driver) = 513%nat ->
  pass_branch brk = RxBreak ->
  pass_branch brk' = RxBreak ->
  forallb rx_data_pass (intr_passes frame) = true ->
  let bytes := rxfifo_bytes (intr_passes frame) in
  let driver' := dmx_intr_run ((t0, [brk]) :: frame ++ [(t1, [brk'])]) driver in
  size driver' = Z.min 513 (Z.of_nat (length bytes))
  /\ firstn (Z.to_nat (size driver')) (data driver') = firstn 513 bytes
  /\ head driver' = 0
  /\ is_busy driver' = true
  /\ notification driver' = Some DMX_OK.
Proof.
  intros Hwait Hlen Hbrk Hbrk' Hframe bytes driver'. subst driver'.
  change ((t0, [brk]) :: frame ++ [(t1, [brk'])])
    with ([(t0, [brk])] ++ frame ++ [(t1, [brk'])]).
  rewrite !dmx_intr_run_app, !dmx_intr_run_single by congruence.
  set (d1 := dmx_intr_pass t0 brk driver).
  assert (receiving d1 /\ head d1 = 0) as [Hr1 Hh1].
  { subst d1. unfold dmx_intr_pass. unfold pass_branch in Hbrk. rewrite Hbrk.
    unfold receiving. cbn [is_busy waiting_task head data]. repeat split; try assumption; lia. }
  destruct (received_run frame d1 Hr1 Hframe) as (Hr2 & _ & _ & Hh2 & Hd2).
  fold bytes in Hh2, Hd2. rewrite Hh1 in Hh2, Hd2.
  change (firstn (Z.to_nat 0) (data d1)) with (@nil Z) in Hd2.
  change (Z.to_nat (513 - 0)) with 513%nat in Hh2, Hd2.
  set (d2 := dmx_intr_run frame d1) in *.
  destruct Hr2 as (Hbusy2 & _ & _ & _).
  unfold dmx_intr_pass. unfold pass_branch in Hbrk'. rewrite Hbrk', Hbusy2.
  cbn [size data head is_busy notification].
  split; [rewrite Hh2, length_firstn; lia|].
  split; [exact Hd2|]. repeat split; reflexivity.
Qed.

Lemma idle_pass now h driver :
  is_busy driver = false -> receive_pass_without_break h = true ->
  let driver' := dmx_intr_pass now h driver in
  is_busy driver' = false /\ head driver' = head driver
  /\ size driver' = size driver /\ data driver' = data driver
  /\ notification driver' = notification driver.
Proof.
  intros Hbusy Hpass. unfold receive_pass_without_break, pass_branch in Hpass.
  unfold dmx_intr_pass.
  destruct (dmx_intr_branch (interrupt_status h)); try discriminate Hpass;
    rewrite ?Hbusy; cbn [andb negb orb is_busy head size data notification];
    repeat split; try assumption; reflexivity.
Qed.

Lemma receive_pass_without_break_handled h :
  receive_pass_without_break h = true -> pass_branch h <> Unhandled.
Proof. unfold receive_pass_without_break. destruct (pass_branch h); congruence. Qed.

Lemma idle_handler now hal driver :
  is_busy driver = false -> forallb receive_pass_without_break hal = true ->
  let driver' := dmx_intr_handler now hal driver in
  is_busy driver' = false /\ head driver' = head driver
  /\ size driver' = size driver /\ data driver' = data driver
  /\ notification driver' = notification driver.
Proof.
  revert driver. induction hal as [|h hal IH]; intros driver Hbusy Hall;
    [cbn; repeat split; assumption|].
  cbn [forallb] in Hall. apply andb_true_iff in Hall as [Hh Hall].
  cbn [dmx_intr_handler].
  rewrite pass_status_nonzero by (apply receive_pass_without_break_handled; exact Hh).
  destruct (idle_pass now h driver Hbusy Hh) as (H1 & H2 & H3 & H4 & H5).
  destruct (IH _ H1 Hall) as (G1 & G2 & G3 & G4 & G5).
  cbv zeta. rewrite G2, G3, G4, G5. repeat split; assumption.
Qed.

Lemma idle_run intrs driver :
  is_busy driver = false ->
  forallb receive_pass_without_break (intr_passes intrs) = true ->
  let driver' := dmx_intr_run intrs driver in
  is_busy driver' = false /\ head driver' = head driver
  /\ size driver' = size driver /\ data driver' = data driver
  /\ notification driver' = notification driver.
Proof.
  revert driver. induction intrs as [|[now hal] intrs IH]; intros driver Hbusy Hall;
    [cbn; repeat split; assumption|].
  unfold intr_passes in Hall. cbn [map concat snd] in Hall.
  rewrite forallb_app in Hall. apply andb_true_iff in Hall as [Hh Hall].
  destruct (idle_handler now hal driver Hbusy Hh) as (H1 & H2 & H3 & H4 & H5).
  destruct (IH _ H1 Hall) as (G1 & G2 & G3 & G4 & G5).
  cbv zeta. unfold dmx_intr_run in *. cbn [fold_left fst snd].
  rewrite G2, G3, G4, G5. repeat split; assumption.
Qed.

(** X12: a driver that is not busy ignores the receive side until the next
    break: data, errors and bus clashes leave [head], [size], the buffer
    and the notification as they are, and the driver stays not busy. *)
Theorem idle_driver_ignores_data_until_break intrs driver :
  is_busy driver = false ->
  forallb receive_pass_without_break (intr_passes intrs) = true ->
  is_busy (dmx_intr_run intrs driver) = false
  /\ head (dmx_intr_run intrs driver) = head driver
  /\ size (dmx_intr_run intrs driver) = size driver
  /\ data (dmx_intr_run intrs driver) = data driver
  /\ notification (dmx_intr_run intrs driver) = notification driver.
Proof. intros Hbusy Hall. exact (idle_run intrs driver Hbusy Hall). Qed.

(** X13: an overflow or a framing error ends the reception of the frame.
    The waiting task, if the driver was busy and a task waits, is told
    DMX_ERR_DATA_OVERFLOW or DMX_ERR_IMPROPER_SLOT; the driver is not busy
    any more; and whatever data, errors and clashes follow before the next
    break, [head], [size] and the buffer stay as they were at the error and
    no further notification is posted. *)
Theorem error_discards_rest_of_frame now e intrs driver :
  pass_branch e = RxFifoOverflow \/ pass_branch e = RxFramingErr ->
  forallb receive_pass_without_break (intr_passes intrs) = true ->
  let driver' := dmx_intr_run ((now, [e]) :: intrs) driver in
  is_busy driver' = false
  /\ head driver' = head driver
  /\ size driver' = size driver
  /\ data driver' = data driver
  /\ notification driver'
     = if is_busy driver && waiting_task driver
       then Some (match pass_branch e with
                  | RxFifoOverflow => DMX_ERR_DATA_OVERFLOW
                  | _ => DMX_ERR_IMPROPER_SLOT
                  end)
       else notification driver.
Proof.
  intros He Hall driver'. subst driver'.
  change ((now, [e]) :: intrs) with ([(now, [e])] ++ intrs).
  rewrite dmx_intr_run_app.
  rewrite dmx_intr_run_single by (destruct He as [-> | ->]; discriminate).
  set (d1 := dmx_intr_pass now e driver).
  assert (is_busy d1 = false /\ head d1 = head driver /\ size d1 = size driver
          /\ data d1 = data driver
          /\ notification d1
             = if is_busy driver && waiting_task driver
               then Some (match pass_branch e with
                          | RxFifoOverflow => DMX_ERR_DATA_OVERFLOW
                          | _ => DMX_ERR_IMPROPER_SLOT
                          end)
               else notification driver) as (H1 & H2 & H3 & H4 & H5).
  { subst d1. unfold dmx_intr_pass. unfold pass_branch in *.
    destruct He as [-> | ->]; cbn [is_busy head size data notification];
      repeat split; reflexivity. }
  destruct (idle_run intrs d1 H1 Hall) as (G1 & G2 & G3 & G4 & G5).
  rewrite G2, G3, G4, G5. repeat split; assumption.
Qed.
End ReceivePath.

(** A task waits for a frame of 3 slots; two more bytes arrive. *)
Lemma rx_data_pass_stores_fifo_in_order_witness :
  let driver' :=
    dmx_intr_pass (U := esp32_uart_intr) 1200 (data_ready [8; 9]) reading_driver in
  pass_branch (U := esp32_uart_intr) (data_ready [8; 9]) = RxData
  /\ is_busy reading_driver = true
  /\ 0 <= head reading_driver <= 513
  /\ length (data reading_driver) = 513%nat
  /\ head driver' = 4
  /\ firstn 4 (data driver') = [0; 7; 8; 9]
  /\ is_busy driver' = false
  /\ notification driver' = Some NOTIFY_ZERO.
Proof.
  intros driver'.
  assert (pass_branch (U := esp32_uart_intr) (data_ready [8; 9]) = RxData) as H1
    by (vm_compute; reflexivity).
  assert (is_busy reading_driver = true) as H2 by reflexivity.
  assert (0 <= head reading_driver <= 513) as H3 by (vm_compute; split; discriminate).
  assert (length (data reading_driver) = 513%nat) as H4 by (vm_compute; reflexivity).
  pose proof (rx_data_pass_stores_fifo_in_order (U := esp32_uart_intr)
                1200 (data_ready [8; 9]) reading_driver H1 H2 H3 H4) as H.
  cbv zeta in H. fold driver' in H.
  destruct H as (G1 & G2 & _ & _ & G5 & G6 & _).
  assert (is_busy driver' = false) as Hb.
  { apply G5. vm_compute. repeat split; reflexivity. }
  repeat split;
    first [assumption | apply H3 | exact G1 | exact G2 | exact (G6 Hb)].
Defined.

(** The first of the two short frames, closed by the second break. *)
Lemma break_to_break_measures_frame_witness :
  let driver' :=
    dmx_intr_run (U := esp32_uart_intr)
      ((1000, [break_detected]) :: [(1200, [data_ready [0; 1; 2]])]
         ++ [(2000, [break_detected])]) idle_driver in
  waiting_task idle_driver = false
  /\ length (data idle_driver) = 513%nat
  /\ pass_branch (U := esp32_uart_intr) break_detected = RxBreak
  /\ forallb (rx_data_pass (U := esp32_uart_intr))
       (intr_passes [(1200, [data_ready [0; 1; 2]])]) = true
  /\ size driver' = 3
  /\ firstn 3 (data driver') = [0; 1; 2]
  /\ head driver' = 0.
Proof.
  intros driver'.
  assert (waiting_task idle_driver = false) as H1 by reflexivity.
  assert (length (data idle_driver) = 513%nat) as H2 by (vm_compute; reflexivity).
  assert (pass_branch (U := esp32_uart_intr) break_detected = RxBreak) as H3
    by (vm_compute; reflexivity).
  assert (forallb (rx_data_pass (U := esp32_uart_intr))
            (intr_passes [(1200, [data_ready [0; 1; 2]])]) = true) as H4
    by (vm_compute; reflexivity).
  pose proof (break_to_break_measures_frame (U := esp32_uart_intr) idle_driver
                1000 break_detected [(1200, [data_ready [0; 1; 2]])] 2000
                break_detected H1 H2 H3 H3 H4) as H.
  cbv zeta in H. fold driver' in H.
  destruct H as (G1 & G2 & G3 & _).
  rewrite G1 in G2.
  repeat split; first [assumption | exact G1 | exact G2].
Defined.

(** Data and an overflow before the first break. *)
Lemma idle_driver_ignores_data_until_break_witness :
  let intrs := [(1200, [data_ready [0; 1; 2]; fifo_overflow]); (1300, [data_ready [3]])] in
  is_busy idle_driver = false
  /\ forallb (receive_pass_without_break (U := esp32_uart_intr)) (intr_passes intrs)
     = true
  /\ head (dmx_intr_run (U := esp32_uart_intr) intrs idle_driver) = head idle_driver
  /\ data (dmx_intr_run (U := esp32_uart_intr) intrs idle_driver) = data idle_driver.
Proof.
  intros intrs.
  assert (is_busy idle_driver = false) as H1 by reflexivity.
  assert (forallb (receive_pass_without_break (U := esp32_uart_intr))
            (intr_passes intrs) = true) as H2 by (vm_compute; reflexivity).
  destruct (idle_driver_ignores_data_until_break (U := esp32_uart_intr) intrs
              idle_driver H1 H2) as (_ & G2 & _ & G4 & _).
  repeat split; assumption.
Defined.

(** An overflow two slots into the frame, then more data. *)
Lemma error_discards_rest_of_frame_witness :
  let driver' :=
    dmx_intr_run (U := esp32_uart_intr)
      ((1200, [fifo_overflow]) :: [(1300, [data_ready [8; 9]])]) reading_driver in
  (pass_branch (U := esp32_uart_intr) fifo_overflow = RxFifoOverflow
   \/ pass_branch (U := esp32_uart_intr) fifo_overflow = RxFramingErr)
  /\ forallb (receive_pass_without_break (U := esp32_uart_intr))
       (intr_passes [(1300, [data_ready [8; 9]])]) = true
  /\ is_busy driver' = false
  /\ head driver' = 2
  /\ notification driver' = Some DMX_ERR_DATA_OVERFLOW.
Proof.
  intros driver'.
  assert (pass_branch (U := esp32_uart_intr) fifo_overflow = RxFifoOverflow
          \/ pass_branch (U := esp32_uart_intr) fifo_overflow = RxFramingErr) as H1
    by (left; vm_compute; reflexivity).
  assert (forallb (receive_pass_without_break (U := esp32_uart_intr))
            (intr_passes [(1300, [data_ready [8; 9]])]) = true) as H2
    by (vm_compute; reflexivity).
  pose proof (error_discards_rest_of_frame (U := esp32_uart_intr) 1200 fifo_overflow
                [(1300, [data_ready [8; 9]])] reading_driver H1 H2) as H.
  cbv zeta in H. fold driver' in H.
  destruct H as (G1 & G2 & _ & _ & G5).
  repeat split; first [assumption | exact G2 | exact G5].
Defined.

(** ** The interrupt handlers: the transmit side *)

Section TransmitPath.
Context {U : UartIntr}.

Lemma write_txfifo_min h buf n :
  dmx_hal_write_txfifo h buf n
  = (Z.min n (txfifo_len h), firstn (Z.to_nat (Z.min n (txfifo_len h))) buf).
Proof.
  unfold dmx_hal_write_txfifo.
  destruct (n >? txfifo_len h) eqn:Hc;
    [apply Z.gtb_lt in Hc | rewrite Z.gtb_ltb, Z.ltb_ge in Hc];
    [rewrite Z.min_r by lia | rewrite Z.min_l by lia]; reflexivity.
Qed.

Lemma tx_data_pass_step now h driver :
  pass_branch h = TxData ->
  0 <= head driver <= size driver -> size driver <= 513 ->
  0 <= txfifo_len h ->
  let driver' := dmx_intr_pass now h driver in
  head driver' = Z.min (size driver) (head driver + txfifo_len h)
  /\ size driver' = size driver
  /\ data driver' = data driver
  /\ is_in_break driver' = is_in_break driver
  /\ dmx_intr_pass_written h driver
     = firstn (Z.to_nat (head driver' - head driver)) (data driver).
Proof.
  intros Hbranch Hhead Hsize Hfifo. unfold pass_branch in Hbranch.
  unfold dmx_intr_pass, dmx_intr_pass_written. rewrite Hbranch.
  cbn [head size data is_in_break].
  rewrite write_txfifo_min. cbn [fst snd]. unfold size_t.
  rewrite Z.mod_small by lia.
  repeat split; try lia. f_equal. lia.
Qed.

Lemma transmit_pass_step now h driver :
  transmit_pass h = true ->
  0 <= head driver <= size driver -> size driver <= 513 ->
  0 <= txfifo_len h ->
  let driver' := dmx_intr_pass now h driver in
  head driver <= head driver' <= size driver'
  /\ size driver' = size driver
  /\ data driver' = data driver.
Proof.
  intros Hpass Hhead Hsize Hfifo. unfold transmit_pass in Hpass.
  destruct (pass_branch h) eqn:Hbranch; try discriminate Hpass.
  - destruct (tx_data_pass_step now h driver Hbranch Hhead Hsize Hfifo)
      as (H1 & H2 & H3 & _).
    cbv zeta. rewrite H1, H2, H3. repeat split; lia.
  - unfold pass_branch in Hbranch. unfold dmx_intr_pass. rewrite Hbranch.
    cbn [head size data]. repeat split; lia.
Qed.

Lemma transmit_handler now hal driver :
  forallb transmit_pass hal = true ->
  Forall (fun h => 0 <= txfifo_len h) hal ->
  0 <= head driver <= size driver -> size driver <= 513 ->
  let driver' := dmx_intr_handler now hal driver in
  head driver <= head driver' <= size driver'
  /\ size driver' = size driver
  /\ data driver' = data driver.
Proof.
  revert driver. induction hal as [|h hal IH]; intros driver Hall Hfifo Hhead Hsize;
    [cbn; repeat split; lia|].
  cbn [forallb] in Hall. apply andb_true_iff in Hall as [Hh Hall].
  apply Forall_cons_iff in Hfifo as [Hf Hfifo].
  cbn [dmx_intr_handler]. destruct (interrupt_status h =? 0);
    [repeat split; lia|].
  destruct (transmit_pass_step now h driver Hh Hhead Hsize Hf) as (H1 & H2 & H3).
  cbv zeta in H1, H2, H3.
  assert (Hhead' : 0 <= head (dmx_intr_pass now h driver)
                   <= size (dmx_intr_pass now h driver)) by lia.
  assert (Hsize' : size (dmx_intr_pass now h driver) <= 513) by lia.
  destruct (IH (dmx_intr_pass now h driver) Hall Hfifo Hhead' Hsize')
    as (G1 & G2 & G3).
  cbv zeta in G1, G2, G3 |- *. rewrite G2, G3, H2, H3. repeat split; lia.
Qed.

(** X14: on the transmit side the cursor stays inside the frame. From a
    driver with [0 <= head <= size <= 513], whatever TX_DATA and TX_DONE
    interrupts are served and whatever room the transmit FIFO offers,
    [head] never moves back and never passes [size], and neither [size] nor
    the buffer is modified. *)
Theorem transmit_interrupts_keep_head_within_size intrs driver :
  forallb transmit_pass (intr_passes intrs) = true ->
  Forall (fun h => 0 <= txfifo_len h) (intr_passes intrs) ->
  0 <= head driver <= size driver ->
  size driver <= 513 ->
  head driver <= head (dmx_intr_run intrs driver) <= size driver
  /\ size (dmx_intr_run intrs driver) = size driver
  /\ data (dmx_intr_run intrs driver) = data driver.
Proof.
  revert driver.
  induction intrs as [|[now hal] intrs IH]; intros driver Hall Hfifo Hhead Hsize;
    [cbn; repeat split; lia|].
  unfold intr_passes in Hall, Hfifo. cbn [map concat snd] in Hall, Hfifo.
  rewrite forallb_app in Hall. apply andb_true_iff in Hall as [Hh Hall].
  apply Forall_app in Hfifo as [Hf Hfifo].
  destruct (transmit_handler now hal driver Hh Hf Hhead Hsize) as (H1 & H2 & H3).
  cbv zeta in H1, H2, H3.
  assert (Hhead' : 0 <= head (dmx_intr_handler now hal driver)
                   <= size (dmx_intr_handler now hal driver)) by lia.
  assert (Hsize' : size (dmx_intr_handler now hal driver) <= 513) by lia.
  destruct (IH (dmx_intr_handler now hal driver) Hall Hfifo Hhead' Hsize')
    as (G1 & G2 & G3).
  unfold dmx_intr_run in *. cbn [fold_left fst snd].
  rewrite G2, G3, H2, H3. repeat split; lia.
Qed.

Lemma tx_data_pass_branch h : tx_data_pass h = true -> pass_branch h = TxData.
Proof. unfold tx_data_pass. destruct (pass_branch h); congruence. Qed.

Lemma tx_data_handler now hal driver :
  forallb tx_data_pass hal = true ->
  Forall (fun h => 0 <= txfifo_len h) hal ->
  0 <= head driver <= size driver -> size driver <= 513 ->
  let driver' := dmx_intr_handler now hal driver in
  head driver' = Z.min (size driver) (head driver + txfifo_space hal)
  /\ size driver' = size driver
  /\ data driver' = data driver
  /\ is_in_break driver' = is_in_break driver
  /\ 0 <= txfifo_space hal
  /\ exists writes,
       Forall2 (fun k h => 0 <= k <= txfifo_len h) writes hal
       /\ fold_right Z.add 0 writes = head driver' - head driver
       /\ dmx_intr_handler_written now hal driver
          = concat (map (fun k => firstn (Z.to_nat k) (data driver)) writes).
Proof.
  revert driver. induction hal as [|h hal IH]; intros driver Hall Hfifo Hhead Hsize.
  - cbn [dmx_intr_handler dmx_intr_handler_written txfifo_space fold_right].
    split; [lia|]. split; [reflexivity|]. split; [reflexivity|].
    split; [reflexivity|]. split; [lia|].
    exists []. split; [apply Forall2_nil|]. split; [cbn; lia | reflexivity].
  - cbn [forallb] in Hall. apply andb_true_iff in Hall as [Hh Hall].
    apply Forall_cons_iff in Hfifo as [Hf Hfifo].
    apply tx_data_pass_branch in Hh.
    cbn [dmx_intr_handler dmx_intr_handler_written txfifo_space fold_right].
    rewrite pass_status_nonzero by congruence.
    destruct (tx_data_pass_step now h driver Hh Hhead Hsize Hf)
      as (H1 & H2 & H3 & H4 & H5).
    cbv zeta in H1, H2, H3, H4, H5.
    assert (Hhead' : 0 <= head (dmx_intr_pass now h driver)
                     <= size (dmx_intr_pass now h driver)) by lia.
    assert (Hsize' : size (dmx_intr_pass now h driver) <= 513) by lia.
    destruct (IH (dmx_intr_pass now h driver) Hall Hfifo Hhead' Hsize')
      as (G1 & G2 & G3 & G4 & G5 & writes & W1 & W2 & W3).
    fold (txfifo_space hal). cbv zeta in G1, G2, G3, G4, W2, W3 |- *.
    rewrite G1, G2, G3, G4, H2, H3, H4.
    repeat split; try lia.
    exists (head (dmx_intr_pass now h driver) - head driver :: writes).
    split; [constructor; [lia | exact W1]|].
    split; [cbn [fold_right]; lia|].
    cbn [map concat]. rewrite H5, W3, H3. reflexivity.
Qed.

(** X15: the transmission of a frame, from the break on. When the timer
    fires during the break, the handler ends the break and sets the alarm
    to the length of the mark after break, and writes nothing; when it
    fires again, it starts the data; and after that alarm and any TX_DATA
    passes, [head] has advanced by the room that the transmit FIFO offered
    and has stopped at [size]. Every write hands the start of the buffer to
    the FIFO: the bytes pushed are, write after write, the first bytes of
    the buffer, as many as [head] advances, and not the bytes at [head]. *)
Theorem transmit_writes_restart_at_buffer_start tx_mab_len h0 h1 now hal driver :
  is_in_break driver = true ->
  0 <= head driver <= size driver ->
  size driver <= 513 ->
  0 <= txfifo_len h1 ->
  Forall (fun h => 0 <= txfifo_len h) hal ->
  forallb tx_data_pass hal = true ->
  let alarm1 := dmx_timer_intr_handler tx_mab_len h0 driver in
  let alarm2 := dmx_timer_intr_handler tx_mab_len h1 (snd (fst alarm1)) in
  let driver2 := snd (fst alarm2) in
  let driver' := dmx_intr_handler now hal driver2 in
  snd alarm1 = EndBreak (tx_mab_len mod 2 ^ 32)
  /\ head (snd (fst alarm1)) = head driver
  /\ head driver2
     = head driver + Z.min (size driver - head driver) (txfifo_len h1)
  /\ snd alarm2
     = StartData (firstn (Z.to_nat (head driver2 - head driver)) (data driver))
  /\ head driver'
     = Z.min (size driver) (head driver + txfifo_len h1 + txfifo_space hal)
  /\ size driver' = size driver
  /\ data driver' = data driver
  /\ is_in_break driver' = false
  /\ exists writes,
       Forall2 (fun k h => 0 <= k <= txfifo_len h) writes hal
       /\ fold_right Z.add 0 writes = head driver' - head driver2
       /\ dmx_intr_handler_written now hal driver2
          = concat (map (fun k => firstn (Z.to_nat k) (data driver)) writes).
Proof.
  intros Hbreak Hhead Hsize Hf1 Hfifo Hall alarm1 alarm2 driver2 driver'.
  subst driver' driver2 alarm2 alarm1.
  unfold dmx_timer_intr_handler. rewrite Hbreak.
  cbn [fst snd is_in_break head size data].
  rewrite write_txfifo_min. cbn [fst snd]. unfold size_t.
  rewrite (Z.mod_small (size driver - head driver)) by lia.
  match goal with
  | |- context [dmx_intr_handler now hal ?d] =>
      destruct (tx_data_handler now hal d Hall Hfifo)
        as (G1 & G2 & G3 & G4 & G5 & writes & W1 & W2 & W3);
      [cbn [head size]; lia | cbn [size]; lia |]
  end.
  cbn [head size data is_in_break] in G1, G2, G3, G4, W2, W3.
  rewrite G1, G2, G3, G4.
  split; [reflexivity|]. split; [reflexivity|]. split; [reflexivity|].
  split; [do 2 f_equal; lia|].
  split; [lia|]. split; [reflexivity|]. split; [reflexivity|].
  split; [reflexivity|].
  exists writes. split; [exact W1|]. split; [rewrite W2, G1; reflexivity|].
  exact W3.
Qed.
End TransmitPath.

(** A frame of 200 slots, 128 bytes of room and then 100. *)
Lemma transmit_interrupts_keep_head_within_size_witness :
  let driver :=
    snd (fst (dmx_timer_intr_handler 12 (txfifo_ready 128) sending_driver)) in
  let intrs := [(10, [txfifo_ready 128]); (20, [txfifo_ready 100; txfifo_ready 128])] in
  forallb (transmit_pass (U := esp32_uart_intr)) (intr_passes intrs) = true
  /\ Forall (fun h => 0 <= txfifo_len h) (intr_passes intrs)
  /\ 0 <= head driver <= size driver
  /\ size driver <= 513
  /\ head (dmx_intr_run (U := esp32_uart_intr) intrs driver) <= size driver
  /\ data (dmx_intr_run (U := esp32_uart_intr) intrs driver) = data driver.
Proof.
  intros driver intrs.
  assert (forallb (transmit_pass (U := esp32_uart_intr)) (intr_passes intrs) = true)
    as H1 by (vm_compute; reflexivity).
  assert (Forall (fun h => 0 <= txfifo_len h) (intr_passes intrs)) as H2
    by (repeat apply Forall_cons; try apply Forall_nil; vm_compute; discriminate).
  assert (0 <= head driver <= size driver) as H3 by (vm_compute; split; discriminate).
  assert (size driver <= 513) as H4 by (vm_compute; discriminate).
  destruct (transmit_interrupts_keep_head_within_size (U := esp32_uart_intr) intrs
              driver H1 H2 H3 H4) as (G1 & _ & G3).
  repeat split; first [assumption | apply G1 | apply H3].
Defined.

(** A frame of 200 slots that hold 0, 1, 2, ...: 128 bytes go out at the
    alarm, and the next TX_DATA interrupt pushes the slots 0 to 71 again
    instead of the slots 128 to 199. *)
Lemma transmit_writes_restart_at_buffer_start_witness :
  let alarm1 := dmx_timer_intr_handler 12 (txfifo_ready 128) sending_driver in
  let alarm2 := dmx_timer_intr_handler 12 (txfifo_ready 128) (snd (fst alarm1)) in
  let written :=
    dmx_intr_handler_written (U := esp32_uart_intr) 10 [txfifo_ready 100]
      (snd (fst alarm2)) in
  let driver' :=
    dmx_intr_handler (U := esp32_uart_intr) 10 [txfifo_ready 100] (snd (fst alarm2)) in
  is_in_break sending_driver = true
  /\ 0 <= head sending_driver <= size sending_driver
  /\ size sending_driver <= 513
  /\ 0 <= txfifo_len (txfifo_ready 128)
  /\ Forall (fun h => 0 <= txfifo_len h) [txfifo_ready 100]
  /\ forallb (tx_data_pass (U := esp32_uart_intr)) [txfifo_ready 100] = true
  /\ snd alarm1 = EndBreak 12
  /\ snd alarm2 = StartData (firstn 128 (data sending_driver))
  /\ head (snd (fst alarm2)) = 128
  /\ head driver' = 200
  /\ written = firstn 72 (data sending_driver)
  /\ written <> firstn 72 (skipn 128 (data sending_driver)).
Proof.
  intros alarm1 alarm2 written driver'.
  assert (is_in_break sending_driver = true) as H1 by reflexivity.
  assert (0 <= head sending_driver <= size sending_driver) as H2
    by (vm_compute; split; discriminate).
  assert (size sending_driver <= 513) as H3 by (vm_compute; discriminate).
  assert (0 <= txfifo_len (txfifo_ready 128)) as H4 by (vm_compute; discriminate).
  assert (Forall (fun h => 0 <= txfifo_len h) [txfifo_ready 100]) as H5
    by (repeat apply Forall_cons; try apply Forall_nil; vm_compute; discriminate).
  assert (forallb (tx_data_pass (U := esp32_uart_intr)) [txfifo_ready 100] = true)
    as H6 by (vm_compute; reflexivity).
  pose proof (transmit_writes_restart_at_buffer_start (U := esp32_uart_intr) 12
                (txfifo_ready 128) (txfifo_ready 128) 10 [txfifo_ready 100]
                sending_driver H1 H2 H3 H4 H5 H6) as H.
  cbv zeta in H. fold alarm1 in H. fold alarm2 in H.
  fold driver' in H. fold written in H.
  destruct H as (G1 & _ & G3 & G4 & G5 & _).
  split; [exact H1|]. split; [exact H2|]. split; [exact H3|]. split; [exact H4|].
  split; [exact H5|]. split; [exact H6|]. split; [exact G1|].
  split; [rewrite G4, G3; reflexivity|]. split; [exact G3|]. split; [exact G5|].
  split; [vm_compute; reflexivity|].
  intros Heq. vm_compute in Heq. discriminate Heq.
Defined.

(** ** The mute command read back by the parser *)

Section MuteReadBack.
Context {K : RdmConstants} {M : RdmMuteConstants}.

(** X16: [rdm_parse] on the command that [rdm_write_discovery_mute] has
    written. Told a size of at most 24, the parser fills the event with what
    the writer put into the header: the destination and the own UID (in
    their low 48 bits), the port, the discovery command class, the PID of
    DISC_MUTE or DISC_UN_MUTE, PDL 0, and it finds the checksum valid; it
    returns false all the same. Told the size 26 that the writer hands to
    [dmx_write], it returns false and leaves the event as it was. *)
Theorem rdm_parse_reads_back_mute_command rdm_uid efuse_uid stale dmx_num uid
    (mute : bool) stale_d stale_s size event :
  RDM_BASE_PACKET_SIZE = 26 ->
  length stale = 26%nat ->
  size <= 24 ->
  let own_uid := fst (rdm_get_uid rdm_uid efuse_uid) in
  let command :=
    fst (fst (rdm_write_discovery_mute rdm_uid efuse_uid stale dmx_num uid mute)) in
  let parsed := rdm_parse stale_d stale_s command size event in
  fst parsed = false
  /\ destination_uid (snd parsed) mod 2 ^ 48 = uid mod 2 ^ 48
  /\ source_uid (snd parsed) mod 2 ^ 48 = own_uid mod 2 ^ 48
  /\ tn (snd parsed) = 0
  /\ port_id (snd parsed) = u8 (dmx_num + 1)
  /\ message_count (snd parsed) = 0
  /\ sub_device (snd parsed) = 0
  /\ cc (snd parsed) = u8 RDM_DISCOVERY_COMMAND
  /\ pid (snd parsed)
     = u16 (if mute then RDM_PID_DISC_MUTE else RDM_PID_DISC_UN_MUTE)
  /\ pdl (snd parsed) = 0
  /\ checksum_is_valid (snd parsed) = true
  /\ rdm_parse stale_d stale_s command 26 event = (false, event).
Proof.
  intros Hsize Hstale Hle own_uid command parsed.
  destruct (discovery_mute_command_bytes rdm_uid efuse_uid stale dmx_num uid mute
              Hsize Hstale) as (Hcmd & _ & Hsum).
  fold own_uid command in Hcmd, Hsum.
  pose proof (uid_to_buf_be48 uid) as [Hub Hu].
  pose proof (uid_to_buf_be48 own_uid) as [Hob Ho].
  destruct (uid_to_buf_six uid) as (a0 & a1 & a2 & a3 & a4 & a5 & Ha).
  destruct (uid_to_buf_six own_uid) as (o0 & o1 & o2 & o3 & o4 & o5 & Hb).
  rewrite Ha in Hcmd, Hub, Hu. rewrite Hb in Hcmd, Hob, Ho.
  set (p := if mute then RDM_PID_DISC_MUTE else RDM_PID_DISC_UN_MUTE) in *.
  pose proof (le_bytes_range 2 p) as Hpr.
  pose proof (le_word_le_bytes 2 p) as Hpw.
  pose proof (le_bytes_length 2 p) as Hpl.
  destruct (le_bytes 2 p) as [|p0 [|p1 [|p2 l]]]; try discriminate Hpl.
  clear Hpl.
  match type of Hcmd with
  | _ = _ ++ rev (le_bytes 2 ?x) =>
      pose proof (le_bytes_range 2 x) as Hkr;
      pose proof (le_bytes_length 2 x) as Hkl;
      destruct (le_bytes 2 x) as [|k0 [|k1 [|k2 l]]]; try discriminate Hkl
  end.
  clear Hkl. cbn [rev app] in Hcmd.
  pose proof (u8_range (dmx_num + 1)) as Hport.
  pose proof (u8_range RDM_DISCOVERY_COMMAND) as Hcc.
  set (port := u8 (dmx_num + 1)) in *. clearbody port.
  set (dcc := u8 RDM_DISCOVERY_COMMAND) in *. clearbody dcc.
  byte_bounds.
  assert (Forall (fun b => 0 <= b < 256) command) as Hbytes.
  { rewrite Hcmd. unfold RDM_SC, RDM_SUB_SC.
    repeat apply Forall_cons; try apply Forall_nil; lia. }
  assert (rdm_data_t.sc command = RDM_SC) as Hsc by (rewrite Hcmd; reflexivity).
  assert (rdm_data_t.sub_sc command = RDM_SUB_SC) as Hsub
    by (rewrite Hcmd; reflexivity).
  assert (rdm_data_t.message_len command = 24) as Hlen
    by (rewrite Hcmd; reflexivity).
  split; [apply rdm_parse_standard_false; exact Hsc|].
  destruct (rdm_parse_standard_event stale_d stale_s command size event Hbytes
              Hsc Hsub ltac:(lia))
    as (E1 & E2 & E3 & E4 & E5 & E6 & E7 & E8 & E9 & E10).
  fold parsed in E1, E2, E3, E4, E5, E6, E7, E8, E9, E10.
  rewrite E1, E2, E3, E4, E5, E6, E7, E8, E9, E10. clear E1 E2 E3 E4 E5 E6 E7 E8 E9 E10.
  rewrite Hlen. change (Z.to_nat 24) with 24%nat.
  rewrite (sum_loop_checksum command 24 ltac:(lia)
             : sum_loop 24 command 24 0 0 = _) in Hsum.
  change (Z.to_nat 24) with 24%nat in Hsum.
  rewrite bswap16_be in Hsum by (apply byte_at_range; exact Hbytes).
  rewrite Hsum, Z.eqb_refl. clear Hsum.
  rewrite <- Hu, <- Ho. rewrite Hcmd.
  unfold be48, u16.
  change (256 ^ Z.of_nat 2) with (2 ^ 16) in Hpw. rewrite <- Hpw.
  cbn -[Z.mul Z.add].
  repeat (split; [first [reflexivity | lia]|]).
  reflexivity.
Qed.
End MuteReadBack.

(** The command that mutes the device 1234:56789abc, written by the device
    7a70:00000001 on port 0. *)
Lemma rdm_parse_reads_back_mute_command_witness :
  let command :=
    fst (fst (rdm_write_discovery_mute (M := e120_mute_constants) 0x7a7000000001 0
                (repeat 0xee 26) 0 0x123456789abc true)) in
  let parsed := rdm_parse (K := e120_constants) 0 0 command 24 event0 in
  RDM_BASE_PACKET_SIZE (RdmMuteConstants := e120_mute_constants) = 26
  /\ length (repeat 0xee 26) = 26%nat
  /\ 24 <= 24
  /\ fst parsed = false
  /\ destination_uid (snd parsed) mod 2 ^ 48 = 0x123456789abc
  /\ pid (snd parsed) = 0x0002
  /\ checksum_is_valid (snd parsed) = true
  /\ rdm_parse (K := e120_constants) 0 0 command 26 event0 = (false, event0).
Proof.
  intros command parsed.
  assert (RDM_BASE_PACKET_SIZE (RdmMuteConstants := e120_mute_constants) = 26) as H1
    by reflexivity.
  assert (length (repeat 0xee 26) = 26%nat) as H2 by reflexivity.
  assert (24 <= 24) as H3 by lia.
  pose proof (rdm_parse_reads_back_mute_command (K := e120_constants)
                (M := e120_mute_constants) 0x7a7000000001 0 (repeat 0xee 26) 0
                0x123456789abc true 0 0 24 event0 H1 H2 H3) as H.
  cbv zeta in H. fold command in H. fold parsed in H.
  destruct H as (G1 & G2 & _ & _ & _ & _ & _ & _ & G9 & _ & G11 & G12).
  repeat split; first [assumption | exact G2 | exact G9 | exact G12 | lia].
Defined.

(** ** dmx_caps.h: the remaining macros *)

Lemma lor_shifted a b n :
  0 <= n -> 0 <= a < 2 ^ n -> Z.lor a (b * 2 ^ n) = a + b * 2 ^ n.
Proof.
  intros Hn Ha.
  assert (Z.land a (b * 2 ^ n) = 0) as Hland.
  { apply Z.bits_inj'. intros k Hk. rewrite Z.land_spec, Z.bits_0.
    destruct (Z.lt_ge_cases k n) as [Hlt | Hge].
    - rewrite Z.mul_pow2_bits_low by lia. apply andb_false_r.
    - rewrite <- (Z.mod_small a (2 ^ n)) by lia.
      rewrite Z.mod_pow2_bits_high by lia. reflexivity. }
  rewrite <- Z.lxor_lor by exact Hland.
  symmetry. apply Z.add_nocarry_lxor. exact Hland.
Qed.

(** X17: [RDM_UID_BUFFER_TO_UINT64] on a buffer of bytes. While the third
    byte is below 0x80 the macro gives the big-endian reading of the first
    six bytes; from 0x80 on, [buf[2] << 24] does not fit an [int] and the
    expression has no defined value. *)
Theorem uid_buffer_macro_defined_below_0x80 buf :
  Forall (fun b => 0 <= b < 256) buf ->
  RDM_UID_BUFFER_TO_UINT64 buf
  = if byte_at buf 2 <? 0x80 then Some (be48 buf) else None.
Proof.
  intros H. unfold RDM_UID_BUFFER_TO_UINT64, int_shl, be48.
  pose proof (byte_at_range buf 0 H) as H0. pose proof (byte_at_range buf 1 H) as H1.
  pose proof (byte_at_range buf 2 H) as H2. pose proof (byte_at_range buf 3 H) as H3.
  pose proof (byte_at_range buf 4 H) as H4. pose proof (byte_at_range buf 5 H) as H5.
  generalize dependent (byte_at buf 0). generalize dependent (byte_at buf 1).
  generalize dependent (byte_at buf 2). generalize dependent (byte_at buf 3).
  generalize dependent (byte_at buf 4). generalize dependent (byte_at buf 5).
  clear H. intros b5 H5 b4 H4 b3 H3 b2 H2 b1 H1 b0 H0.
  assert ((b4 * 2 ^ 8 <? 2 ^ 31) = true) as -> by (apply Z.ltb_lt; lia).
  assert ((b3 * 2 ^ 16 <? 2 ^ 31) = true) as -> by (apply Z.ltb_lt; lia).
  destruct (b2 <? 0x80) eqn:Hb2.
  - apply Z.ltb_lt in Hb2.
    assert ((b2 * 2 ^ 24 <? 2 ^ 31) = true) as -> by (apply Z.ltb_lt; lia).
    cbv zeta. rewrite !Z.shiftl_mul_pow2 by lia.
    rewrite (lor_shifted b5 b4 8) by lia.
    rewrite (lor_shifted _ b3 16) by lia.
    rewrite (lor_shifted _ b2 24) by lia.
    rewrite (Z.mod_small (b1 * 2 ^ 32)) by lia.
    rewrite (Z.mod_small (b0 * 2 ^ 40)) by lia.
    rewrite (Z.mod_small (b5 + _ + _ + _)) by lia.
    rewrite (lor_shifted _ b1 32) by lia.
    rewrite (lor_shifted _ b0 40) by lia.
    rewrite Z.mod_small by lia.
    f_equal. cbn -[Z.mul Z.add Z.pow]. lia.
  - apply Z.ltb_ge in Hb2.
    assert ((b2 * 2 ^ 24 <? 2 ^ 31) = false) as -> by (apply Z.ltb_ge; lia).
    reflexivity.
Qed.

(** The UIDs 1234:56789abc and 1234:96789abc. *)
Lemma uid_buffer_macro_defined_below_0x80_witness :
  Forall (fun b => 0 <= b < 256) [0x12; 0x34; 0x56; 0x78; 0x9a; 0xbc]
  /\ Forall (fun b => 0 <= b < 256) [0x12; 0x34; 0x96; 0x78; 0x9a; 0xbc]
  /\ RDM_UID_BUFFER_TO_UINT64 [0x12; 0x34; 0x56; 0x78; 0x9a; 0xbc]
     = Some 0x123456789abc
  /\ RDM_UID_BUFFER_TO_UINT64 [0x12; 0x34; 0x96; 0x78; 0x9a; 0xbc] = None.
Proof.
  assert (Forall (fun b => 0 <= b < 256) [0x12; 0x34; 0x56; 0x78; 0x9a; 0xbc]) as H1
    by (repeat apply Forall_cons; try apply Forall_nil; lia).
  assert (Forall (fun b => 0 <= b < 256) [0x12; 0x34; 0x96; 0x78; 0x9a; 0xbc]) as H2
    by (repeat apply Forall_cons; try apply Forall_nil; lia).
  split; [exact H1|]. split; [exact H2|]. split.
  - exact (uid_buffer_macro_defined_below_0x80 _ H1).
  - exact (uid_buffer_macro_defined_below_0x80 _ H2).
Defined.

(** X18: [DMX_BAUD_RATE_IS_VALID] accepts the baud rates within two percent
    of [DMX_BAUD_RATE], and no others. *)
Theorem baud_rate_valid_within_two_percent baud :
  DMX_BAUD_RATE_IS_VALID baud = true
  <-> 100 * Z.abs (baud - DMX_BAUD_RATE) <= 2 * DMX_BAUD_RATE.
Proof.
  unfold DMX_BAUD_RATE_IS_VALID, DMX_MIN_BAUD_RATE, DMX_MAX_BAUD_RATE, DMX_BAUD_RATE.
  rewrite andb_true_iff, Z.geb_leb, !Z.leb_le. lia.
Qed.

(** ** product_info: the device information and the software version label *)

Lemma strnlen_nul s n :
  strnlen s n < Z.of_nat n -> nth (Z.to_nat (strnlen s n)) s 0 = 0.
Proof.
  revert s. induction n as [|n IH]; intros s H; [destruct s; cbn in H; lia|].
  destruct s as [|c s]; [reflexivity|].
  cbn [strnlen] in H |- *. destruct (c =? 0) eqn:Hc.
  - apply Z.eqb_eq in Hc. exact Hc.
  - assert (0 <= strnlen s n) as Hpos.
    { clear. revert s. induction n as [|n IH]; intros s; [destruct s; cbn; lia|].
      destruct s as [|c s]; cbn [strnlen]; [lia|].
      destruct (c =? 0); [lia|]. specialize (IH s). lia. }
    replace (Z.to_nat (1 + strnlen s n)) with (S (Z.to_nat (strnlen s n))) by lia.
    cbn [nth]. apply IH. lia.
Qed.

Lemma strnlen_bounds s n : 0 <= strnlen s n <= Z.of_nat n.
Proof.
  revert s. induction n as [|n IH]; intros s; [destruct s; cbn; lia|].
  destruct s as [|c s]; cbn [strnlen]; [lia|].
  destruct (c =? 0); [lia|]. specialize (IH s). lia.
Qed.

Lemma strnlen_nonzero s n :
  Forall (fun c => c <> 0) (firstn (Z.to_nat (strnlen s n)) s).
Proof.
  revert s. induction n as [|n IH]; intros s; [destruct s; cbn; constructor|].
  destruct s as [|c s]; cbn [strnlen]; [constructor|].
  destruct (c =? 0) eqn:Hc; [constructor|].
  pose proof (strnlen_bounds s n).
  replace (Z.to_nat (1 + strnlen s n)) with (S (Z.to_nat (strnlen s n))) by lia.
  cbn [firstn]. constructor; [apply Z.eqb_neq; exact Hc | apply IH].
Qed.

Section DeviceInfo.
Context {D : DmxDriver} {P : ProductInfoDriver}.

Lemma get_device_info_installed st dmx_num stale :
  dmx_num < DMX_NUM_MAX ->
  dmx_driver_is_installed st dmx_num = true ->
  exists info,
    (forall other,
       rdm_get_device_info st dmx_num (Some other)
       = (sizeof_rdm_device_info_t, Some info))
    /\ rdm_get_device_info st dmx_num (Some stale)
       = (sizeof_rdm_device_info_t, Some info)
    /\ (dmx_parameter_get st dmx_num RDM_SUB_DEVICE_ROOT RDM_PID_DEVICE_INFO = None ->
        model_id info = 0xffff /\ product_category info = 0xffff
        /\ software_version_id info = 0xffffffff)
    /\ (rdm_get_dmx_personality st dmx_num = None ->
        personality_current info = 0 /\ personality_count info = 0)
    /\ (personality_current info <= 0 -> footprint info = 0).
Proof.
  intros Hnum Hinst. apply Z.ltb_lt in Hnum.
  unfold rdm_get_device_info. rewrite Hnum, Hinst. cbn [negb].
  destruct (dmx_parameter_get st dmx_num RDM_SUB_DEVICE_ROOT RDM_PID_DEVICE_INFO)
    as [p|];
    destruct (rdm_get_dmx_personality st dmx_num) as [[current count]|];
    cbn [personality_current set_personality_current set_personality_count];
    try change (0 >? 0) with false;
    try destruct (current >? 0) eqn:Hcur;
    eexists; (split; [|split; [reflexivity|]]);
    try (intros other; reflexivity);
    cbn; repeat split; intros; try discriminate; try reflexivity;
    try (rewrite Z.gtb_ltb in Hcur;
         first [apply Z.ltb_lt in Hcur | apply Z.ltb_ge in Hcur]; lia).
Qed.

(** X19: [rdm_get_device_info] on a valid port with an installed driver
    returns the size of the structure and assigns every field: the result
    does not depend on what the structure held before. Without registered
    product information, the model, the category and the software version
    are all ones; when the personality cannot be read, the current
    personality and the count are 0; and the footprint is 0 whenever the
    current personality is 0. On an invalid port, a null pointer or a port
    without driver, it returns 0 and leaves the structure alone. *)
Theorem get_device_info_assigns_every_field st dmx_num stale other :
  dmx_num < DMX_NUM_MAX ->
  dmx_driver_is_installed st dmx_num = true ->
  fst (rdm_get_device_info st dmx_num (Some stale)) = sizeof_rdm_device_info_t
  /\ rdm_get_device_info st dmx_num (Some stale)
     = rdm_get_device_info st dmx_num (Some other)
  /\ (exists info,
        snd (rdm_get_device_info st dmx_num (Some stale)) = Some info
        /\ (dmx_parameter_get st dmx_num RDM_SUB_DEVICE_ROOT RDM_PID_DEVICE_INFO
            = None ->
            model_id info = 0xffff /\ product_category info = 0xffff
            /\ software_version_id info = 0xffffffff)
        /\ (rdm_get_dmx_personality st dmx_num = None ->
            personality_current info = 0 /\ personality_count info = 0)
        /\ (personality_current info <= 0 -> footprint info = 0))
  /\ (forall st' port,
        DMX_NUM_MAX <= port \/ dmx_driver_is_installed st' port = false ->
        rdm_get_device_info st' port (Some stale) = (0, Some stale))
  /\ rdm_get_device_info st dmx_num None = (0, None).
Proof.
  intros Hnum Hinst.
  destruct (get_device_info_installed st dmx_num stale Hnum Hinst)
    as (info & Hall & Hres & H1 & H2 & H3).
  rewrite Hres, (Hall other). cbn [fst snd].
  split; [reflexivity|]. split; [reflexivity|].
  split; [exists info; repeat split; try apply H1; try apply H2; assumption|].
  split.
  - intros st' port [Hport | Hno]; unfold rdm_get_device_info.
    + apply Z.ltb_ge in Hport. rewrite Hport. reflexivity.
    + rewrite Hno. destruct (port <? DMX_NUM_MAX); reflexivity.
  - unfold rdm_get_device_info. destruct (dmx_num <? DMX_NUM_MAX); reflexivity.
Qed.

(** X20: the GET DEVICE_INFO handler. When [rdm_device_info_t] is not
    empty, it answers NACK with the reason HARDWARE_FAULT exactly when the
    port is invalid or has no driver; otherwise it acknowledges with the
    response format of the definition and the full size, and the device
    information sent is the one [rdm_get_device_info] computes from the
    driver, with nothing of the uninitialised local left in it. *)
Theorem device_info_handler_nacks_without_driver st dmx_num def stale :
  sizeof_rdm_device_info_t <> 0 ->
  (rdm_rhd_get_device_info st dmx_num def stale = NackReason RDM_NR_HARDWARE_FAULT
   <-> DMX_NUM_MAX <= dmx_num \/ dmx_driver_is_installed st dmx_num = false)
  /\ (dmx_num < DMX_NUM_MAX -> dmx_driver_is_installed st dmx_num = true ->
      exists info,
        (forall other,
           rdm_rhd_get_device_info st dmx_num def other
           = Ack (get_response_format def) info sizeof_rdm_device_info_t)
        /\ forall other,
             snd (rdm_get_device_info st dmx_num (Some other)) = Some info).
Proof.
  intros Hsize.
  assert (dmx_num < DMX_NUM_MAX -> dmx_driver_is_installed st dmx_num = true ->
          exists info,
            (forall other,
               rdm_rhd_get_device_info st dmx_num def other
               = Ack (get_response_format def) info sizeof_rdm_device_info_t)
            /\ forall other,
                 snd (rdm_get_device_info st dmx_num (Some other)) = Some info)
    as Hack.
  { intros Hnum Hinst.
    destruct (get_device_info_installed st dmx_num stale Hnum Hinst)
      as (info & Hall & _).
    exists info. split; intros other.
    - unfold rdm_rhd_get_device_info. rewrite (Hall other).
      rewrite Z.eqb_refl. reflexivity.
    - rewrite (Hall other). reflexivity. }
  split; [|exact Hack]. split.
  - intros Hnack.
    destruct (Z.lt_ge_cases dmx_num DMX_NUM_MAX) as [Hnum | Hnum]; [|left; exact Hnum].
    destruct (dmx_driver_is_installed st dmx_num) eqn:Hinst; [|right; reflexivity].
    destruct (Hack Hnum eq_refl) as (info & Hall & _).
    rewrite (Hall stale) in Hnack. discriminate Hnack.
  - intros Hfail.
    assert (rdm_get_device_info st dmx_num (Some stale) = (0, Some stale)) as Hres.
    { unfold rdm_get_device_info. destruct Hfail as [Hport | Hno].
      - apply Z.ltb_ge in Hport. rewrite Hport. reflexivity.
      - rewrite Hno. destruct (dmx_num <? DMX_NUM_MAX); reflexivity. }
    unfold rdm_rhd_get_device_info. rewrite Hres.
    apply Z.eqb_neq in Hsize. rewrite Z.eqb_sym, Hsize. reflexivity.
Qed.

(** X21: [rdm_register_software_version_label] checks the label only while
    the parameter has no value. Then a null label, or one with no NUL among
    its first 32 bytes, makes it return false and leaves the driver as it
    was, and a label with a NUL at one of the positions 0 to 31 is accepted.
    Once the parameter has a value the label is not checked, and a null
    label reaches [strnlen], whose behaviour is then undefined. A label that
    gets through is handed to [dmx_driver_add_parameter] as a static
    parameter whose size is [strnlen] of the label: the position of its
    first NUL, the terminator not counted, and 32 if there is none among the
    first 32 bytes. If that fails the function returns false; otherwise the
    definition is set, the callback is set, and the result is that of
    [rdm_callback_set]. *)
Theorem register_software_version_label_checks_new_labels_only
    st dmx_num label cb :
  let value :=
    dmx_parameter_get st dmx_num RDM_SUB_DEVICE_ROOT
      RDM_PID_SOFTWARE_VERSION_LABEL in
  let size := strnlen label 32 in
  let added :=
    dmx_driver_add_parameter st dmx_num RDM_SUB_DEVICE_ROOT
      RDM_PID_SOFTWARE_VERSION_LABEL DMX_PARAMETER_TYPE_STATIC label size in
  let defined :=
    rdm_definition_set (snd added) dmx_num RDM_SUB_DEVICE_ROOT
      RDM_PID_SOFTWARE_VERSION_LABEL software_version_label_definition in
  let called :=
    rdm_callback_set defined dmx_num RDM_SUB_DEVICE_ROOT
      RDM_PID_SOFTWARE_VERSION_LABEL cb in
  let proceeds :=
    rdm_register_software_version_label st dmx_num (Some label) cb
    = if fst added then Returns (fst called) (snd called)
      else Returns false (snd added) in
  (value = None ->
   rdm_register_software_version_label st dmx_num None cb = Returns false st)
  /\ (value = None ->
      (32 <= length label)%nat -> Forall (fun c => c <> 0) (firstn 32 label) ->
      rdm_register_software_version_label st dmx_num (Some label) cb
      = Returns false st)
  /\ (value = None ->
      dmx_num < DMX_NUM_MAX -> dmx_driver_is_installed st dmx_num = true ->
      (exists k, (k <= 31)%nat /\ nth k label 0 = 0) ->
      proceeds /\ 0 <= size < 32 /\ nth (Z.to_nat size) label 0 = 0
      /\ Forall (fun c => c <> 0) (firstn (Z.to_nat size) label))
  /\ (value <> None ->
      dmx_num < DMX_NUM_MAX -> dmx_driver_is_installed st dmx_num = true ->
      rdm_register_software_version_label st dmx_num None cb = Undefined
      /\ proceeds /\ 0 <= size <= 32)
  /\ (DMX_NUM_MAX <= dmx_num \/ dmx_driver_is_installed st dmx_num = false ->
      rdm_register_software_version_label st dmx_num (Some label) cb
      = Returns false st).
Proof.
  intros value size added defined called proceeds.
  assert (dmx_num < DMX_NUM_MAX -> dmx_driver_is_installed st dmx_num = true ->
          (value = None -> strnlen label 32 < 32) -> proceeds) as Hproceeds.
  { subst proceeds called defined added size value.
    intros Hnum Hinst Hcheck.
    unfold rdm_register_software_version_label,
      register_software_version_label_parameter, RDM_ASCII_SIZE_MAX.
    change (Z.to_nat 32) with 32%nat.
    apply Z.ltb_lt in Hnum. rewrite Hnum, Hinst. cbn [negb].
    assert ((match dmx_parameter_get st dmx_num RDM_SUB_DEVICE_ROOT
                     RDM_PID_SOFTWARE_VERSION_LABEL with
             | None => strnlen label 32 <? 32
             | Some _ => true
             end) = true) as ->.
    { destruct (dmx_parameter_get st dmx_num RDM_SUB_DEVICE_ROOT
                  RDM_PID_SOFTWARE_VERSION_LABEL); [reflexivity|].
      apply Z.ltb_lt. apply Hcheck. reflexivity. }
    cbn [negb].
    destruct (dmx_driver_add_parameter st dmx_num RDM_SUB_DEVICE_ROOT
                RDM_PID_SOFTWARE_VERSION_LABEL DMX_PARAMETER_TYPE_STATIC label
                (strnlen label 32)) as [[|] st1]; cbn [negb fst snd];
      [|reflexivity].
    destruct (rdm_callback_set _ dmx_num RDM_SUB_DEVICE_ROOT
                RDM_PID_SOFTWARE_VERSION_LABEL cb); reflexivity. }
  assert (0 <= size <= 32) as Hsize.
  { subst size. pose proof (strnlen_bounds label 32). lia. }
  clearbody proceeds. subst value size.
  unfold rdm_register_software_version_label, RDM_ASCII_SIZE_MAX.
  change (Z.to_nat 32) with 32%nat.
  split; [|split; [|split; [|split]]].
  - intros ->. cbn [negb].
    destruct (negb (dmx_num <? DMX_NUM_MAX)); [reflexivity|].
    destruct (negb (dmx_driver_is_installed st dmx_num)); reflexivity.
  - intros -> Hlen Hnz. rewrite (strnlen_full label 32 Hlen Hnz).
    change (Z.of_nat 32 <? 32) with false. cbn [negb].
    destruct (negb (dmx_num <? DMX_NUM_MAX)); [reflexivity|].
    destruct (negb (dmx_driver_is_installed st dmx_num)); reflexivity.
  - intros Hval Hnum Hinst (k & Hk & Hnul).
    pose proof (strnlen_terminated label 32 k ltac:(lia) Hnul) as Hlt.
    change (Z.of_nat 32) with 32 in Hlt.
    split; [apply Hproceeds; [exact Hnum | exact Hinst | intros _; exact Hlt]|].
    split; [lia|]. split; [apply strnlen_nul; exact Hlt|].
    apply strnlen_nonzero.
  - intros Hval Hnum Hinst.
    split; [|split; [apply Hproceeds; [exact Hnum | exact Hinst | ]| exact Hsize]].
    + apply Z.ltb_lt in Hnum. rewrite Hnum, Hinst. cbn [negb].
      destruct (dmx_parameter_get st dmx_num RDM_SUB_DEVICE_ROOT
                  RDM_PID_SOFTWARE_VERSION_LABEL); [reflexivity | contradiction].
    + intros Hnone. contradiction.
  - intros [Hport | Hno].
    + apply Z.ltb_ge in Hport. rewrite Hport. reflexivity.
    + rewrite Hno. destruct (negb (dmx_num <? DMX_NUM_MAX)); reflexivity.
Qed.
End DeviceInfo.

(** The one-port driver before anything is registered: port 0, and port 1
    that has no driver. *)
Lemma get_device_info_assigns_every_field_witness :
  let stale :=
    {| model_id := 0xdead; product_category := 0xbeef;
       software_version_id := 0xdeadbeef; footprint := 0xdead;
       personality_current := 0xde; personality_count := 0xad;
       dmx_start_address := 0xbeef; sub_device_count := 0xdead;
       sensor_count := 0xbe |} in
  let info :=
    {| model_id := 0xffff; product_category := 0xffff;
       software_version_id := 0xffffffff; footprint := 4;
       personality_current := 1; personality_count := 3;
       dmx_start_address := 1; sub_device_count := 0; sensor_count := 0 |} in
  0 < DMX_NUM_MAX (DmxDriver := simple_driver)
  /\ dmx_driver_is_installed (DmxDriver := simple_driver) [] 0 = true
  /\ rdm_get_device_info (P := simple_product_info) [] 0 (Some stale)
     = (20, Some info)
  /\ rdm_get_device_info (P := simple_product_info) [] 0 (Some stale)
     = rdm_get_device_info (P := simple_product_info) [] 0 (Some info)
  /\ rdm_get_device_info (P := simple_product_info) [] 1 (Some stale)
     = (0, Some stale).
Proof.
  intros stale info.
  assert (0 < DMX_NUM_MAX (DmxDriver := simple_driver)) as H1 by reflexivity.
  assert (dmx_driver_is_installed (DmxDriver := simple_driver) [] 0 = true) as H2
    by reflexivity.
  destruct (get_device_info_assigns_every_field (P := simple_product_info) [] 0
              stale info H1 H2) as (_ & G2 & _ & G4 & _).
  split; [exact H1|]. split; [exact H2|]. split; [reflexivity|].
  split; [exact G2|].
  apply (G4 [] 1). right. reflexivity.
Defined.

(** The handler on port 0 and on port 1 of the one-port driver. *)
Lemma device_info_handler_nacks_without_driver_witness :
  let stale :=
    {| model_id := 0xdead; product_category := 0xbeef;
       software_version_id := 0xdeadbeef; footprint := 0xdead;
       personality_current := 0xde; personality_count := 0xad;
       dmx_start_address := 0xbeef; sub_device_count := 0xdead;
       sensor_count := 0xbe |} in
  sizeof_rdm_device_info_t (ProductInfoDriver := simple_product_info) <> 0
  /\ rdm_rhd_get_device_info (P := simple_product_info) [] 1
       device_label_definition stale
     = NackReason 0x0002.
Proof.
  intros stale.
  assert (sizeof_rdm_device_info_t (ProductInfoDriver := simple_product_info) <> 0)
    as H1 by discriminate.
  split; [exact H1|].
  apply (proj1 (device_info_handler_nacks_without_driver
                  (P := simple_product_info) [] 1 device_label_definition stale H1)).
  right. reflexivity.
Defined.

(** The label 1.0 on the one-port driver: new, it is stored with the size
    3; registered again, it reaches [dmx_driver_add_parameter], which
    refuses the duplicate; and a null label once the parameter exists. *)
Lemma register_software_version_label_checks_new_labels_only_witness :
  rdm_register_software_version_label (P := simple_product_info) [] 0
    (Some [49; 46; 48; 0]) tt
  = Returns true [(0, 0x00c0, [49; 46; 48; 0])]
  /\ strnlen [49; 46; 48; 0] 32 = 3
  /\ rdm_register_software_version_label (P := simple_product_info)
       [(0, 0x00c0, [49; 46; 48; 0])] 0 (Some [49; 46; 48; 0]) tt
     = Returns false [(0, 0x00c0, [49; 46; 48; 0])]
  /\ rdm_register_software_version_label (P := simple_product_info)
       [(0, 0x00c0, [49; 46; 48; 0])] 0 None tt
     = Undefined.
Proof.
  pose proof (register_software_version_label_checks_new_labels_only
                (P := simple_product_info) [] 0 [49; 46; 48; 0] tt) as H.
  cbv zeta in H. destruct H as (_ & _ & H3 & _).
  destruct H3 as (G1 & _ & _);
    [reflexivity | reflexivity | reflexivity
    | exists 3%nat; split; [lia | reflexivity] |].
  split; [rewrite G1; reflexivity|]. split; [reflexivity|].
  pose proof (register_software_version_label_checks_new_labels_only
                (P := simple_product_info) [(0, 0x00c0, [49; 46; 48; 0])] 0
                [49; 46; 48; 0] tt) as H.
  cbv zeta in H. destruct H as (_ & _ & _ & H4 & _).
  destruct H4 as (G1' & G2' & _); [discriminate | reflexivity | reflexivity |].
  split; [rewrite G2'; reflexivity | exact G1'].
Defined.
